(** * MeetFlow: the transcription and analysis services

    A shallow embedding of [backend/services/analysis_service.py],
    [backend/services/transcription_service.py] and of the action-item
    rendering of [frontend/app.py].

    Python objects are explicit values, raised exceptions are the [Raise]
    branch of [result], and every collaborator with an effect (the Groq
    endpoint, the Whisper model, the file system) is threaded as state. *)

From Stdlib Require Import ZArith NArith String Ascii Lia DecimalString.
From stdpp Require Import base option list gmap.

Set Default Proof Using "Type".
Set Warnings "-register-all,-abstract-large-number".
Open Scope list_scope.

(** ** Python strings

    A Python [str] is a sequence of code points: [len] is [length], the slice
    [s[:n]] is [take n s] and [+] is [++]. *)

Abbreviation bytes := (list N).
Abbreviation str := (list N).

(** A literal of the source, written in ASCII. *)
Definition py (s : string) : str :=
  (fun a => N_of_ascii a) <$> list_ascii_of_string s.
Arguments py s%_string.

(** [str(n)] for a natural number *)
Definition decimal (n : nat) : str :=
  (fun a => N_of_ascii a)
    <$> list_ascii_of_string (NilZero.string_of_uint (Nat.to_uint n)).

Definition dq : str := [34%N].
Definition nl : str := [10%N].
Definition space : N := 32%N.

Definition str_eqb (a b : str) : bool := bool_decide (a = b).

(** [str.isspace] on one code point: the characters with bidirectional type
    WS, B or S, or of category Zs. *)
Definition isspace (c : N) : bool :=
  ((9 <=? c) && (c <=? 13) || (28 <=? c) && (c <=? 32)
   || (c =? 133) || (c =? 160) || (c =? 5760)
   || (8192 <=? c) && (c <=? 8202)
   || (c =? 8232) || (c =? 8233) || (c =? 8239) || (c =? 8287)
   || (c =? 12288))%N.

Fixpoint lstrip (s : str) : str :=
  match s with
  | c :: r => if isspace c then lstrip r else s
  | [] => []
  end.

Definition rstrip (s : str) : str := reverse (lstrip (reverse s)).

(** [s.strip()]: the slice between the first and the last character that is
    not white space. *)
Definition strip (s : str) : str := rstrip (lstrip s).

(** [s] has nothing but white space (or nothing at all) *)
Definition blank (s : str) : bool := forallb isspace s.

(** The texts of [texts] in their order, separated by a single space: the
    wording of the specification for the transcript before it is trimmed. *)
Fixpoint spec_join (texts : list str) : str :=
  match texts with
  | [] => []
  | [t] => t
  | t :: rest => t ++ [space] ++ spec_join rest
  end.

(** ** Exceptions and results *)

Inductive exception : Type :=
| JSONDecodeError (msg : str)
| TypeError (msg : str)
| IndexError (msg : str)
| AttributeError (msg : str)
| ValueError (msg : str)
| RecursionError (msg : str)
| OSError (msg : str)
| Exception (msg : str)
| LibraryError (cls : str) (msg : str).
(** [LibraryError] stands for any other subclass of [Exception] raised by a
    collaborator (connection, authentication and rate-limit errors of the
    Groq client, decoding errors of the Whisper model).  Exceptions outside
    [Exception] ([KeyboardInterrupt], [SystemExit]) are not modelled. *)

(** [str(e)] *)
Definition exc_str (e : exception) : str :=
  match e with
  | JSONDecodeError m | TypeError m | IndexError m | AttributeError m
  | ValueError m | RecursionError m | OSError m | Exception m
  | LibraryError _ m => m
  end.

(** [str(x)] for a variable holding an exception or [None]. *)
Definition opt_exc_str (o : option exception) : str :=
  match o with
  | Some e => exc_str e
  | None => py "None"
  end.

Definition is_JSONDecodeError (e : exception) : bool :=
  match e with JSONDecodeError _ => true | _ => false end.

Inductive result (A : Type) : Type :=
| Return (a : A)
| Raise (e : exception).
Arguments Return {A} a.
Arguments Raise {A} e.

Definition bind {A B} (r : result A) (k : A -> result B) : result B :=
  match r with
  | Return a => k a
  | Raise e => Raise e
  end.

Definition returns {A} (r : result A) : bool :=
  match r with Return _ => true | Raise _ => false end.

(** ** Python values

    What [json.loads] produces and what the services return.  A [dict] keeps
    its items in insertion order with unique keys.  A float is kept as the
    decimal literal that denotes it. *)

Inductive value : Type :=
| PyNone
| PyBool (b : bool)
| PyInt (z : Z)
| PyFloat (literal : str)
| PyStr (s : str)
| PyList (items : list value)
| PyDict (items : list (str * value)).

(** [d.get(k)] on the items of a dict. *)
Fixpoint dict_lookup (d : list (str * value)) (k : str) : option value :=
  match d with
  | [] => None
  | (k', v) :: r => if str_eqb k k' then Some v else dict_lookup r k
  end.

(** [d[k] = v] *)
Fixpoint dict_set (d : list (str * value)) (k : str) (v : value)
  : list (str * value) :=
  match d with
  | [] => [(k, v)]
  | (k', v') :: r =>
      if str_eqb k k' then (k', v) :: r else (k', v') :: dict_set r k v
  end.

Definition is_None (v : value) : bool :=
  match v with PyNone => true | _ => false end.

(** [analysis_data["action_items"][i][field]] when the result has that shape
    and the item has the field. *)
Definition action_item_field (analysis_data : value) (i : nat) (field : str)
  : option value :=
  match analysis_data with
  | PyDict d =>
      match dict_lookup d (py "action_items") with
      | Some (PyList items) =>
          match items !! i with
          | Some (PyDict item) => dict_lookup item field
          | _ => None
          end
      | _ => None
      end
  | _ => None
  end.

(** ** A reference JSON decoder

    [json.loads] belongs to the Python library, not to this repository: the
    services below take the decoder as a parameter.  [Json.loads] is the
    decoder they are run with on concrete inputs.  It follows the scanner of
    the [json] module: the four white-space characters between tokens,
    [null], [true], [false], [NaN], [Infinity], [-Infinity], numbers,
    strings with their escapes, arrays and objects (a repeated key keeps its
    first position and its last value).  It raises what [json.loads] raises:
    [JSONDecodeError] for a text that is not JSON, [ValueError] for an
    integer of more digits than [int] converts, and [RecursionError] when
    arrays and objects are nested deeper than the interpreter has room for.
    The message of a [JSONDecodeError], which nothing in this repository
    reads, is given without the position. *)

Module Json.

Definition malformed {A} (msg : string) : result A :=
  Raise (JSONDecodeError (py msg)).
Arguments malformed {A} msg%_string.

Definition is_ws (c : N) : bool :=
  ((c =? 32) || (c =? 9) || (c =? 10) || (c =? 13))%N.

Definition is_digit (c : N) : bool := ((48 <=? c) && (c <=? 57))%N.

Fixpoint skip_ws (s : str) : str :=
  match s with
  | c :: r => if is_ws c then skip_ws r else s
  | [] => []
  end.

Fixpoint strip_prefix (p s : str) : option str :=
  match p, s with
  | [], _ => Some s
  | a :: p', b :: s' => if (a =? b)%N then strip_prefix p' s' else None
  | _ :: _, [] => None
  end.

Fixpoint span_digits (s : str) : str * str :=
  match s with
  | c :: r =>
      if is_digit c then let '(ds, r') := span_digits r in (c :: ds, r')
      else ([], s)
  | [] => ([], [])
  end.

(** the integer part of a number: an optional minus sign, then a single
    zero or a digit from 1 to 9 followed by digits *)
Definition scan_integer (s : str) : option (str * str) :=
  let '(sign, r) := match s with
                    | 45%N :: r => ([45%N], r)
                    | _ => ([], s)
                    end in
  match r with
  | c :: r' =>
      if (c =? 48)%N then Some (sign ++ [c], r')
      else if is_digit c then
        let '(ds, r'') := span_digits r' in Some (sign ++ c :: ds, r'')
      else None
  | [] => None
  end.

(** the optional fraction: a dot and at least one digit *)
Definition scan_frac (s : str) : str * str :=
  match s with
  | 46%N :: r =>
      match span_digits r with
      | ([], _) => ([], s)
      | (ds, r') => (46%N :: ds, r')
      end
  | _ => ([], s)
  end.

(** the optional exponent: e or E, an optional sign, at least one digit *)
Definition scan_exp (s : str) : str * str :=
  match s with
  | c :: r =>
      if ((c =? 101) || (c =? 69))%N then
        let '(sign, r1) := match r with
                           | sg :: r1 =>
                               if ((sg =? 43) || (sg =? 45))%N
                               then ([sg], r1) else ([], r)
                           | [] => ([], r)
                           end in
        match span_digits r1 with
        | ([], _) => ([], s)
        | (ds, r2) => (c :: sign ++ ds, r2)
        end
      else ([], s)
  | [] => ([], s)
  end.

(** the number written with the digits [ds] *)
Definition digits_value (ds : str) : Z :=
  fold_left (fun acc c => (10 * acc + (Z.of_N c - 48))%Z) ds 0%Z.

(** the value of a literal matched by [scan_integer] *)
Definition int_of_literal (lit : str) : Z :=
  match lit with
  | 45%N :: ds => (- digits_value ds)%Z
  | ds => digits_value ds
  end.

(** [sys.get_int_max_str_digits()], as the interpreter is started *)
Definition int_max_str_digits : nat := 4300.

(** [int(literal)]: the conversion is refused beyond the limit on the
    number of digits, the sign not counted. *)
Definition int (lit : str) : result Z :=
  let digits := length (filter (fun c => is_digit c = true) lit) in
  if int_max_str_digits <? digits
  then Raise (ValueError
                (py "Exceeds the limit (" ++ decimal int_max_str_digits
                 ++ py " digits) for integer string conversion: value has "
                 ++ decimal digits
                 ++ py " digits; use sys.set_int_max_str_digits() to increase the limit"))
  else Return (int_of_literal lit).

Definition hex_digit (c : N) : option N :=
  if is_digit c then Some (c - 48)%N
  else if ((97 <=? c) && (c <=? 102))%N then Some (c - 87)%N
  else if ((65 <=? c) && (c <=? 70))%N then Some (c - 55)%N
  else None.

(** the four hexadecimal digits of a [\uXXXX] escape *)
Definition scan_hex4 (s : str) : option (N * str) :=
  match s with
  | a :: b :: c :: d :: r =>
      match hex_digit a, hex_digit b, hex_digit c, hex_digit d with
      | Some a, Some b, Some c, Some d =>
          Some (((a * 16 + b) * 16 + c) * 16 + d, r)%N
      | _, _, _, _ => None
      end
  | _ => None
  end.

Definition simple_escape (c : N) : option N :=
  match c with
  | 34%N => Some 34%N       (* quote *)
  | 92%N => Some 92%N       (* backslash *)
  | 47%N => Some 47%N       (* slash *)
  | 98%N => Some 8%N        (* b *)
  | 102%N => Some 12%N      (* f *)
  | 110%N => Some 10%N      (* n *)
  | 114%N => Some 13%N      (* r *)
  | 116%N => Some 9%N       (* t *)
  | _ => None
  end.

(** The body of a string literal, after its opening quote. *)
Fixpoint scanstring (fuel : nat) (s : str) : result (str * str) :=
  match fuel with
  | O => malformed "Unterminated string starting at"
  | S fuel =>
      match s with
      | [] => malformed "Unterminated string starting at"
      | 34%N :: r => Return ([], r)
      | 92%N :: 117%N :: r =>
          match scan_hex4 r with
          | None => malformed "Invalid \uXXXX escape"
          | Some (hi, r1) =>
              let pair :=
                if ((55296 <=? hi) && (hi <=? 56319))%N then
                  match r1 with
                  | 92%N :: 117%N :: r2 =>
                      match scan_hex4 r2 with
                      | Some (lo, r3) =>
                          if ((56320 <=? lo) && (lo <=? 57343))%N
                          then Some ((65536 + ((hi - 55296) * 1024
                                               + (lo - 56320)))%N, r3)
                          else None
                      | None => None
                      end
                  | _ => None
                  end
                else None in
              let '(c, r') := default (hi, r1) pair in
              bind (scanstring fuel r') (fun '(t, rest) => Return (c :: t, rest))
          end
      | 92%N :: e :: r =>
          match simple_escape e with
          | None => malformed "Invalid \escape"
          | Some c =>
              bind (scanstring fuel r) (fun '(t, rest) => Return (c :: t, rest))
          end
      | [92%N] => malformed "Unterminated string starting at"
      | c :: r =>
          if (c <? 32)%N then malformed "Invalid control character at"
          else
            bind (scanstring fuel r) (fun '(t, rest) => Return (c :: t, rest))
      end
  end.

Section Containers.
(** the scanner for one value, [scan_once] *)
Variable scan_once : str -> result (value * str).

(** The elements of an array, after the first one. *)
Fixpoint array_tail (fuel : nat) (acc : list value) (s : str)
  : result (value * str) :=
  match fuel with
  | O => malformed "Expecting value"
  | S fuel =>
      match skip_ws s with
      | 93%N :: r => Return (PyList (reverse acc), r)
      | 44%N :: r =>
          match scan_once (skip_ws r) with
          | Return (v, r') => array_tail fuel (v :: acc) r'
          | Raise e => Raise e
          end
      | _ => malformed "Expecting ',' delimiter"
      end
  end.

Definition parse_array (s : str) : result (value * str) :=
  match skip_ws s with
  | 93%N :: r => Return (PyList [], r)
  | s' =>
      match scan_once s' with
      | Return (v, r) => array_tail (length r) [v] r
      | Raise e => Raise e
      end
  end.

(** One [key : value] pair; [s] starts at the key's opening quote. *)
Definition parse_pair (s : str) : result ((str * value) * str) :=
  match s with
  | 34%N :: r =>
      match scanstring (length r) r with
      | Return (k, r1) =>
          match skip_ws r1 with
          | 58%N :: r2 =>
              bind (scan_once (skip_ws r2)) (fun '(v, r3) => Return ((k, v), r3))
          | _ => malformed "Expecting ':' delimiter"
          end
      | Raise e => Raise e
      end
  | _ => malformed "Expecting property name enclosed in double quotes"
  end.

Fixpoint object_tail (fuel : nat) (acc : list (str * value)) (s : str)
  : result (value * str) :=
  match fuel with
  | O => malformed "Expecting value"
  | S fuel =>
      match skip_ws s with
      | 125%N :: r => Return (PyDict acc, r)
      | 44%N :: r =>
          match parse_pair (skip_ws r) with
          | Return ((k, v), r') => object_tail fuel (dict_set acc k v) r'
          | Raise e => Raise e
          end
      | _ => malformed "Expecting ',' delimiter"
      end
  end.

Definition parse_object (s : str) : result (value * str) :=
  match skip_ws s with
  | 125%N :: r => Return (PyDict [], r)
  | s' =>
      match parse_pair s' with
      | Return (kv, r) => object_tail (length r) [kv] r
      | Raise e => Raise e
      end
  end.
End Containers.

(** A number: a float when it has a fraction or an exponent, and else what
    [int] makes of its digits. *)
Definition scan_number (s : str) : option (result (value * str)) :=
  match scan_integer s with
  | Some (integer, r) =>
      let '(frac, r1) := scan_frac r in
      let '(exp, r2) := scan_exp r1 in
      match frac, exp with
      | [], [] => Some (bind (int integer) (fun z => Return (PyInt z, r2)))
      | _, _ => Some (Return (PyFloat (integer ++ frac ++ exp), r2))
      end
  | None => None
  end.

Definition scan_keyword (s : str) : option (value * str) :=
  let kw (w : str) (v : value) := (fun r => (v, r)) <$> strip_prefix w s in
  kw (py "null") PyNone
    ∪ kw (py "true") (PyBool true)
    ∪ kw (py "false") (PyBool false).

Definition scan_constant (s : str) : option (value * str) :=
  let kw (w : str) := (fun r => (PyFloat w, r)) <$> strip_prefix w s in
  kw (py "NaN") ∪ kw (py "Infinity") ∪ kw (py "-Infinity").

Definition too_deep {A} (what : string) : result A :=
  Raise (RecursionError
           (py "maximum recursion depth exceeded while decoding a JSON "
            ++ py what ++ py " from a unicode string")).
Arguments too_deep {A} what%_string.

(** [scan_once].  Entering an array or an object takes one level of the
    interpreter's recursion, of which [room] are left. *)
Fixpoint scan (room : nat) (s : str) : result (value * str) :=
  match s with
  | 34%N :: r =>
      bind (scanstring (length r) r) (fun '(t, r') => Return (PyStr t, r'))
  | 123%N :: r =>
      match room with
      | O => too_deep "object"
      | S room => parse_object (scan room) r
      end
  | 91%N :: r =>
      match room with
      | O => too_deep "array"
      | S room => parse_array (scan room) r
      end
  | _ =>
      match (Return <$> scan_keyword s) ∪ scan_number s
            ∪ (Return <$> scan_constant s) with
      | Some found => found
      | None => malformed "Expecting value"
      end
  end.

(** [json.loads(s)] for a [str]: one value, white space around it and
    nothing else. *)
Definition loads (room : nat) (s : str) : result value :=
  match s with
  | 65279%N :: _ => malformed "Unexpected UTF-8 BOM (decode using utf-8-sig)"
  | _ =>
      match scan room (skip_ws s) with
      | Return (v, r) =>
          match skip_ws r with
          | [] => Return v
          | _ :: _ => malformed "Extra data"
          end
      | Raise e => Raise e
      end
  end.

(** The literal of a float denotes [m * 10 ^ e]: [m] is the number written
    by the digits of its integer part and of its fraction, [e] is its
    exponent less the number of digits of the fraction. *)
Definition float_parts (literal : str) : option (Z * Z) :=
  match scan_integer literal with
  | Some (integer, r) =>
      let '(frac, r1) := scan_frac r in
      let '(exp, r2) := scan_exp r1 in
      let exponent :=
        match exp with
        | _ :: 45%N :: ds => (- digits_value ds)%Z
        | _ :: 43%N :: ds | _ :: ds => digits_value ds
        | [] => 0%Z
        end in
      match r2 with
      | [] => Some (Z.abs (int_of_literal (integer ++ drop 1 frac)),
                    (exponent - Z.of_nat (length (drop 1 frac)))%Z)
      | _ :: _ => None
      end
  | None => None
  end.

(** [float(literal) == 0]: the conversion rounds to the nearest binary64,
    ties to even, so that it gives zero exactly for the numbers of
    magnitude [2 ^ -1075] at most, half the smallest positive float. [NaN]
    and the infinities are not zero. *)
Definition float_is_zero (literal : str) : bool :=
  match float_parts literal with
  | Some (m, e) =>
      ((m =? 0) || (e <? 0) && (m * 2 ^ 1075 <=? 10 ^ (- e)))%Z
  | None => false
  end.

End Json.

(** The decoder of the runs below.  Their interpreter has room for
    [recursion_room] nested arrays and objects when [json.loads] is entered;
    how many that is depends on the interpreter, on its recursion limit and
    on the depth of the call. *)
Definition recursion_room : nat := 900.

Definition json_decode : str -> result value := Json.loads recursion_room.

(** ** The Groq client

    The part of the client library that the analysis service touches: the
    arguments of [chat.completions.create] and the fields read from what it
    returns.  [content] is optional in the client's types and [choices] is a
    list, so [response.choices[0].message.content] may raise or be [None]. *)

Module Groq.

Record ChatCompletionMessage : Type := { content : option str }.
Record Choice : Type := { message : ChatCompletionMessage }.
Record ChatCompletion : Type := { choices : list Choice }.

(** one entry of [messages]: its ["role"] and its ["content"] *)
Record ChatMessage : Type := { role : str; text : str }.

Record Request : Type := {
  model : str;
  messages : list ChatMessage;
  temperature : str;        (* the decimal literal of the source *)
  response_format : str     (* the ["type"] of the format *)
}.

(** A completion with one choice carrying [c]. *)
Definition completion (c : option str) : ChatCompletion :=
  {| choices := [ {| message := {| content := c |} |} ] |}.

(** [response.choices[0].message.content] *)
Definition first_content (r : ChatCompletion) : result (option str) :=
  match choices r with
  | c :: _ => Return (content (message c))
  | [] => Raise (IndexError (py "list index out of range"))
  end.

End Groq.

(** ** analysis_service.py *)

Module AnalysisService.
Import Groq.

Definition quoted (s : str) : str := dq ++ s ++ dq.

Definition system_prompt : str :=
  py "You are an expert assistant for analyzing professional meetings." ++ nl
  ++ py "        Analyze a meeting transcription and provide:" ++ nl
  ++ py "        1. A concise executive summary (3-4 sentences)" ++ nl
  ++ py "        2. A list of action items with identified responsible persons" ++ nl
  ++ py "        " ++ nl
  ++ py "        Respond ONLY in JSON format with this exact structure:" ++ nl
  ++ py "        {" ++ nl
  ++ py "            " ++ quoted (py "resume_executif") ++ py ": "
  ++ quoted (py "Concise summary in 3-4 sentences (use the same language as the transcription)")
  ++ py "," ++ nl
  ++ py "            " ++ quoted (py "action_items") ++ py ": [" ++ nl
  ++ py "                {" ++ quoted (py "tache") ++ py ": "
  ++ quoted (py "Task description") ++ py ", " ++ quoted (py "responsable")
  ++ py ": " ++ quoted (py "Person's name or 'To be determined'") ++ py "}," ++ nl
  ++ py "                ..." ++ nl
  ++ py "            ]" ++ nl
  ++ py "        }" ++ nl
  ++ py "        " ++ nl
  ++ py "        Use the same language as the transcription (English or French).".

Definition default_models : list str :=
  [ py "llama-3.1-8b-instant"; py "llama-3.3-70b-versatile";
    py "mixtral-8x7b-32768" ].

(** The arguments of the one request made for [model_name]. *)
Definition request (transcription_text model_name : str) : Request :=
  {| model := model_name;
     messages :=
       [ {| role := py "system"; text := system_prompt |};
         {| role := py "user";
            text := py "Analyze this meeting transcription:" ++ nl ++ nl
                    ++ transcription_text |} ];
     temperature := py "0.7";
     response_format := py "json_object" |}.

(** The fallback dict of the [JSONDecodeError] handler; [len(None)] raises. *)
Definition fallback (raw_content : option str) : result value :=
  match raw_content with
  | Some raw =>
      Return (PyDict
                [ (py "resume_executif",
                   PyStr (if 500 <? length raw then take 500 raw else raw));
                  (py "action_items", PyList []) ])
  | None => Raise (TypeError (py "object of type 'NoneType' has no len()"))
  end.

(** The local variables that live across the iterations. *)
Record Locals : Type := {
  analysis_data : value;
  last_error : option exception;
  response : option ChatCompletion
}.

(** How one iteration, and the loop, is left. *)
Inductive Flow : Type :=
| Continue (l : Locals)    (* [continue], or the list is used up *)
| Break (l : Locals)       (* [break] *)
| Escape (e : exception).  (* an exception leaves the function *)

Section Service.
(** The remote endpoint behind [self.client]: whatever decides its
    replies is its state. *)
Context {Endpoint : Type}.
Variable create : Request -> Endpoint -> result ChatCompletion * Endpoint.

(** [json.loads] on a [str]: the decoded value, or what it raises, a
    [JSONDecodeError] for a text that is not JSON and another exception
    when the interpreter gives up on a text that is (too many digits in an
    integer, arrays and objects nested too deep). *)
Variable json_loads : str -> result value.

(** The endpoint together with the requests sent to it so far. *)
Record Session : Type := { endpoint : Endpoint; sent : list Request }.

Definition client_create (req : Request) (s : Session)
  : result ChatCompletion * Session :=
  let '(r, e) := create req (endpoint s) in
  (r, {| endpoint := e; sent := sent s ++ [req] |}).

(** [json.loads(x)] where [x] may be [None]. *)
Definition loads (x : option str) : result value :=
  match x with
  | Some s => json_loads s
  | None =>
      Raise (TypeError
               (py "the JSON object must be str, bytes or bytearray, not NoneType"))
  end.

(** The two [except] clauses, entered with exception [e]. *)
Definition handler (e : exception) (l : Locals) : Flow :=
  if is_JSONDecodeError e then
    match response l with
    | Some r =>
        match bind (first_content r) fallback with
        | Return d =>
            Break {| analysis_data := d; last_error := Some e;
                     response := response l |}
        | Raise e' => Escape e'
        end
    | None =>
        Continue {| analysis_data := analysis_data l; last_error := Some e;
                    response := response l |}
    end
  else
    Continue {| analysis_data := analysis_data l; last_error := Some e;
                response := response l |}.

(** The body of the [for] loop for one model name. *)
Definition attempt (transcription_text model_name : str)
    (l : Locals) (s : Session) : Flow * Session :=
  match client_create (request transcription_text model_name) s with
  | (Return r, s') =>
      let l' := {| analysis_data := analysis_data l;
                   last_error := last_error l; response := Some r |} in
      match bind (first_content r) loads with
      | Return v =>
          (Break {| analysis_data := v; last_error := last_error l;
                    response := Some r |}, s')
      | Raise e => (handler e l', s')
      end
  | (Raise e, s') => (handler e l, s')
  end.

Fixpoint for_models (transcription_text : str) (models : list str)
    (l : Locals) (s : Session) : Flow * Session :=
  match models with
  | [] => (Continue l, s)
  | model_name :: rest =>
      match attempt transcription_text model_name l s with
      | (Continue l', s') => for_models transcription_text rest l' s'
      | exit => exit
      end
  end.

Definition initial : Locals :=
  {| analysis_data := PyNone; last_error := None; response := None |}.

(** What follows the loop. *)
Definition conclude (l : Locals) : result value :=
  if is_None (analysis_data l)
  then Raise (Exception (py "All models failed. Last error: "
                         ++ opt_exc_str (last_error l)))
  else Return (analysis_data l).

Definition analyze_meeting (transcription_text : str)
    (models_to_try : option (list str)) (s : Session)
  : result value * Session :=
  let models := default default_models models_to_try in
  match for_models transcription_text models initial s with
  | (Continue l, s') | (Break l, s') => (conclude l, s')
  | (Escape e, s') => (Raise e, s')
  end.

(** the session [s] after the requests [reqs], the endpoint being left
    in state [e] *)
Definition after (e : Endpoint) (s : Session) (reqs : list Request)
  : Session :=
  {| endpoint := e; sent := sent s ++ reqs |}.

(** A candidate fails at the request level when [create] raises for it.
    [failures t e models e' last]: every candidate of [models] does, one
    after the other from the endpoint state [e] to [e'], and [last] is
    what the last of them raised. *)
Inductive failures (t : str) (e : Endpoint)
  : list str -> Endpoint -> option exception -> Prop :=
| failures_nil : failures t e [] e None
| failures_snoc models m e1 e2 last err :
    failures t e models e1 last ->
    create (request t m) e1 = (Raise err, e2) ->
    failures t e (models ++ [m]) e2 (Some err).

End Service.

Arguments Session : clear implicits.
Arguments endpoint {Endpoint} s.
Arguments sent {Endpoint} s.

End AnalysisService.

(** ** The operating system, as the transcription service sees it

    The files on disk with their content, the paths that [os.unlink] refuses
    to remove (a permission or a lock held by another process), the free
    space in bytes, the size of the buffer that [open] gives a file object
    (it takes the block size that the file system reports), the names the
    temporary directory will try next, and what was printed. *)

Record OS : Type := {
  files : gmap str bytes;
  pinned : gset str;
  free : N;
  buffer_size : N;
  tmp_names : list str;
  stdout : list str
}.

Module Os.

(** [str(e)] for an [OSError] about the file [p] *)
Definition errno_str (what p : str) : str := what ++ py ": '" ++ p ++ py "'".

Definition no_space : exception :=
  OSError (py "[Errno 28] No space left on device").

(** [os.path.exists(p)] *)
Definition path_exists (p : str) (os : OS) : bool :=
  bool_decide (is_Some (files os !! p)).

(** [os.unlink(p)]; the space of the file is free again. *)
Definition unlink (p : str) (os : OS) : result unit * OS :=
  match files os !! p with
  | None =>
      (Raise (OSError (errno_str (py "[Errno 2] No such file or directory") p)),
       os)
  | Some data =>
      if bool_decide (p ∈ pinned os)
      then (Raise (OSError (errno_str (py "[Errno 13] Permission denied") p)),
            os)
      else (Return (),
            {| files := delete p (files os); pinned := pinned os;
               free := free os + N.of_nat (length data);
               buffer_size := buffer_size os;
               tmp_names := tmp_names os; stdout := stdout os |})
  end.

(** [print(line)] *)
Definition print (line : str) (os : OS) : OS :=
  {| files := files os; pinned := pinned os; free := free os;
     buffer_size := buffer_size os; tmp_names := tmp_names os;
     stdout := stdout os ++ [line] |}.

(** An open file object: the path it was opened under, its [name], and the
    bytes that [write] has taken and not yet passed to the system. *)
Record File : Type := { name : str; buffer : bytes }.

(** The first of the names under which, with [suffix], no file exists, and
    the names that follow it: the file is opened for exclusive creation, and
    a name that is taken makes the library try the next one. *)
Fixpoint free_name (suffix : str) (names : list str) (os : OS)
  : option (str * list str) :=
  match names with
  | [] => None
  | stem :: rest =>
      if path_exists (stem ++ suffix) os then free_name suffix rest os
      else Some (stem ++ suffix, rest)
  end.

(** [tempfile.NamedTemporaryFile(delete=False, suffix=suffix)]: a new, empty
    file under a name of the temporary directory, open for writing. *)
Definition NamedTemporaryFile (suffix : str) (os : OS) : result File * OS :=
  match free_name suffix (tmp_names os) os with
  | None =>
      (Raise (OSError (py "[Errno 17] No usable temporary file name found")),
       os)
  | Some (p, rest) =>
      (Return {| name := p; buffer := [] |},
       {| files := <[p := []]> (files os); pinned := pinned os;
          free := free os; buffer_size := buffer_size os;
          tmp_names := rest; stdout := stdout os |})
  end.

(** One [write] of the system on the file open under [p]: it appends as
    many of the bytes as there is room for and says how many; with no room
    at all it refuses. *)
Definition raw_write (p : str) (data : bytes) (os : OS) : result nat * OS :=
  match data with
  | [] => (Return 0, os)
  | _ :: _ =>
      if (free os =? 0)%N then (Raise no_space, os)
      else
        let n := N.to_nat (N.min (N.of_nat (length data)) (free os)) in
        (Return n,
         {| files := alter (fun old => old ++ take n data) p (files os);
            pinned := pinned os; free := free os - N.of_nat n;
            buffer_size := buffer_size os; tmp_names := tmp_names os;
            stdout := stdout os |})
  end.

(** The buffer goes to the system, in as many writes as it takes, until
    one of them is refused; what was not written stays in the buffer.
    Every write that is not refused takes a byte at least, so that
    [length buf] rounds are enough. *)
Fixpoint flush_loop (rounds : nat) (p : str) (buf : bytes) (os : OS)
  : result unit * bytes * OS :=
  match buf, rounds with
  | [], _ | _, O => (Return (), buf, os)
  | _ :: _, S rounds =>
      match raw_write p buf os with
      | (Return n, os) => flush_loop rounds p (drop n buf) os
      | (Raise e, os) => (Raise e, buf, os)
      end
  end.

(** [f.flush()] *)
Definition flush (f : File) (os : OS) : result unit * File * OS :=
  let '(r, buf, os) := flush_loop (length (buffer f)) (name f) (buffer f) os in
  (r, {| name := name f; buffer := buf |}, os).

(** The part of [f.write(data)] for data that the buffer cannot hold: the
    data go to the system directly, until what remains of them fits into
    the buffer. *)
Fixpoint write_loop (rounds : nat) (p : str) (remaining : bytes) (os : OS)
  : result bytes * OS :=
  if (N.of_nat (length remaining) <=? buffer_size os)%N
  then (Return remaining, os)
  else
    match rounds with
    | O => (Return remaining, os)
    | S rounds =>
        match raw_write p remaining os with
        | (Return n, os) => write_loop rounds p (drop n remaining) os
        | (Raise e, os) => (Raise e, os)
        end
    end.

(** [f.write(data)], which returns the number of bytes taken: data that fit
    into the buffer are kept there; for longer data the buffer is flushed and
    the data are written through, their end being kept in the buffer. *)
Definition write (f : File) (data : bytes) (os : OS)
  : result N * File * OS :=
  if (N.of_nat (length data) <=? buffer_size os - N.of_nat (length (buffer f)))%N
  then (Return (N.of_nat (length data)),
        {| name := name f; buffer := buffer f ++ data |}, os)
  else
    match flush f os with
    | (Raise e, f, os) => (Raise e, f, os)
    | (Return _, f, os) =>
        match write_loop (length data) (name f) data os with
        | (Return rest, os) =>
            (Return (N.of_nat (length data)),
             {| name := name f; buffer := rest |}, os)
        | (Raise e, os) => (Raise e, f, os)
        end
    end.

(** [f.close()]: the buffer is flushed and the file is closed, also when
    the flush failed; its exception is raised then. *)
Definition close (f : File) (os : OS) : result unit * OS :=
  let '(r, _, os) := flush f os in (r, os).

(** [os'] is [os] after the bytes [added] went to the end of the file
    under [p]: the room they take is no longer free, and nothing else has
    changed. *)
Definition appended (p : str) (added : bytes) (os os' : OS) : Prop :=
  files os' = alter (fun old => old ++ added) p (files os)
  /\ (free os' + N.of_nat (length added))%N = free os
  /\ pinned os' = pinned os
  /\ buffer_size os' = buffer_size os
  /\ tmp_names os' = tmp_names os
  /\ stdout os' = stdout os.

(** [s] cut before the first occurrence of [stop] *)
Fixpoint until (stop : N) (s : str) : str * str :=
  match s with
  | c :: r =>
      if (c =? stop)%N then ([], s)
      else let '(a, b) := until stop r in (c :: a, b)
  | [] => ([], [])
  end.

(** [os.path.splitext(p)[1]] on a POSIX path: the suffix of the last
    component from its last dot on, unless only dots precede that dot. *)
Definition splitext_ext (p : str) : str :=
  let dot := 46%N in
  let basename_rev := fst (until 47%N (reverse p)) in
  let '(ext_rev, rest) := until dot basename_rev in
  match rest with
  | _ :: stem_rev =>
      if existsb (fun c => negb (c =? dot)%N) stem_rev
      then dot :: reverse ext_rev
      else []
  | [] => []
  end.

End Os.

(** ** faster-whisper

    What [WhisperModel.transcribe] returns: a generator of segments, which
    yields, ends or raises while it is iterated, and the detection data.
    The audio file is read by [transcribe] itself; the generator works on
    what was read. *)

Module Whisper.

Record Segment : Type := { text : str }.

Record TranscriptionInfo : Type := {
  language : str;
  language_probability : str;   (* the float, by its literal *)
  duration : option str         (* [None]: the attribute is missing *)
}.

Inductive Segments : Type :=
| Stop
| Yield (segment : Segment) (rest : Segments)
| Fail (e : exception).

(** the generator that yields the segments of [l] and goes on as [ending] *)
Fixpoint emit (l : list Segment) (ending : Segments) : Segments :=
  match l with
  | [] => ending
  | x :: r => Yield x (emit r ending)
  end.

(** it yields the segments of [l] and ends *)
Definition yielding (l : list Segment) : Segments := emit l Stop.

(** it yields the segments of [l] and raises [e] *)
Definition failing (l : list Segment) (e : exception) : Segments :=
  emit l (Fail e).

End Whisper.

(** ** transcription_service.py *)

Module TranscriptionService.
Import Whisper.

Record UploadedFile : Type := { name : str; getbuffer : bytes }.

(** The [for] loop over the generator, which it leaves exhausted; the
    second component is the generator afterwards. *)
Fixpoint accumulate (segments : Segments) (transcription_text : str)
  : result str * Segments :=
  match segments with
  | Stop => (Return transcription_text, Stop)
  | Yield segment rest =>
      accumulate rest (transcription_text ++ text segment ++ [space])
  | Fail e => (Raise e, Stop)
  end.

Definition metadata (info : TranscriptionInfo) : value :=
  PyDict [ (py "language", PyStr (language info));
           (py "language_probability", PyFloat (language_probability info));
           (py "duration", from_option PyFloat PyNone (duration info)) ].

Section Service.
Context {WhisperModel : Type}.
(** [WhisperModel(size, device=..., compute_type=...)], which looks for the
    weights of the model on the disk and downloads them when they are not
    there *)
Variable WhisperModel_new : str -> str -> str -> OS -> result WhisperModel * OS.
(** [model.transcribe(path, language=..., beam_size=...)], which reads
    the file at [path] *)
Variable model_transcribe :
  WhisperModel -> str -> option str -> Z -> OS
  -> result (Segments * TranscriptionInfo) * OS.

(** the attributes of a [TranscriptionService] object *)
Record Self : Type := { model_size : str; model : option WhisperModel }.

(** [TranscriptionService(model_size)] *)
Definition init (model_size : str) : Self :=
  {| model_size := model_size; model := None |}.

Definition load_model (self : Self) (os : OS)
  : result WhisperModel * Self * OS :=
  match model self with
  | None =>
      match WhisperModel_new (model_size self) (py "cpu") (py "int8") os with
      | (Return m, os) =>
          (Return m, {| model_size := model_size self; model := Some m |}, os)
      | (Raise e, os) =>
          (Raise (Exception (py "Error loading Whisper model: " ++ exc_str e)),
           self, os)
      end
  | Some m => (Return m, self, os)
  end.

(** The model that a call of [transcribe_audio_file] works with: the loaded
    one, or the one it loads. *)
Definition model_in_use (self : Self) (os : OS) : result WhisperModel * OS :=
  match model self with
  | Some m => (Return m, os)
  | None => WhisperModel_new (model_size self) (py "cpu") (py "int8") os
  end.

(** The [try] block of [transcribe_audio_file]. *)
Definition transcribe_body (self : Self) (audio_file_path : str)
    (language : option str) (beam_size : Z) (os : OS)
  : result (str * value) * OS :=
  match model self with
  | None =>
      (Raise (AttributeError
                (py "'NoneType' object has no attribute 'transcribe'")), os)
  | Some m =>
      match model_transcribe m audio_file_path language beam_size os with
      | (Return (segments, info), os) =>
          match fst (accumulate segments []) with
          | Return transcription_text =>
              (Return (strip transcription_text, metadata info), os)
          | Raise e => (Raise e, os)
          end
      | (Raise e, os) => (Raise e, os)
      end
  end.

Definition transcribe_audio_file (self : Self) (audio_file_path : str)
    (language : option str) (beam_size : Z) (os : OS)
  : result (str * value) * Self * OS :=
  let '(loaded, self, os) :=
    match model self with
    | None => load_model self os
    | Some m => (Return m, self, os)
    end in
  match loaded with
  | Raise e => (Raise e, self, os)
  | Return _ =>
      match transcribe_body self audio_file_path language beam_size os with
      | (Return r, os) => (Return r, self, os)
      | (Raise e, os) =>
          (Raise (Exception (py "Error during transcription: " ++ exc_str e)),
           self, os)
      end
  end.

(** The guard of both clean-up blocks:
    [temp_file_path and os.path.exists(temp_file_path)]. *)
Definition must_delete (temp_file_path : option str) (os : OS) : option str :=
  match temp_file_path with
  | Some p =>
      if negb (bool_decide (p = [])) && Os.path_exists p os
      then Some p else None
  | None => None
  end.

(** The clean-up of the [except] clause: a failure of [os.unlink] is
    passed over. *)
Definition cleanup_on_error (temp_file_path : option str) (os : OS) : OS :=
  match must_delete temp_file_path os with
  | Some p => snd (Os.unlink p os)
  | None => os
  end.

(** The [finally] clause: a failure of [os.unlink] is printed. *)
Definition cleanup_finally (temp_file_path : option str) (os : OS) : OS :=
  match must_delete temp_file_path os with
  | Some p =>
      match Os.unlink p os with
      | (Return _, os') => os'
      | (Raise e, os') =>
          Os.print (py "Warning: Unable to delete temporary file: "
                    ++ exc_str e) os'
      end
  | None => os
  end.

(** [os.path.splitext(uploaded_file.name)[1] or ".mp3"] *)
Definition file_extension (uploaded_file : UploadedFile) : str :=
  match Os.splitext_ext (name uploaded_file) with
  | [] => py ".mp3"
  | ext => ext
  end.

(** The [try] block of [transcribe_uploaded_file], with the value of
    [temp_file_path] when it is left: the assignment stands between
    [write] and [close]. *)
Definition upload_body (self : Self) (uploaded_file : UploadedFile)
    (language : option str) (beam_size : Z) (os : OS)
  : result (str * value) * option str * Self * OS :=
  match Os.NamedTemporaryFile (file_extension uploaded_file) os with
  | (Raise e, os) => (Raise e, None, self, os)
  | (Return temp_file, os) =>
      match Os.write temp_file (getbuffer uploaded_file) os with
      | (Raise e, _, os) => (Raise e, None, self, os)
      | (Return _, temp_file, os) =>
          let temp_file_path := Os.name temp_file in
          match Os.close temp_file os with
          | (Raise e, os) => (Raise e, Some temp_file_path, self, os)
          | (Return _, os) =>
              let '(r, self, os) :=
                transcribe_audio_file self temp_file_path language beam_size
                  os in
              (r, Some temp_file_path, self, os)
          end
      end
  end.

Definition transcribe_uploaded_file (self : Self)
    (uploaded_file : UploadedFile) (language : option str)
    (beam_size : Z) (os : OS)
  : result (str * value) * Self * OS :=
  match upload_body self uploaded_file language beam_size os with
  | (Return r, temp_file_path, self, os) =>
      (Return r, self, cleanup_finally temp_file_path os)
  | (Raise e, temp_file_path, self, os) =>
      (Raise e, self,
       cleanup_finally temp_file_path (cleanup_on_error temp_file_path os))
  end.

End Service.

Arguments Self : clear implicits.
Arguments model_size {WhisperModel} s.
Arguments model {WhisperModel} s.

End TranscriptionService.

(** ** frontend/app.py: the action-item tab

    The presentation of the dict returned by [analyze_meeting]; what is
    shown is kept as a list of the calls made to the page. *)

Module Frontend.

Definition type_name (v : value) : str :=
  match v with
  | PyNone => py "NoneType"
  | PyBool _ => py "bool"
  | PyInt _ => py "int"
  | PyFloat _ => py "float"
  | PyStr _ => py "str"
  | PyList _ => py "list"
  | PyDict _ => py "dict"
  end.

(** [bool(x)] for the float that a literal denotes *)
Definition float_nonzero (literal : str) : bool :=
  negb (Json.float_is_zero literal).

(** the truth value of [v] in an [if] *)
Definition truthy (v : value) : bool :=
  match v with
  | PyNone => false
  | PyBool b => b
  | PyInt z => negb (z =? 0)%Z
  | PyFloat f => float_nonzero f
  | PyStr s => negb (length s =? 0)
  | PyList l => negb (length l =? 0)
  | PyDict d => negb (length d =? 0)
  end.

(** [obj.get(key, default)]: only a dict has the method *)
Definition get (obj : value) (key : str) (default : value) : result value :=
  match obj with
  | PyDict d => Return (from_option id default (dict_lookup d key))
  | _ =>
      Raise (AttributeError
               (py "'" ++ type_name obj ++ py "' object has no attribute 'get'"))
  end.

(** the items that a [for] loop over [v] visits *)
Definition iterate (v : value) : result (list value) :=
  match v with
  | PyList l => Return l
  | PyDict d => Return ((fun kv => PyStr (fst kv)) <$> d)
  | PyStr s => Return ((fun c => PyStr [c]) <$> s)
  | _ => Raise (TypeError (py "'" ++ type_name v ++ py "' object is not iterable"))
  end.

Inductive Shown : Type :=
| Item (idx : nat) (tache responsable : value)  (* the numbered task and its owner *)
| Rule                                          (* [st.markdown("---")] *)
| NoActionItems.                                (* the [st.info] of the [else] branch *)

(** [for idx, item in enumerate(action_items, idx): ...] *)
Fixpoint show_items (idx : nat) (items : list value)
  : list Shown * result unit :=
  match items with
  | [] => ([], Return ())
  | item :: rest =>
      match get item (py "tache") (PyStr (py "Task not specified")) with
      | Raise e => ([], Raise e)
      | Return tache =>
          match get item (py "responsable") (PyStr (py "Not assigned")) with
          | Raise e => ([], Raise e)
          | Return responsable =>
              let '(shown, r) := show_items (S idx) rest in
              (Item idx tache responsable :: Rule :: shown, r)
          end
      end
  end.

Definition show_action_items (analysis_data : value)
  : list Shown * result unit :=
  match get analysis_data (py "action_items") (PyList []) with
  | Raise e => ([], Raise e)
  | Return action_items =>
      if truthy action_items then
        match iterate action_items with
        | Return items => show_items 1 items
        | Raise e => ([], Raise e)
        end
      else ([NoActionItems], Return ())
  end.

End Frontend.

(** ** Stand-ins for the collaborators, to run the services

    An endpoint that answers by model name from a fixed table, and a Whisper
    model that answers every readable file with a fixed outcome. *)

Module Stub.
Import Groq Whisper.

(** the three default candidates *)
Definition fast : str := py "llama-3.1-8b-instant".
Definition large : str := py "llama-3.3-70b-versatile".
Definition other : str := py "mixtral-8x7b-32768".

Definition Table : Type := list (str * result ChatCompletion).

Fixpoint reply (table : Table) (model_name : str) : result ChatCompletion :=
  match table with
  | [] => Raise (LibraryError (py "APIConnectionError") (py "Connection error."))
  | (m, r) :: rest => if str_eqb model_name m then r else reply rest model_name
  end.

Definition create (req : Request) (table : Table)
  : result ChatCompletion * Table :=
  (reply table (model req), table).

Definition session (table : Table) : AnalysisService.Session Table :=
  {| AnalysisService.endpoint := table; AnalysisService.sent := [] |}.

(** the reply carrying the text [c] *)
Definition says (c : str) : result ChatCompletion :=
  Return (completion (Some c)).

Definition quoted (s : string) : str := dq ++ py s ++ dq.

(** a reply of the requested shape, its action item without owner *)
Definition report_without_owner : str :=
  py "{" ++ quoted "resume_executif" ++ py ": "
  ++ quoted "Team discussed report deadline." ++ py ", "
  ++ quoted "action_items" ++ py ": [{" ++ quoted "tache" ++ py ": "
  ++ quoted "Finish report" ++ py "}]}".

(** what it decodes to *)
Definition decoded_report_without_owner : list (str * value) :=
  [ (py "resume_executif", PyStr (py "Team discussed report deadline."));
    (py "action_items", PyList [PyDict [(py "tache", PyStr (py "Finish report"))]]) ].

(** the same with the owner *)
Definition report_with_owner : str :=
  py "{" ++ quoted "resume_executif" ++ py ": "
  ++ quoted "Team discussed report deadline." ++ py ", "
  ++ quoted "action_items" ++ py ": [{" ++ quoted "tache" ++ py ": "
  ++ quoted "Finish report" ++ py ", " ++ quoted "responsable" ++ py ": "
  ++ quoted "Alice" ++ py "}]}".

(** what it decodes to *)
Definition decoded_report_with_owner : list (str * value) :=
  [ (py "resume_executif", PyStr (py "Team discussed report deadline."));
    (py "action_items",
     PyList [PyDict [ (py "tache", PyStr (py "Finish report"));
                      (py "responsable", PyStr (py "Alice")) ]]) ].

(** 549 characters of prose *)
Definition long_prose : str := concat (replicate 60 (py "no json, "))
                               ++ py "sorry....".

Definition transcript : str :=
  py "We need Alice to finish the report by Friday.".

Definition unreachable : result ChatCompletion :=
  Raise (LibraryError (py "APIConnectionError") (py "Connection error.")).

Definition rate_limited : result ChatCompletion :=
  Raise (LibraryError (py "RateLimitError") (py "Rate limit reached")).

(** A model is what it answers. *)
Definition Model : Type := result (Segments * TranscriptionInfo).

(** where the weights of the model of a size are kept once downloaded *)
Definition weights_path (size : str) : str :=
  py "/root/.cache/huggingface/hub/models--Systran--faster-whisper-" ++ size
  ++ py "/model.bin".

(** the weights, cut short *)
Definition weights : bytes := [99; 116; 50; 0]%N.

(** The constructor of a model that will answer [answer].  It knows the
    three sizes of the application, and on the first use of a size it
    downloads the weights. *)
Definition WhisperModel_new (answer : Model) (size device compute_type : str)
    (os : OS) : result Model * OS :=
  if existsb (str_eqb size) [py "tiny"; py "base"; py "small"] then
    match files os !! weights_path size with
    | Some _ => (Return answer, os)
    | None =>
        if (free os <? N.of_nat (length weights))%N then (Raise Os.no_space, os)
        else
          (Return answer,
           {| files := <[weights_path size := weights]> (files os);
              pinned := pinned os; free := free os - N.of_nat (length weights);
              buffer_size := buffer_size os; tmp_names := tmp_names os;
              stdout := stdout os |})
    end
  else (Raise (ValueError (py "Invalid model size")), os).

(** [transcribe] reads the file and changes nothing on the disk. *)
Definition model_transcribe (m : Model) (path : str) (language : option str)
    (beam_size : Z) (os : OS) : result (Segments * TranscriptionInfo) * OS :=
  (match files os !! path with
   | Some _ => m
   | None =>
       Raise (LibraryError (py "FileNotFoundError")
                (py "No such file or directory"))
   end, os).

Definition english : TranscriptionInfo :=
  {| language := py "en"; language_probability := py "0.98";
     duration := Some (py "12.5") |}.

Definition disk : OS :=
  {| files := ∅; pinned := ∅; free := 20000; buffer_size := 8192;
     tmp_names := [py "/tmp/tmpa1b2c3"]; stdout := [] |}.

(** the same disk, refusing to delete the temporary file of the upload *)
Definition locked_disk : OS :=
  {| files := ∅; pinned := {[ py "/tmp/tmpa1b2c3.wav" ]}; free := 20000;
     buffer_size := 8192; tmp_names := [py "/tmp/tmpa1b2c3"]; stdout := [] |}.

(** a disk holding a recording *)
Definition disk_with_audio : OS :=
  {| files := {[ py "/srv/meeting.wav" := [82; 73; 70; 70]%N ]}; pinned := ∅;
     free := 20000; buffer_size := 8192; tmp_names := []; stdout := [] |}.

Definition hello_world : list Segment :=
  [ {| text := py " Hello" |}; {| text := py " world." |} ].

Definition decode_failure : exception :=
  LibraryError (py "RuntimeError") (py "Invalid data found when processing input").

Definition recording : TranscriptionService.UploadedFile :=
  {| TranscriptionService.name := py "standup.wav";
     TranscriptionService.getbuffer := [82; 73; 70; 70]%N |}.

(** an upload of 10000 bytes, more than the buffer of a file object holds *)
Definition long_recording : TranscriptionService.UploadedFile :=
  {| TranscriptionService.name := py "board.meeting.m4a";
     TranscriptionService.getbuffer := replicate 10000 7%N |}.

(** a disk with room for [n] bytes, and one whose first temporary name is
    taken *)
Definition disk_with_room (n : N) : OS :=
  {| files := ∅; pinned := ∅; free := n; buffer_size := 8192;
     tmp_names := [py "/tmp/tmpa1b2c3"]; stdout := [] |}.

Definition crowded_disk : OS :=
  {| files := {[ py "/tmp/tmpa1b2c3.wav" := [1; 2; 3]%N ]}; pinned := ∅;
     free := 20000; buffer_size := 8192;
     tmp_names := [py "/tmp/tmpa1b2c3"; py "/tmp/tmpd4e5f6"]; stdout := [] |}.

(** The temporary file of the recording on these disks, once it is created
    and once the four bytes of the recording are in its buffer. *)
Definition temp_name : str := py "/tmp/tmpa1b2c3.wav".
Definition created : Os.File := {| Os.name := temp_name; Os.buffer := [] |}.
Definition written : Os.File :=
  {| Os.name := temp_name; Os.buffer := [82; 73; 70; 70]%N |}.

(** The disk after the temporary file is created; the recording fits into
    the buffer, so that [write] does not change the disk. *)
Definition with_temp (os : OS) : OS :=
  snd (Os.NamedTemporaryFile (py ".wav") os).

(** the temporary file of the long recording *)
Definition long_temp_name : str := py "/tmp/tmpa1b2c3.m4a".
Definition long_created : Os.File :=
  {| Os.name := long_temp_name; Os.buffer := [] |}.

(** a reply that is JSON, an integer of 4301 digits *)
Definition long_integer : str := replicate 4301 49%N.

(** a reply that is JSON, arrays inside one another, one more than
    [recursion_room] *)
Definition deep_array : str := replicate 901 91%N ++ replicate 901 93%N.

End Stub.

(** ** frontend/app.py: what the "Analyze Meeting" button runs

    The script body under [if st.button(...)]: the three steps inside the
    status box, then the result tabs.  The page is kept as the list of the
    elements written to it, each with the container it went to.  [st.stop()]
    ends the run; an exception that no [except] clause takes ends it too. *)

Module Page.
Import Whisper TranscriptionService Groq AnalysisService.

(** a literal that starts with a pictograph *)
Definition pic (c : N) (s : string) : str := c :: py s.
Arguments pic c%_N s%_string.

Inductive Place : Type :=
| InPage                 (* the page itself *)
| InStatus               (* the [st.status] box *)
| InTab (n : nat).       (* [tab1], [tab2], [tab3] *)

Inductive Element : Type :=
| Status (label : str)
| StatusUpdate (label state : str)
| Error (body : str)
| Success (body : str)
| Info (body : value)
| Markdown (body : str)
| Header (body : str)
| Subheader (body : str)
| Tabs (labels : list str)
| TextArea (label value : str) (height : Z) (label_visibility : str)
| DownloadButton (label data file_name mime : str)
| ActionItem (idx : nat) (tache responsable : value).

Inductive Ending : Type :=
| Completed
| Stopped                    (* [st.stop()] *)
| Uncaught (e : exception).

(** [needle in hay] for two strings *)
Fixpoint contains (needle hay : str) : bool :=
  match Json.strip_prefix needle hay with
  | Some _ => true
  | None =>
      match hay with
      | [] => false
      | _ :: rest => contains needle rest
      end
  end.

(** [v[key]] for a string key *)
Definition subscript (v : value) (key : str) : result value :=
  match v with
  | PyDict d =>
      match dict_lookup d key with
      | Some x => Return x
      | None => Raise (LibraryError (py "KeyError") (py "'" ++ key ++ py "'"))
      end
  | PyList _ =>
      Raise (TypeError (py "list indices must be integers or slices, not str"))
  | PyStr _ =>
      Raise (TypeError (py "string indices must be integers, not 'str'"))
  | _ =>
      Raise (TypeError (py "'" ++ Frontend.type_name v
                        ++ py "' object is not subscriptable"))
  end.

(** the dict that stands for the analysis when [analyze_meeting] raised *)
Definition placeholder : value :=
  PyDict [ (py "resume_executif",
            PyStr (py "Error during analysis. Please check your Groq API key."));
           (py "action_items", PyList []) ].

(** what the action-item loop writes, as elements of the third tab *)
Definition element_of_shown (s : Frontend.Shown) : Element :=
  match s with
  | Frontend.Item idx tache responsable => ActionItem idx tache responsable
  | Frontend.Rule => Markdown (py "---")
  | Frontend.NoActionItems =>
      Info (PyStr (py "No action items detected in this meeting."))
  end.

Definition in_place (p : Place) (l : list Element) : list (Place * Element) :=
  (fun e => (p, e)) <$> l.

(** The first tab: the transcript and its download. *)
Definition transcription_tab (uploaded_file : UploadedFile)
    (transcription_text : str) : list (Place * Element) :=
  in_place (InTab 1)
    [ Subheader (pic 127908 " Complete Transcription");
      Markdown (py "**Raw meeting text:**");
      TextArea (py "Transcription") transcription_text 400 (py "collapsed");
      DownloadButton (pic 128190 " Download Transcription") transcription_text
        (py "transcription_" ++ name uploaded_file ++ py ".txt")
        (py "text/plain") ].

(** The result part of the page, after the status box. *)
Definition results (uploaded_file : UploadedFile) (transcription_text : str)
    (analysis_data : value) : list (Place * Element) * Ending :=
  let top :=
    in_place InPage
      [ Markdown (py "---");
        Header (pic 128202 " Analysis Results");
        Tabs [ pic 128221 " Transcription"; pic 128203 " Executive Summary";
               pic 9989 " Action Items" ] ]
    ++ transcription_tab uploaded_file transcription_text
    ++ in_place (InTab 2)
         [ Subheader (pic 128203 " Executive Summary");
           Markdown (py "**Meeting summary:**") ] in
  match Frontend.get analysis_data (py "resume_executif")
          (PyStr (py "No summary available")) with
  | Raise e => (top, Uncaught e)
  | Return resume =>
      let '(shown, r) := Frontend.show_action_items analysis_data in
      let tabs :=
        top
        ++ in_place (InTab 2) [ Info resume ]
        ++ in_place (InTab 3)
             ([ Subheader (pic 9989 " Action Items");
                Markdown (py "**Identified tasks and responsible persons:**") ]
              ++ (element_of_shown <$> shown)) in
      match r with
      | Raise e => (tabs, Uncaught e)
      | Return _ =>
          (tabs
           ++ in_place InPage
                [ Markdown (py "---");
                  Success (pic 127881 " Analysis completed successfully!") ],
           Completed)
      end
  end.

Section Script.
Context {WhisperModel Endpoint : Type}.
Variable WhisperModel_new : str -> str -> str -> OS -> result WhisperModel * OS.
Variable model_transcribe :
  WhisperModel -> str -> option str -> Z -> OS
  -> result (Segments * TranscriptionInfo) * OS.
Variable create : Request -> Endpoint -> result ChatCompletion * Endpoint.
Variable json_loads : str -> result value.
(** [s.lower()] *)
Variable lower : str -> str.
(** [format(v, spec)], which fills the fields of an f-string *)
Variable format : value -> str -> result str.

(** What the script works on: the services kept by
    [get_transcription_service] under their size (the decorator
    [st.cache_resource] hands out the same object again), the disk, and the
    Groq client of [analysis_service]. *)
Record World : Type := {
  services : gmap str (Self WhisperModel);
  os : OS;
  groq : Session Endpoint
}.

(** [get_transcription_service(model_size)] *)
Definition get_transcription_service (model_size : str) (w : World)
  : Self WhisperModel :=
  default (init model_size) (services w !! model_size).

(** The messages shown when the Whisper model cannot be loaded. *)
Definition loading_errors (e : exception) : list Element :=
  [ Error (pic 10060 " Unable to load Whisper model: " ++ exc_str e);
    Error (pic 128161 " **Help:** Make sure faster-whisper is correctly installed.");
    Error (py "Try: `pip install faster-whisper`") ].

(** The messages shown when the transcription step raised [e]. *)
Definition transcription_errors (e : exception) : list Element :=
  let error_msg := exc_str e in
  Error (pic 10060 " Error during transcription: " ++ error_msg)
  :: (if contains (py "No such file") error_msg
         || contains (py "path") (lower error_msg)
      then [ Error (pic 128161 " **Help:** File path issue.");
             Error (py "Make sure faster-whisper can access the temporary file.") ]
      else if contains (py "CUDA") error_msg
              || contains (py "cuda") (lower error_msg)
      then [ Info (PyStr (pic 128161 " The model uses CPU by default. This is normal if you don't have a GPU.")) ]
      else []).

(** The text of the [st.success] after the transcription. *)
Definition transcription_success (metadata : value) : result str :=
  bind (subscript metadata (py "language")) (fun language =>
  bind (format language []) (fun shown_language =>
  bind (subscript metadata (py "language_probability")) (fun probability =>
  bind (format probability (py ".2%")) (fun shown_probability =>
  Return (pic 9989 " Transcription complete! (Detected language: "
          ++ shown_language ++ py ", Probability: " ++ shown_probability
          ++ py ")"))))).

(** The third step and what it leaves in [analysis_data]. *)
Definition analysis_step (transcription_text : str) (g : Session Endpoint)
  : list Element * value * Session Endpoint :=
  match analyze_meeting create json_loads transcription_text None g with
  | (Return analysis_data, g) =>
      ([ StatusUpdate (pic 9989 " Analysis complete!") (py "complete") ],
       analysis_data, g)
  | (Raise e, g) =>
      ([ Error (pic 10060 " Error during Groq analysis: " ++ exc_str e) ],
       placeholder, g)
  end.

Definition analyze_click (whisper_model_size : str)
    (uploaded_file : UploadedFile) (w : World)
  : list (Place * Element) * Ending * World :=
  let opened :=
    (InPage, Status (pic 128260 " Processing..."))
    :: in_place InStatus
         [ StatusUpdate (pic 128230 " Loading Whisper model...") (py "running") ] in
  let transcription_service := get_transcription_service whisper_model_size w in
  match load_model WhisperModel_new transcription_service (os w) with
  | (Raise e, transcription_service, disk) =>
      (opened ++ in_place InStatus (loading_errors e), Stopped,
       {| services := <[whisper_model_size := transcription_service]> (services w);
          os := disk; groq := groq w |})
  | (Return _, transcription_service, disk) =>
      let '(r, transcription_service, disk) :=
        transcribe_uploaded_file WhisperModel_new model_transcribe
          transcription_service uploaded_file None 5 disk in
      let w :=
        {| services := <[whisper_model_size := transcription_service]> (services w);
           os := disk; groq := groq w |} in
      let transcribing :=
        opened
        ++ in_place InStatus
             [ StatusUpdate
                 (pic 127908 " Transcribing audio (local faster-whisper)...")
                 (py "running") ] in
      match bind r (fun '(transcription_text, metadata) =>
              bind (transcription_success metadata) (fun message =>
              Return (transcription_text, message))) with
      | Raise e =>
          (transcribing ++ in_place InStatus (transcription_errors e), Stopped, w)
      | Return (transcription_text, message) =>
          let '(shown, analysis_data, g) :=
            analysis_step transcription_text (groq w) in
          let '(tabs, ending) :=
            results uploaded_file transcription_text analysis_data in
          (transcribing
           ++ in_place InStatus
                (Success message
                 :: StatusUpdate
                      (pic 129504 " Analyzing content with Groq (open source LLM)...")
                      (py "running")
                 :: shown)
           ++ tabs,
           ending,
           {| services := services w; os := os w; groq := g |})
      end
  end.

End Script.

Arguments World : clear implicits.
Arguments services {WhisperModel Endpoint} w.
Arguments os {WhisperModel Endpoint} w.
Arguments groq {WhisperModel Endpoint} w.

End Page.

(** ** Stand-ins for the library functions of the page *)

Module PageStub.

(** [lower] on the letters A to Z *)
Definition lower (s : str) : str :=
  (fun c => if (65 <=? c) && (c <=? 90) then c + 32 else c)%N <$> s.

(** [format] for what the page formats in the runs below: a string with the
    empty specification, and the probability 0.98 as a percentage *)
Definition format (v : value) (spec : str) : result str :=
  match v, spec with
  | PyStr s, [] => Return s
  | PyFloat f, _ =>
      if str_eqb f (py "0.98") && str_eqb spec (py ".2%")
      then Return (py "98.00%")
      else Raise (LibraryError (py "NotImplementedError") (py "format"))
  | _, _ => Raise (LibraryError (py "NotImplementedError") (py "format"))
  end.

Definition world (table : Stub.Table) (disk : OS)
  : Page.World Stub.Model Stub.Table :=
  {| Page.services := ∅; Page.os := disk; Page.groq := Stub.session table |}.

(** a model that hears two segments, one that fails after them, and one
    that fails at once *)
Definition hears : Stub.Model :=
  Return (Whisper.yielding Stub.hello_world, Stub.english).
Definition breaks : Stub.Model := Raise Stub.decode_failure.

(** a click on the button, with the size "base" and the recording *)
Definition click (answer : Stub.Model) (w : Page.World Stub.Model Stub.Table)
  : list (Page.Place * Page.Element) * Page.Ending
    * Page.World Stub.Model Stub.Table :=
  Page.analyze_click (Stub.WhisperModel_new answer) Stub.model_transcribe
    Stub.create json_decode lower format (py "base") Stub.recording w.

(** the service after the model has been loaded *)
Definition loaded (answer : Stub.Model) : TranscriptionService.Self Stub.Model :=
  {| TranscriptionService.model_size := py "base";
     TranscriptionService.model := Some answer |}.

(** the disk once the weights of the size "base" are there *)
Definition primed (disk : OS) : OS :=
  snd (Stub.WhisperModel_new hears (py "base") (py "cpu") (py "int8") disk).

(** the transcription step of the click on [disk] *)
Definition upload (answer : Stub.Model) (disk : OS)
  : result (str * value) * TranscriptionService.Self Stub.Model * OS :=
  TranscriptionService.transcribe_uploaded_file (Stub.WhisperModel_new answer)
    Stub.model_transcribe (loaded answer) Stub.recording None 5 (primed disk).

(** a disk with a recording and a name for a temporary file *)
Definition busy_disk : OS :=
  {| files := {[ py "/srv/meeting.wav" := [82; 73; 70; 70]%N ]}; pinned := ∅;
     free := 20000; buffer_size := 8192;
     tmp_names := [py "/tmp/tmpa1b2c3"]; stdout := [] |}.

End PageStub.

(** * Properties *)

(** ** Strings and the decoder on examples *)

Example py_literal : py "ab" = [97%N; 98%N].
Proof. reflexivity. Qed.

Example strip_example : strip (py "  a b  ") = py "a b".
Proof. vm_compute. reflexivity. Qed.

Example json_decode_object :
  json_decode (py "{" ++ dq ++ py "a" ++ dq ++ py ": [1, -20, null, true, 1.5e3], "
               ++ dq ++ py "b" ++ dq ++ py " : {} }")
  = Return (PyDict [(py "a", PyList [PyInt 1; PyInt (-20); PyNone; PyBool true;
                                     PyFloat (py "1.5e3")]);
                    (py "b", PyDict [])]).
Proof. vm_compute. reflexivity. Qed.

Example json_decode_prose :
  json_decode (py "Sorry, no JSON today.") = Json.malformed "Expecting value".
Proof. vm_compute. reflexivity. Qed.

Example json_decode_trailing : json_decode (py "[1,]") = Json.malformed "Expecting value".
Proof. vm_compute. reflexivity. Qed.

Example json_decode_extra : json_decode (py "01") = Json.malformed "Extra data".
Proof. vm_compute. reflexivity. Qed.

Example json_decode_empty : json_decode [] = Json.malformed "Expecting value".
Proof. vm_compute. reflexivity. Qed.

Example json_decode_null : json_decode (py "null") = Return PyNone.
Proof. vm_compute. reflexivity. Qed.

(** An integer of 4300 digits is converted, with or without a sign; one of
    4301 digits is refused, also when the text that follows is not JSON. *)
Example json_decode_digits :
  returns (json_decode (replicate 4300 49%N)) = true
  /\ returns (json_decode (45%N :: replicate 4300 49%N)) = true
  /\ json_decode Stub.long_integer
     = Raise (ValueError (py "Exceeds the limit (4300 digits) for integer string conversion: value has 4301 digits; use sys.set_int_max_str_digits() to increase the limit"))
  /\ json_decode (py "[" ++ Stub.long_integer ++ py ",")
     = json_decode Stub.long_integer
  /\ returns (json_decode (Stub.long_integer ++ py ".5")) = true.
Proof. vm_compute. repeat split. Qed.

(** Arrays nested as deep as there is room for are decoded; one level more
    is refused as soon as it is opened. *)
Example json_decode_depth :
  returns (json_decode (replicate 900 91%N ++ replicate 900 93%N)) = true
  /\ json_decode Stub.deep_array
     = Raise (RecursionError (py "maximum recursion depth exceeded while decoding a JSON array from a unicode string"))
  /\ json_decode (replicate 901 91%N) = json_decode Stub.deep_array
  /\ json_decode (replicate 900 91%N) = Json.malformed "Expecting value".
Proof. vm_compute. repeat split. Qed.

(** Floats that are zero once converted: the literal need not be made of
    zeros. *)
Example float_truth :
  Frontend.truthy <$> (PyFloat <$> [ py "0.0"; py "-0.0"; py "0e5"; py "1e-400";
                                     py "2.4703282292062327e-324";
                                     py "2.4703282292062328e-324"; py "5e-324";
                                     py "0.98"; py "1e400"; py "NaN" ])
  = [false; false; false; false; false; true; true; true; true; true].
Proof. vm_compute. reflexivity. Qed.

Example splitext_examples :
  Os.splitext_ext (py "standup.wav") = py ".wav"
  /\ Os.splitext_ext (py "a.b/notes") = []
  /\ Os.splitext_ext (py ".hidden") = []
  /\ Os.splitext_ext (py "archive.tar.gz") = py ".gz".
Proof. vm_compute. repeat split. Qed.

(** ** Trimming *)

Module StringFacts.

Lemma blank_Forall s : blank s = true <-> Forall (fun c => isspace c = true) s.
Proof.
  unfold blank. induction s as [|c s IH]; simpl.
  - split; auto.
  - rewrite andb_true_iff, Forall_cons, IH. reflexivity.
Qed.

Lemma blank_app s t : blank (s ++ t) = blank s && blank t.
Proof. unfold blank. apply forallb_app. Qed.

Lemma blank_reverse s : blank (reverse s) = blank s.
Proof.
  apply eq_true_iff_eq. rewrite !blank_Forall. apply Forall_reverse.
Qed.

Lemma lstrip_blank s : blank s = true -> lstrip s = [].
Proof.
  unfold blank. induction s as [|c s IH]; simpl; [reflexivity|].
  intros [Hc Hs]%andb_true_iff. rewrite Hc. auto.
Qed.

(** What [lstrip] leaves starts with a character that is not white space. *)
Lemma lstrip_head s c r : lstrip s = c :: r -> isspace c = false.
Proof.
  induction s as [|a s IH]; simpl; [discriminate|].
  destruct (isspace a) eqn:E; [exact IH|].
  intros [= <- _]. exact E.
Qed.



Lemma lstrip_app s t :
  lstrip (s ++ t) = if blank s then lstrip t else lstrip s ++ t.
Proof.
  unfold blank. induction s as [|a s IH]; simpl; [reflexivity|].
  destruct (isspace a); simpl; [exact IH|reflexivity].
Qed.

Lemma rstrip_snoc_space s : rstrip (s ++ [space]) = rstrip s.
Proof. unfold rstrip. rewrite reverse_snoc. reflexivity. Qed.

(** A space added at the end is trimmed away. *)
Lemma strip_snoc_space s : strip (s ++ [space]) = strip s.
Proof.
  unfold strip. rewrite lstrip_app.
  destruct (blank s) eqn:E.
  - rewrite (lstrip_blank s E). reflexivity.
  - apply rstrip_snoc_space.
Qed.


(** The text built by the loop is the specification's text with one more
    space at its end, when there is a segment at all. *)
Lemma concat_spaced texts :
  concat ((fun t => t ++ [space]) <$> texts)
  = match texts with [] => [] | _ :: _ => spec_join texts ++ [space] end.
Proof.
  induction texts as [|t texts IH]; [reflexivity|].
  cbn [fmap list_fmap concat]. change (list_fmap _ _ ?f ?l) with (f <$> l).
  rewrite IH. destruct texts as [|t' texts]; simpl.
  - rewrite app_nil_r. reflexivity.
  - rewrite <- !app_assoc. reflexivity.
Qed.

Lemma strip_concat_spaced texts :
  strip (concat ((fun t => t ++ [space]) <$> texts)) = strip (spec_join texts).
Proof.
  rewrite concat_spaced. destruct texts; [reflexivity|].
  apply strip_snoc_space.
Qed.

Lemma blank_concat_spaced texts :
  blank (concat ((fun t => t ++ [space]) <$> texts)) = forallb blank texts.
Proof.
  induction texts as [|t texts IH]; [reflexivity|].
  cbn [fmap list_fmap concat forallb]. change (list_fmap _ _ ?f ?l) with (f <$> l).
  rewrite !blank_app, IH. cbn. rewrite andb_true_r. reflexivity.
Qed.

End StringFacts.

(** ** The action-item tab *)

Module FrontendFacts.
Import Frontend.

(** what the tab shows for an item that is a dict *)
Lemma show_items_lookup (ds : list (list (str * value))) :
  forall idx i item,
    ds !! i = Some item ->
    fst (show_items idx (PyDict <$> ds)) !! (2 * i)
    = Some (Item (idx + i)
              (from_option id (PyStr (py "Task not specified"))
                 (dict_lookup item (py "tache")))
              (from_option id (PyStr (py "Not assigned"))
                 (dict_lookup item (py "responsable")))).
Proof.
  induction ds as [|d ds IH]; intros idx i item Hi; [discriminate|].
  cbn [fmap list_fmap show_items get].
  destruct (show_items (S idx) (PyDict <$> ds)) as [shown r] eqn:E.
  destruct i as [|i].
  - injection Hi as ->. rewrite Nat.add_0_r. reflexivity.
  - replace (2 * S i) with (S (S (2 * i))) by lia. cbn [fst lookup list_lookup].
    specialize (IH (S idx) i item Hi). rewrite E in IH. cbn [fst] in IH.
    replace (idx + S i) with (S idx + i) by lia. exact IH.
Qed.

Lemma show_action_items_lookup d (ds : list (list (str * value))) i item :
  dict_lookup d (py "action_items") = Some (PyList (PyDict <$> ds)) ->
  ds !! i = Some item ->
  fst (show_action_items (PyDict d)) !! (2 * i)
  = Some (Item (S i)
            (from_option id (PyStr (py "Task not specified"))
               (dict_lookup item (py "tache")))
            (from_option id (PyStr (py "Not assigned"))
               (dict_lookup item (py "responsable")))).
Proof.
  intros Hd Hi. unfold show_action_items, get. rewrite Hd.
  cbn [from_option id truthy iterate].
  destruct ds as [|d0 ds']; [discriminate|].
  cbn [fmap list_fmap length Nat.eqb negb].
  exact (show_items_lookup (d0 :: ds') 1 i item Hi).
Qed.

Example show_action_items_examples :
  Frontend.show_action_items (PyDict Stub.decoded_report_without_owner)
  = ([Frontend.Item 1 (PyStr (py "Finish report")) (PyStr (py "Not assigned"));
      Frontend.Rule], Return ())
  /\ Frontend.show_action_items (PyDict [])
     = ([Frontend.NoActionItems], Return ())
  /\ Frontend.show_action_items (PyList [])
     = ([], Raise (AttributeError (py "'list' object has no attribute 'get'"))).
Proof. vm_compute. repeat split. Qed.

End FrontendFacts.

(** ** The analysis service *)

Module AnalysisFacts.
Import Groq AnalysisService.

Section Facts.
Context {Endpoint : Type}.
Variable create : Request -> Endpoint -> result ChatCompletion * Endpoint.
Variable json_loads : str -> result value.

Local Abbreviation attempt := (attempt create json_loads).
Local Abbreviation for_models := (for_models create json_loads).
Local Abbreviation analyze_meeting := (analyze_meeting create json_loads).
Local Abbreviation failures := (failures create).

Implicit Types (s : Session Endpoint) (l : Locals) (t m c : str).

(** *** One iteration *)

Lemma attempt_request_failure t m l s e e1 :
  create (request t m) (endpoint s) = (Raise e, e1) ->
  response l = None ->
  attempt t m l s
  = (Continue {| analysis_data := analysis_data l; last_error := Some e;
                 response := None |},
     after e1 s [request t m]).
Proof.
  intros Hc Hr. unfold AnalysisService.attempt, client_create.
  rewrite Hc. unfold handler. rewrite Hr.
  destruct (is_JSONDecodeError e); reflexivity.
Qed.

Lemma attempt_decoded t m l s r e1 c v :
  create (request t m) (endpoint s) = (Return r, e1) ->
  first_content r = Return (Some c) ->
  json_loads c = Return v ->
  attempt t m l s
  = (Break {| analysis_data := v; last_error := last_error l;
              response := Some r |},
     after e1 s [request t m]).
Proof.
  intros Hc Hf Hj. unfold AnalysisService.attempt, client_create.
  rewrite Hc, Hf. simpl. rewrite Hj. reflexivity.
Qed.

Lemma attempt_malformed t m l s r e1 c msg :
  create (request t m) (endpoint s) = (Return r, e1) ->
  first_content r = Return (Some c) ->
  json_loads c = Raise (JSONDecodeError msg) ->
  attempt t m l s
  = (Break {| analysis_data :=
                PyDict [ (py "resume_executif",
                          PyStr (if 500 <? length c then take 500 c else c));
                         (py "action_items", PyList []) ];
              last_error := Some (JSONDecodeError msg);
              response := Some r |},
     after e1 s [request t m]).
Proof.
  intros Hc Hf Hj. unfold AnalysisService.attempt, client_create.
  rewrite Hc, Hf. simpl. rewrite Hj. unfold handler. simpl.
  rewrite Hf. reflexivity.
Qed.

(** Content on which [json.loads] raises anything else sends the loop on. *)
Lemma attempt_refused t m l s r e1 c e :
  create (request t m) (endpoint s) = (Return r, e1) ->
  first_content r = Return (Some c) ->
  json_loads c = Raise e ->
  is_JSONDecodeError e = false ->
  attempt t m l s
  = (Continue {| analysis_data := analysis_data l; last_error := Some e;
                 response := Some r |},
     after e1 s [request t m]).
Proof.
  intros Hc Hf Hj He. unfold AnalysisService.attempt, client_create.
  rewrite Hc, Hf. simpl. rewrite Hj. unfold handler. rewrite He.
  reflexivity.
Qed.

(** Every iteration sends exactly the request of its model name. *)
Lemma attempt_sent t m l s :
  sent (snd (attempt t m l s)) = sent s ++ [request t m].
Proof.
  unfold AnalysisService.attempt, client_create.
  destruct (create (request t m) (endpoint s)) as [[r|e] e1]; simpl.
  - destruct (bind (first_content r) (loads json_loads)); reflexivity.
  - reflexivity.
Qed.

(** Whatever happens in an iteration that goes on to the next candidate,
    [analysis_data] is not assigned. *)
Lemma attempt_continue_data t m l s l' s' :
  attempt t m l s = (Continue l', s') -> analysis_data l' = analysis_data l.
Proof.
  unfold AnalysisService.attempt, client_create, handler.
  destruct (create (request t m) (endpoint s)) as [[r|e] e1]; simpl.
  - destruct (bind (first_content r) (loads json_loads)) as [v|e]; [intros [=]|].
    destruct (is_JSONDecodeError e); simpl.
    + destruct (bind (first_content r) fallback); intros [=].
    + intros [= <- _]. reflexivity.
  - destruct (is_JSONDecodeError e); simpl.
    + destruct (response l) as [r|].
      * destruct (bind (first_content r) fallback); intros [=].
      * intros [= <- _]. reflexivity.
    + intros [= <- _]. reflexivity.
Qed.

(** *** The loop *)

Lemma for_models_app t pre post l s :
  for_models t (pre ++ post) l s
  = match for_models t pre l s with
    | (Continue l', s') => for_models t post l' s'
    | exit => exit
    end.
Proof.
  revert l s. induction pre as [|m pre IH]; intros l s; simpl.
  - reflexivity.
  - destruct (attempt t m l s) as [[l'| l' | e] s']; auto.
Qed.

Lemma for_models_continue_data t models l s l' s' :
  for_models t models l s = (Continue l', s') ->
  analysis_data l' = analysis_data l.
Proof.
  revert l s. induction models as [|m models IH]; intros l s; simpl.
  - intros [= <- _]. reflexivity.
  - destruct (attempt t m l s) as [[l1|l1|e] s1] eqn:E; try (intros [=]; fail).
    intros H. rewrite (IH _ _ H). exact (attempt_continue_data _ _ _ _ _ _ E).
Qed.

(** The requests go out in the order of the list, one for each name of a
    prefix of it, and for each name of the list when the loop ends
    without [break]. *)
Lemma for_models_sent t models l s :
  exists k,
    k <= length models
    /\ sent (snd (for_models t models l s))
       = sent s ++ (request t <$> take k models)
    /\ (forall l', fst (for_models t models l s) = Continue l' ->
                   k = length models)
    /\ (models <> [] -> 0 < k).
Proof.
  revert l s. induction models as [|m models IH]; intros l s; simpl.
  - exists 0. rewrite app_nil_r. repeat split; auto. congruence.
  - pose proof (attempt_sent t m l s) as Hs.
    destruct (attempt t m l s) as [[l'| l' | e] s']; simpl in *.
    + destruct (IH l' s') as (k & Hk & Hsent & Hall & _).
      exists (S k). split; [lia|]. split; [|split].
      * rewrite Hsent, Hs. simpl. rewrite <- app_assoc. reflexivity.
      * intros l'' H. f_equal. eauto.
      * lia.
    + exists 1. split; [lia|]. split; [exact Hs|]. split; [intros ? [=]|lia].
    + exists 1. split; [lia|]. split; [exact Hs|]. split; [intros ? [=]|lia].
Qed.

Lemma for_models_failures t models s e' last :
  failures t (endpoint s) models e' last ->
  forall l, response l = None ->
    exists l',
      for_models t models l s = (Continue l', after e' s (request t <$> models))
      /\ analysis_data l' = analysis_data l
      /\ response l' = None
      /\ last_error l' = match last with Some _ => last | None => last_error l end.
Proof.
  induction 1 as [| models m e1 e2 last err Hf IH Hc]; intros l Hl.
  - exists l. simpl. unfold after. rewrite app_nil_r.
    destruct s; auto.
  - destruct (IH l Hl) as (l1 & Hrun & Hd & Hr & _).
    rewrite for_models_app, Hrun. simpl.
    rewrite (attempt_request_failure t m l1 _ err e2); [|exact Hc|exact Hr].
    eexists. split.
    + unfold after. simpl. rewrite fmap_app, <- app_assoc. reflexivity.
    + simpl. auto.
Qed.

(** *** The whole call *)

(** A decoded value other than [None] is returned as it is. *)
Lemma decoded_returned_unchanged t models_to_try pre m post s l1 s1 r e2 c v :
  default default_models models_to_try = pre ++ m :: post ->
  for_models t pre initial s = (Continue l1, s1) ->
  create (request t m) (endpoint s1) = (Return r, e2) ->
  first_content r = Return (Some c) ->
  json_loads c = Return v ->
  is_None v = false ->
  analyze_meeting t models_to_try s
  = (Return v, after e2 s1 [request t m]).
Proof.
  intros Hm Hpre Hc Hf Hj Hv. unfold AnalysisService.analyze_meeting.
  rewrite Hm, for_models_app, Hpre. simpl.
  rewrite (attempt_decoded t m l1 s1 r e2 c v Hc Hf Hj).
  unfold conclude. simpl. rewrite Hv. reflexivity.
Qed.

(** The content of a reply is conclusive when it decodes to a value other
    than [None], or when it is rejected as not being JSON. *)
Lemma conclusive_cases (x : result value) :
  x <> Return PyNone ->
  (forall e, x = Raise e -> is_JSONDecodeError e = true) ->
  (exists v, x = Return v /\ is_None v = false)
  \/ (exists msg, x = Raise (JSONDecodeError msg)).
Proof.
  intros Hn He. destruct x as [v|e].
  - left. exists v. split; [reflexivity|]. destruct v; try reflexivity.
    congruence.
  - right. specialize (He e eq_refl). destruct e; try discriminate. eauto.
Qed.

(** Conclusive content makes the call return. *)
Lemma content_returns t models_to_try pre m post s l1 s1 r e2 c :
  default default_models models_to_try = pre ++ m :: post ->
  for_models t pre initial s = (Continue l1, s1) ->
  create (request t m) (endpoint s1) = (Return r, e2) ->
  first_content r = Return (Some c) ->
  json_loads c <> Return PyNone ->
  (forall e, json_loads c = Raise e -> is_JSONDecodeError e = true) ->
  returns (fst (analyze_meeting t models_to_try s)) = true.
Proof.
  intros Hm Hpre Hc Hf Hn He. unfold AnalysisService.analyze_meeting.
  rewrite Hm, for_models_app, Hpre. simpl.
  destruct (conclusive_cases _ Hn He) as [(v & E & Hv)|(msg & E)].
  - rewrite (attempt_decoded t m l1 s1 r e2 c v Hc Hf E).
    unfold conclude. simpl. rewrite Hv. reflexivity.
  - rewrite (attempt_malformed t m l1 s1 r e2 c msg Hc Hf E). reflexivity.
Qed.

(** When every candidate fails at the request level the call raises, with
    the text of the last failure in its message. *)
Lemma exhaustion_raises t models s e' last :
  failures t (endpoint s) models e' last ->
  analyze_meeting t (Some models) s
  = (Raise (Exception (py "All models failed. Last error: "
                       ++ opt_exc_str last)),
     after e' s (request t <$> models)).
Proof.
  intros Hf. unfold AnalysisService.analyze_meeting. simpl.
  destruct (for_models_failures t models s e' last Hf initial eq_refl)
    as (l' & Hrun & Hd & _ & Hl).
  rewrite Hrun. unfold conclude. rewrite Hd, Hl. simpl.
  destruct last; reflexivity.
Qed.

(** The session in which the loop arrives at a candidate has seen the
    requests of the candidates before it. *)
Lemma reached_sent t pre l s l1 s1 :
  for_models t pre l s = (Continue l1, s1) ->
  sent s1 = sent s ++ (request t <$> pre).
Proof.
  intros H. destruct (for_models_sent t pre l s) as (k & _ & Hs & Hk & _).
  rewrite H in Hs, Hk. simpl in Hs. rewrite (Hk l1 eq_refl) in Hs.
  rewrite firstn_all in Hs. exact Hs.
Qed.

Lemma reached_after t pre l s l1 s1 m e2 :
  for_models t pre l s = (Continue l1, s1) ->
  after e2 s1 [request t m] = after e2 s (request t <$> pre ++ [m]).
Proof.
  intros H. unfold after.
  rewrite (reached_sent t pre l s l1 s1 H), fmap_app, app_assoc. reflexivity.
Qed.

(** C1, as amended.  When the loop arrives at a candidate whose request
    succeeds and whose content is present, and [json.loads] rejects the
    content as not being JSON, the call returns at once with the degraded
    result: the summary is the first 500 characters of the content when it
    is longer than 500 and the whole content otherwise, the list of action
    items is empty, and the last request sent is the one of that
    candidate. *)
Theorem degraded_fallback t models_to_try pre m post s l1 s1 r e2 c msg :
  default default_models models_to_try = pre ++ m :: post ->
  for_models t pre initial s = (Continue l1, s1) ->
  create (request t m) (endpoint s1) = (Return r, e2) ->
  first_content r = Return (Some c) ->
  json_loads c = Raise (JSONDecodeError msg) ->
  exists summary,
    analyze_meeting t models_to_try s
    = (Return (PyDict [ (py "resume_executif", PyStr summary);
                        (py "action_items", PyList []) ]),
       after e2 s (request t <$> pre ++ [m]))
    /\ (500 < length c -> summary = take 500 c)
    /\ (length c <= 500 -> summary = c).
Proof.
  intros Hm Hpre Hc Hf Hj.
  exists (if 500 <? length c then take 500 c else c). split.
  - unfold AnalysisService.analyze_meeting.
    rewrite Hm, for_models_app, Hpre. simpl.
    rewrite (attempt_malformed t m l1 s1 r e2 c msg Hc Hf Hj).
    rewrite (reached_after t pre _ s l1 s1 m e2 Hpre). reflexivity.
  - split; intros H.
    + apply Nat.ltb_lt in H. rewrite H. reflexivity.
    + destruct (500 <? length c) eqn:E; [|reflexivity].
      apply Nat.ltb_lt in E. lia.
Qed.


(** C4, as amended.  When the loop arrives at a candidate whose content
    decodes to an object with a list of action items, one of which has
    no ["responsable"] field, the call returns the decoded object as it
    is: the owner field of that item is absent from the result.  The
    action-item tab then shows the item with the owner "Not assigned". *)
Theorem missing_owner_absent
    t models_to_try pre m post s l1 s1 r e2 c d items i item :
  default default_models models_to_try = pre ++ m :: post ->
  for_models t pre initial s = (Continue l1, s1) ->
  create (request t m) (endpoint s1) = (Return r, e2) ->
  first_content r = Return (Some c) ->
  json_loads c = Return (PyDict d) ->
  dict_lookup d (py "action_items") = Some (PyList (PyDict <$> items)) ->
  items !! i = Some item ->
  dict_lookup item (py "responsable") = None ->
  fst (analyze_meeting t models_to_try s) = Return (PyDict d)
  /\ action_item_field (PyDict d) i (py "responsable") = None
  /\ fst (Frontend.show_action_items (PyDict d)) !! (2 * i)
     = Some (Frontend.Item (S i)
               (from_option id (PyStr (py "Task not specified"))
                  (dict_lookup item (py "tache")))
               (PyStr (py "Not assigned"))).
Proof.
  intros Hm Hpre Hc Hf Hj Hd Hi Ho. split; [|split].
  - rewrite (decoded_returned_unchanged t models_to_try pre m post s l1 s1
               r e2 c (PyDict d) Hm Hpre Hc Hf Hj eq_refl).
    reflexivity.
  - unfold action_item_field. rewrite Hd, list_lookup_fmap, Hi. exact Ho.
  - rewrite (FrontendFacts.show_action_items_lookup d items i item Hd Hi), Ho.
    reflexivity.
Qed.

(** C10. With an explicitly empty candidate list no request is sent, the
    endpoint is left as it was, and the call raises the exhaustion error
    whose reported last error is [None]; this is not what leaving the
    list out does, where the default candidates are requested. *)
Theorem empty_candidates_raise t s :
  analyze_meeting t (Some []) s
  = (Raise (Exception (py "All models failed. Last error: None")), s)
  /\ sent (snd (analyze_meeting t None s)) <> sent s.
Proof.
  split; [reflexivity|].
  unfold AnalysisService.analyze_meeting. cbn [default].
  destruct (for_models_sent t default_models initial s)
    as (k & _ & Hs & _ & Hk).
  assert (Hgrow : sent (snd (for_models t default_models initial s)) <> sent s).
  { rewrite Hs. intros Heq. apply (f_equal length) in Heq.
    rewrite length_app, length_fmap, length_take in Heq.
    assert (0 < k) by (apply Hk; discriminate). simpl in Heq. lia. }
  destruct (for_models t default_models initial s) as [[l|l|e] s'];
    exact Hgrow.
Qed.

End Facts.
End AnalysisFacts.

(** ** The analysis service on concrete endpoints *)

Module AnalysisRuns.
Import Groq AnalysisService Stub.

Abbreviation analyze := (analyze_meeting Stub.create json_decode).

(** The first candidate is rate limited, the second one answers in prose. *)
Lemma degraded_fallback_witness :
  let table := [(fast, rate_limited); (large, says long_prose);
                (other, says report_with_owner)] in
  exists summary,
    analyze transcript None (session table)
    = (Return (PyDict [ (py "resume_executif", PyStr summary);
                        (py "action_items", PyList []) ]),
       after table (session table) (request transcript <$> [fast] ++ [large]))
    /\ (500 < length long_prose -> summary = take 500 long_prose)
    /\ (length long_prose <= 500 -> summary = long_prose).
Proof.
  intros table.
  apply (AnalysisFacts.degraded_fallback Stub.create json_decode transcript
           None [fast] large [other] (session table)
           {| analysis_data := PyNone;
              last_error := Some (LibraryError (py "RateLimitError")
                                    (py "Rate limit reached"));
              response := None |}
           (after table (session table) [request transcript fast])
           (completion (Some long_prose)) table long_prose
           (py "Expecting value"));
    vm_compute; reflexivity.
Defined.

Example degraded_summary_length :
  exists summary rest,
    fst (analyze transcript None
           (session [(fast, rate_limited); (large, says long_prose)]))
    = Return (PyDict ((py "resume_executif", PyStr summary) :: rest))
    /\ length summary = 500 /\ length long_prose = 549.
Proof.
  do 2 eexists. split; [vm_compute; reflexivity|].
  split; vm_compute; reflexivity.
Qed.

(** C1 fails as stated: the request of the first candidate succeeds, its
    content is present and [json.loads] fails on it, an integer of 4301
    digits; the loop does not end there with a degraded result, the second
    candidate is requested and its answer is what the call returns. *)
Lemma long_integer_counterexample :
  let table := [(fast, says long_integer); (large, says report_with_owner)] in
  reply table fast = Return (completion (Some long_integer))
  /\ returns (json_decode long_integer) = false
  /\ analyze transcript None (session table)
     = (Return (PyDict decoded_report_with_owner),
        after table (session table) (request transcript <$> [fast; large])).
Proof. vm_compute. repeat split. Qed.

(** Arrays nested deeper than the interpreter has room for have the same
    effect. *)
Example deep_array_is_passed_over :
  let deep := [(fast, says deep_array); (large, says report_with_owner)] in
  returns (json_decode deep_array) = false
  /\ analyze transcript None (session deep)
     = (Return (PyDict decoded_report_with_owner),
        after deep (session deep) (request transcript <$> [fast; large])).
Proof. vm_compute. repeat split. Qed.


Lemma missing_owner_absent_witness :
  let table := [(fast, says report_without_owner)] in
  let d := decoded_report_without_owner in
  fst (analyze transcript None (session table)) = Return (PyDict d)
  /\ action_item_field (PyDict d) 0 (py "responsable") = None
  /\ fst (Frontend.show_action_items (PyDict d)) !! 0
     = Some (Frontend.Item 1 (PyStr (py "Finish report"))
               (PyStr (py "Not assigned"))).
Proof.
  intros table d.
  apply (AnalysisFacts.missing_owner_absent Stub.create json_decode transcript
           None [] fast [large; other] (session table) initial (session table)
           (completion (Some report_without_owner)) table report_without_owner
           d [[(py "tache", PyStr (py "Finish report"))]] 0
           [(py "tache", PyStr (py "Finish report"))]);
    vm_compute; reflexivity.
Defined.

(** C4 fails as stated: the reply lists an action item without owner, and
    the owner field of that item in the returned result is absent; it is
    not the sentinel of the prompt. *)
Lemma missing_owner_counterexample :
  exists result,
    json_decode report_without_owner = Return result
    /\ fst (analyze transcript None
              (session [(fast, says report_without_owner)]))
       = Return result
    /\ action_item_field result 0 (py "tache") = Some (PyStr (py "Finish report"))
    /\ action_item_field result 0 (py "responsable") = None
    /\ action_item_field result 0 (py "responsable")
       <> Some (PyStr (py "To be determined")).
Proof. eexists. vm_compute. repeat split. discriminate. Qed.

(** C2 at a failing input: the first candidate fails at the request level,
    the second one returns the content [null], and the call raises. *)
Theorem null_content_raises :
  let table := [(fast, rate_limited); (large, says (py "null"))] in
  reply table large = Return (completion (Some (py "null")))
  /\ analyze transcript (Some [fast; large]) (session table)
     = (Raise (Exception (py "All models failed. Last error: Rate limit reached")),
        after table (session table) (request transcript <$> [fast; large])).
Proof. vm_compute. split; reflexivity. Qed.

(** C9 at a failing input: the content [null] is valid JSON and decodes to
    [None], and the call raises the exhaustion error instead of returning
    the decoded value. *)
Theorem null_not_returned :
  json_decode (py "null") = Return PyNone
  /\ fst (analyze transcript None (session [(fast, says (py "null"))]))
     = Raise (Exception (py "All models failed. Last error: None")).
Proof. vm_compute. split; reflexivity. Qed.

(** The variable [response] outlives the iteration that assigned it: a
    completion without content makes [json.loads] raise a [TypeError] and
    the loop go on, and a [JSONDecodeError] raised by the next request then
    finds that completion in the handler, where [len(None)] raises. *)
Example stale_response_escapes :
  let table := [ (fast, Return (completion None));
                 (large, Raise (JSONDecodeError (py "Expecting value")));
                 (other, says report_with_owner) ] in
  fst (analyze transcript None (session table))
  = Raise (TypeError (py "object of type 'NoneType' has no len()")).
Proof. vm_compute. reflexivity. Qed.

(** Values that are not objects, and objects without the two fields, come
    back as they were decoded. *)
Example unvalidated_results :
  fst (analyze transcript None (session [(fast, says (py "[1, 2]"))]))
  = Return (PyList [PyInt 1; PyInt 2])
  /\ fst (analyze transcript None (session [(fast, says (quoted "done"))]))
     = Return (PyStr (py "done"))
  /\ fst (analyze transcript None (session [(fast, says (py "{}"))]))
     = Return (PyDict []).
Proof. vm_compute. repeat split. Qed.

End AnalysisRuns.

(** ** The transcription service *)

Module TranscriptionFacts.
Import Whisper TranscriptionService.

(** *** The file system *)

Lemma file_extension_nonempty uploaded_file : file_extension uploaded_file <> [].
Proof.
  unfold file_extension.
  destruct (Os.splitext_ext (name uploaded_file)); discriminate.
Qed.

Lemma free_name_found suffix names os p rest :
  Os.free_name suffix names os = Some (p, rest) ->
  files os !! p = None
  /\ exists stem, stem ∈ names /\ p = stem ++ suffix.
Proof.
  induction names as [|stem names IH]; simpl; [discriminate|].
  unfold Os.path_exists. case_bool_decide as Hex.
  - intros H. destruct (IH H) as (Hp & stem' & Hin & ->).
    split; [exact Hp|]. exists stem'. split; [right; exact Hin|reflexivity].
  - intros [= <- <-]. split.
    + apply eq_None_not_Some. exact Hex.
    + exists stem. split; [left|reflexivity].
Qed.

(** A temporary file is new, empty and not yet written to; its name is one
    of the names that were to be tried, followed by the suffix. *)
Lemma NamedTemporaryFile_creates suffix os f os1 :
  Os.NamedTemporaryFile suffix os = (Return f, os1) ->
  Os.buffer f = []
  /\ files os !! Os.name f = None
  /\ files os1 = <[Os.name f := []]> (files os)
  /\ pinned os1 = pinned os /\ stdout os1 = stdout os
  /\ free os1 = free os /\ buffer_size os1 = buffer_size os
  /\ exists stem, stem ∈ tmp_names os /\ Os.name f = stem ++ suffix.
Proof.
  unfold Os.NamedTemporaryFile.
  destruct (Os.free_name suffix (tmp_names os) os) as [[p rest]|] eqn:E;
    [|discriminate].
  intros [= <- <-]. destruct (free_name_found _ _ _ _ _ E) as [Hp Hstem].
  simpl. repeat split; auto.
Qed.

Lemma NamedTemporaryFile_name suffix os f os1 :
  Os.NamedTemporaryFile suffix os = (Return f, os1) ->
  suffix <> [] -> Os.name f <> [].
Proof.
  intros H Hs.
  destruct (NamedTemporaryFile_creates _ _ _ _ H)
    as (_ & _ & _ & _ & _ & _ & _ & stem & _ & ->).
  intros [_ Hn]%app_eq_nil. contradiction.
Qed.

Lemma NamedTemporaryFile_fails suffix os e os1 :
  Os.NamedTemporaryFile suffix os = (Raise e, os1) -> os1 = os.
Proof.
  unfold Os.NamedTemporaryFile.
  destruct (Os.free_name suffix (tmp_names os) os) as [[p rest]|];
    intros [=]; auto.
Qed.

(** *** What a file object does to the disk *)

Lemma appended_nil p os : Os.appended p [] os os.
Proof.
  unfold Os.appended. repeat split; [|simpl; lia].
  apply map_eq. intros q. destruct (decide (p = q)) as [<-|Hq].
  - rewrite lookup_alter_eq. destruct (files os !! p); simpl; [|reflexivity].
    rewrite app_nil_r. reflexivity.
  - rewrite lookup_alter_ne by exact Hq. reflexivity.
Qed.

Lemma appended_app p a b os os1 os2 :
  Os.appended p a os os1 -> Os.appended p b os1 os2 ->
  Os.appended p (a ++ b) os os2.
Proof.
  intros (Hf1 & Hr1 & Hp1 & Hb1 & Ht1 & Ho1) (Hf2 & Hr2 & Hp2 & Hb2 & Ht2 & Ho2).
  unfold Os.appended. repeat split; try congruence.
  - rewrite Hf2, Hf1. apply map_eq. intros q.
    destruct (decide (p = q)) as [<-|Hq].
    + rewrite !lookup_alter_eq. destruct (files os !! p); simpl; [|reflexivity].
      rewrite app_assoc. reflexivity.
    + rewrite !lookup_alter_ne by exact Hq. reflexivity.
  - rewrite length_app. lia.
Qed.

Lemma appended_lookup p a os os' :
  Os.appended p a os os' ->
  files os' !! p = (fun old => old ++ a) <$> files os !! p.
Proof. intros (-> & _). apply lookup_alter_eq. Qed.

Lemma appended_lookup_ne p a os os' q :
  Os.appended p a os os' -> q <> p -> files os' !! q = files os !! q.
Proof. intros (-> & _) Hq. apply lookup_alter_ne. congruence. Qed.

Lemma raw_write_returns p data os n os' :
  Os.raw_write p data os = (Return n, os') ->
  n <= length data /\ (data <> [] -> 0 < n)
  /\ Os.appended p (take n data) os os'.
Proof.
  unfold Os.raw_write. destruct data as [|b data].
  - intros [= <- <-]. split; [simpl; lia|]. split; [congruence|].
    apply appended_nil.
  - destruct (free os =? 0)%N eqn:E; [discriminate|]. apply N.eqb_neq in E.
    assert (Hk : N.to_nat (N.min (N.of_nat (length (b :: data))) (free os))
                 <= length (b :: data)
                 /\ (N.of_nat (N.to_nat (N.min (N.of_nat (length (b :: data)))
                                                (free os))) <= free os)%N
                 /\ 0 < N.to_nat (N.min (N.of_nat (length (b :: data))) (free os)))
      by (simpl length; lia).
    remember (N.to_nat (N.min (N.of_nat (length (b :: data))) (free os)))
      as k eqn:Ek. clear Ek.
    intros [= <- <-]. split; [lia|]. split; [lia|].
    unfold Os.appended. cbn [files free pinned buffer_size tmp_names stdout].
    repeat split. rewrite length_take. lia.
Qed.

Lemma raw_write_raises p data os e os' :
  Os.raw_write p data os = (Raise e, os') ->
  e = Os.no_space /\ os' = os /\ data <> [].
Proof.
  unfold Os.raw_write. destruct data as [|b data]; [discriminate|].
  destruct (free os =? 0)%N; intros [= <- <-]. auto.
Qed.

(** [flush] writes the buffer out, or a part of it when the disk is full. *)
Lemma flush_loop_spec p rounds : forall buf os,
  length buf <= rounds ->
  match Os.flush_loop rounds p buf os with
  | (Return _, buf', os') => buf' = [] /\ Os.appended p buf os os'
  | (Raise e, buf', os') =>
      e = Os.no_space /\ buf' <> []
      /\ exists written, buf = written ++ buf' /\ Os.appended p written os os'
  end.
Proof.
  induction rounds as [|rounds IH]; intros buf os Hlen.
  - destruct buf; [|simpl in Hlen; lia]. simpl. split; [reflexivity|].
    apply appended_nil.
  - destruct buf as [|b buf]; [simpl; split; [reflexivity|apply appended_nil]|].
    cbn [Os.flush_loop].
    destruct (Os.raw_write p (b :: buf) os) as [[n|e] os1] eqn:E.
    + destruct (raw_write_returns _ _ _ _ _ E) as (Hn & Hpos & Ha).
      specialize (Hpos ltac:(discriminate)).
      specialize (IH (drop n (b :: buf)) os1).
      rewrite length_drop in IH. specialize (IH ltac:(simpl in *; lia)).
      destruct (Os.flush_loop rounds p (drop n (b :: buf)) os1)
        as [[[[]|e] buf'] os']; simpl.
      * destruct IH as [-> Hb]. split; [reflexivity|].
        rewrite <- (take_drop n (b :: buf)).
        exact (appended_app _ _ _ _ _ _ Ha Hb).
      * destruct IH as (-> & Hne & written & Hsplit & Hb).
        split; [reflexivity|]. split; [exact Hne|].
        exists (take n (b :: buf) ++ written). split.
        -- rewrite <- app_assoc, <- Hsplit, take_drop. reflexivity.
        -- exact (appended_app _ _ _ _ _ _ Ha Hb).
    + destruct (raw_write_raises _ _ _ _ _ E) as (-> & -> & _). simpl.
      split; [reflexivity|]. split; [discriminate|].
      exists []. split; [reflexivity|apply appended_nil].
Qed.

Lemma flush_spec f os :
  match Os.flush f os with
  | (Return _, f', os') =>
      Os.name f' = Os.name f /\ Os.buffer f' = []
      /\ Os.appended (Os.name f) (Os.buffer f) os os'
  | (Raise e, f', os') =>
      e = Os.no_space /\ Os.name f' = Os.name f /\ Os.buffer f' <> []
      /\ exists written,
           Os.buffer f = written ++ Os.buffer f'
           /\ Os.appended (Os.name f) written os os'
  end.
Proof.
  unfold Os.flush.
  pose proof (flush_loop_spec (Os.name f) (length (Os.buffer f)) (Os.buffer f)
                os (le_n _)) as H.
  destruct (Os.flush_loop _ _ _ _) as [[[[]|e] buf'] os']; simpl.
  - destruct H as [-> H]. auto.
  - destruct H as (-> & Hne & H). auto.
Qed.

(** [close] leaves the whole buffer on the disk, or raises with a part of
    it there. *)
Lemma close_spec f os :
  match Os.close f os with
  | (Return _, os') => Os.appended (Os.name f) (Os.buffer f) os os'
  | (Raise e, os') =>
      e = Os.no_space
      /\ exists written rest,
           Os.buffer f = written ++ rest /\ rest <> []
           /\ Os.appended (Os.name f) written os os'
  end.
Proof.
  unfold Os.close. pose proof (flush_spec f os) as H.
  destruct (Os.flush f os) as [[[[]|e] f'] os'].
  - destruct H as (_ & _ & H). exact H.
  - destruct H as (-> & _ & Hne & written & Hs & Ha).
    split; [reflexivity|]. eauto.
Qed.

Lemma write_loop_spec p rounds : forall remaining os,
  length remaining <= rounds ->
  match Os.write_loop rounds p remaining os with
  | (Return rest, os') =>
      exists written, remaining = written ++ rest /\ Os.appended p written os os'
  | (Raise e, os') =>
      e = Os.no_space
      /\ exists written rest,
           remaining = written ++ rest /\ rest <> []
           /\ Os.appended p written os os'
  end.
Proof.
  induction rounds as [|rounds IH]; intros remaining os Hlen.
  - destruct remaining; [|simpl in Hlen; lia]. cbn [Os.write_loop].
    destruct (N.of_nat (length []) <=? buffer_size os)%N;
      exists []; (split; [reflexivity|apply appended_nil]).
  - cbn [Os.write_loop].
    destruct (N.of_nat (length remaining) <=? buffer_size os)%N;
      [exists []; split; [reflexivity|apply appended_nil]|].
    destruct (Os.raw_write p remaining os) as [[n|e] os1] eqn:E.
    + destruct (raw_write_returns _ _ _ _ _ E) as (Hn & Hpos & Ha).
      destruct remaining as [|b remaining].
      { simpl in E. injection E as <- <-. simpl.
        specialize (IH [] os ltac:(simpl; lia)).
        exact IH. }
      specialize (Hpos ltac:(discriminate)).
      specialize (IH (drop n (b :: remaining)) os1).
      rewrite length_drop in IH. specialize (IH ltac:(simpl in *; lia)).
      destruct (Os.write_loop rounds p (drop n (b :: remaining)) os1)
        as [[rest|e] os'].
      * destruct IH as (written & Hs & Hb).
        exists (take n (b :: remaining) ++ written). split.
        -- rewrite <- app_assoc, <- Hs, take_drop. reflexivity.
        -- exact (appended_app _ _ _ _ _ _ Ha Hb).
      * destruct IH as (-> & written & rest & Hs & Hne & Hb).
        split; [reflexivity|].
        exists (take n (b :: remaining) ++ written), rest. split; [|split].
        -- rewrite <- app_assoc, <- Hs, take_drop. reflexivity.
        -- exact Hne.
        -- exact (appended_app _ _ _ _ _ _ Ha Hb).
    + destruct (raw_write_raises _ _ _ _ _ E) as (-> & -> & Hne).
      split; [reflexivity|]. exists [], remaining.
      split; [reflexivity|]. split; [exact Hne|apply appended_nil].
Qed.

(** [write] on a file object whose buffer is empty: of the data, a first
    part is on the disk and the rest is in the buffer when it returns; when
    it raises, a first part is on the disk, the rest is lost and the buffer
    is still empty. *)
Lemma write_spec f data os :
  Os.buffer f = [] ->
  match Os.write f data os with
  | (Return n, f', os') =>
      n = N.of_nat (length data) /\ Os.name f' = Os.name f
      /\ exists written,
           data = written ++ Os.buffer f'
           /\ Os.appended (Os.name f) written os os'
  | (Raise e, f', os') =>
      e = Os.no_space /\ Os.name f' = Os.name f /\ Os.buffer f' = []
      /\ exists written rest,
           data = written ++ rest /\ rest <> []
           /\ Os.appended (Os.name f) written os os'
  end.
Proof.
  intros Hb. unfold Os.write. rewrite Hb. cbn [length app].
  destruct (N.of_nat (length data) <=? buffer_size os - N.of_nat 0)%N.
  - simpl. split; [reflexivity|]. split; [reflexivity|].
    exists []. split; [reflexivity|apply appended_nil].
  - unfold Os.flush. rewrite Hb. cbn [length Os.flush_loop Os.name Os.buffer].
    pose proof (write_loop_spec (Os.name f) (length data) data os (le_n _)) as H.
    destruct (Os.write_loop _ _ _ _) as [[rest|e] os'].
    + simpl. destruct H as (written & Hs & Ha). eauto.
    + simpl. destruct H as (-> & written & rest & Hs & Hne & Ha).
      split; [reflexivity|]. split; [reflexivity|]. split; [reflexivity|].
      eauto.
Qed.

(** What is in the temporary file once it is written and closed: the
    bytes given to [write]. *)
Lemma written_and_closed suffix data os f os1 n f' os2 os3 :
  Os.NamedTemporaryFile suffix os = (Return f, os1) ->
  Os.write f data os1 = (Return n, f', os2) ->
  Os.close f' os2 = (Return (), os3) ->
  Os.name f' = Os.name f
  /\ files os3 !! Os.name f = Some data
  /\ Os.appended (Os.name f) data os1 os3.
Proof.
  intros Hn Hw Hc.
  destruct (NamedTemporaryFile_creates _ _ _ _ Hn) as (Hb & _ & Hf1 & _).
  pose proof (write_spec f data os1 Hb) as Hws. rewrite Hw in Hws.
  destruct Hws as (_ & Hname & written & Hs & Ha).
  pose proof (close_spec f' os2) as Hcs. rewrite Hc, Hname in Hcs.
  pose proof (appended_app _ _ _ _ _ _ Ha Hcs) as Hall. rewrite <- Hs in Hall.
  split; [exact Hname|]. split; [|exact Hall].
  rewrite (appended_lookup _ _ _ _ Hall), Hf1, lookup_insert_eq. reflexivity.
Qed.

(** When [close] raises, the file is there with a part of the data. *)
Lemma written_and_not_closed suffix data os f os1 n f' os2 e os3 :
  Os.NamedTemporaryFile suffix os = (Return f, os1) ->
  Os.write f data os1 = (Return n, f', os2) ->
  Os.close f' os2 = (Raise e, os3) ->
  Os.name f' = Os.name f
  /\ exists written rest,
       data = written ++ rest /\ rest <> []
       /\ files os3 !! Os.name f = Some written
       /\ Os.appended (Os.name f) written os1 os3.
Proof.
  intros Hn Hw Hc.
  destruct (NamedTemporaryFile_creates _ _ _ _ Hn) as (Hb & _ & Hf1 & _).
  pose proof (write_spec f data os1 Hb) as Hws. rewrite Hw in Hws.
  destruct Hws as (_ & Hname & written & Hs & Ha).
  pose proof (close_spec f' os2) as Hcs. rewrite Hc, Hname in Hcs.
  destruct Hcs as (_ & more & rest & Hbuf & Hne & Hb2).
  pose proof (appended_app _ _ _ _ _ _ Ha Hb2) as Hall.
  split; [exact Hname|]. exists (written ++ more), rest.
  split; [rewrite Hs, Hbuf, app_assoc; reflexivity|]. split; [exact Hne|].
  split; [|exact Hall].
  rewrite (appended_lookup _ _ _ _ Hall), Hf1, lookup_insert_eq. reflexivity.
Qed.

(** *** Deleting *)

Lemma must_delete_present p os data :
  p <> [] -> files os !! p = Some data ->
  must_delete (Some p) os = Some p.
Proof.
  intros Hp Hf. unfold must_delete, Os.path_exists.
  rewrite Hf, bool_decide_eq_false_2, bool_decide_eq_true_2; eauto.
Qed.

Lemma must_delete_absent p os :
  files os !! p = None -> must_delete (Some p) os = None.
Proof.
  intros Hf. unfold must_delete, Os.path_exists. rewrite Hf.
  rewrite (bool_decide_eq_false_2 (is_Some None)), andb_false_r; [reflexivity|].
  intros [? [=]].
Qed.

(** Deleting a file that is there: it is gone, and its room is free again,
    unless it is pinned. *)
Lemma unlink_present p os data :
  files os !! p = Some data ->
  Os.unlink p os
  = if bool_decide (p ∈ pinned os)
    then (Raise (OSError (Os.errno_str (py "[Errno 13] Permission denied") p)),
          os)
    else (Return (),
          {| files := delete p (files os); pinned := pinned os;
             free := free os + N.of_nat (length data);
             buffer_size := buffer_size os;
             tmp_names := tmp_names os; stdout := stdout os |}).
Proof. intros Hf. unfold Os.unlink. rewrite Hf. reflexivity. Qed.

Lemma cleanup_finally_present p os data :
  p <> [] -> files os !! p = Some data ->
  cleanup_finally (Some p) os
  = if bool_decide (p ∈ pinned os)
    then Os.print (py "Warning: Unable to delete temporary file: "
                   ++ Os.errno_str (py "[Errno 13] Permission denied") p) os
    else {| files := delete p (files os); pinned := pinned os;
            free := free os + N.of_nat (length data);
            buffer_size := buffer_size os;
            tmp_names := tmp_names os; stdout := stdout os |}.
Proof.
  intros Hp Hf. unfold cleanup_finally.
  rewrite (must_delete_present p os data Hp Hf), (unlink_present p os data Hf).
  destruct (bool_decide (p ∈ pinned os)); reflexivity.
Qed.

Lemma cleanup_on_error_present p os data :
  p <> [] -> files os !! p = Some data ->
  cleanup_on_error (Some p) os
  = if bool_decide (p ∈ pinned os)
    then os
    else {| files := delete p (files os); pinned := pinned os;
            free := free os + N.of_nat (length data);
            buffer_size := buffer_size os;
            tmp_names := tmp_names os; stdout := stdout os |}.
Proof.
  intros Hp Hf. unfold cleanup_on_error.
  rewrite (must_delete_present p os data Hp Hf), (unlink_present p os data Hf).
  destruct (bool_decide (p ∈ pinned os)); reflexivity.
Qed.

Lemma cleanup_finally_absent p os :
  files os !! p = None -> cleanup_finally (Some p) os = os.
Proof.
  intros Hf. unfold cleanup_finally. rewrite (must_delete_absent p os Hf).
  reflexivity.
Qed.

Lemma cleanup_on_error_absent p os :
  files os !! p = None -> cleanup_on_error (Some p) os = os.
Proof.
  intros Hf. unfold cleanup_on_error. rewrite (must_delete_absent p os Hf).
  reflexivity.
Qed.

(** The two exits of [transcribe_uploaded_file], seen from the disk [os]
    on which the clean-up begins: [after_return] when the [try] block
    returned, [after_raise] when it raised. *)
Local Abbreviation after_return p os := (cleanup_finally (Some p) os).
Local Abbreviation after_raise p os :=
  (cleanup_finally (Some p) (cleanup_on_error (Some p) os)).

(** A file that may be deleted is not there after the clean-up. *)
Lemma cleanup_removes p os :
  p <> [] -> p ∉ pinned os ->
  files (after_return p os) !! p = None
  /\ files (after_raise p os) !! p = None.
Proof.
  intros Hp Hpin. destruct (files os !! p) as [data|] eqn:Hf.
  - rewrite (cleanup_on_error_present p os data Hp Hf),
      (cleanup_finally_present p os data Hp Hf),
      (bool_decide_eq_false_2 _ Hpin).
    rewrite cleanup_finally_absent by apply lookup_delete_eq.
    cbn [files]. split; apply lookup_delete_eq.
  - rewrite (cleanup_on_error_absent p os Hf), (cleanup_finally_absent p os Hf).
    auto.
Qed.

(** A pinned file is still there after the clean-up, and the warning has
    been printed. *)
Lemma cleanup_refused p os data :
  p <> [] -> p ∈ pinned os -> files os !! p = Some data ->
  after_raise p os = after_return p os
  /\ files (after_return p os) !! p = Some data
  /\ last (stdout (after_return p os))
     = Some (py "Warning: Unable to delete temporary file: "
             ++ Os.errno_str (py "[Errno 13] Permission denied") p).
Proof.
  intros Hp Hpin Hf.
  rewrite (cleanup_on_error_present p os data Hp Hf),
    (bool_decide_eq_true_2 _ Hpin),
    (cleanup_finally_present p os data Hp Hf),
    (bool_decide_eq_true_2 _ Hpin).
  split; [reflexivity|]. split; [exact Hf|]. apply last_snoc.
Qed.

Section Facts.
Context {WhisperModel : Type}.
Variable WhisperModel_new : str -> str -> str -> OS -> result WhisperModel * OS.
Variable model_transcribe :
  WhisperModel -> str -> option str -> Z -> OS
  -> result (Segments * TranscriptionInfo) * OS.

Local Abbreviation load_model := (load_model WhisperModel_new).
Local Abbreviation model_in_use := (model_in_use WhisperModel_new).
Local Abbreviation transcribe_audio_file :=
  (transcribe_audio_file WhisperModel_new model_transcribe).
Local Abbreviation upload_body :=
  (upload_body WhisperModel_new model_transcribe).
Local Abbreviation transcribe_uploaded_file :=
  (transcribe_uploaded_file WhisperModel_new model_transcribe).

Implicit Types (self : Self WhisperModel) (m : WhisperModel) (os : OS).

(** *** The loop over the segments *)

Lemma accumulate_emit segs ending acc :
  accumulate (emit segs ending) acc
  = accumulate ending (acc ++ concat ((fun seg => text seg ++ [space]) <$> segs)).
Proof.
  revert acc. induction segs as [|seg segs IH]; intros acc; simpl.
  - rewrite app_nil_r. reflexivity.
  - rewrite IH, <- !app_assoc. reflexivity.
Qed.

Lemma accumulate_yielding segs :
  accumulate (yielding segs) []
  = (Return (concat ((fun seg => text seg ++ [space]) <$> segs)), Stop).
Proof. unfold yielding. rewrite accumulate_emit. reflexivity. Qed.



(** *** transcribe_audio_file with a model at hand *)

(** What the call makes of the answer of the model. *)
Local Abbreviation outcome answer :=
  (match answer with
   | Return (segments, info) =>
       match fst (accumulate segments []) with
       | Return transcription_text =>
           Return (strip transcription_text, metadata info)
       | Raise e =>
           Raise (Exception (py "Error during transcription: " ++ exc_str e))
       end
   | Raise e =>
       Raise (Exception (py "Error during transcription: " ++ exc_str e))
   end).

Lemma transcribe_with_model self m path language beam_size os os1 :
  model_in_use self os = (Return m, os1) ->
  transcribe_audio_file self path language beam_size os
  = (outcome (fst (model_transcribe m path language beam_size os1)),
     {| model_size := model_size self; model := Some m |},
     snd (model_transcribe m path language beam_size os1)).
Proof.
  unfold TranscriptionService.model_in_use,
    TranscriptionService.transcribe_audio_file,
    TranscriptionService.load_model, transcribe_body.
  destruct self as [size [m0|]]; simpl.
  - intros [= -> ->].
    destruct (model_transcribe m path language beam_size os1)
      as [[[segments info]|e] os2]; [|reflexivity].
    simpl. destruct (fst (accumulate segments [])); reflexivity.
  - intros ->. simpl.
    destruct (model_transcribe m path language beam_size os1)
      as [[[segments info]|e] os2]; [|reflexivity].
    simpl. destruct (fst (accumulate segments [])); reflexivity.
Qed.

Lemma transcribe_without_model self path language beam_size os e os1 :
  model_in_use self os = (Raise e, os1) ->
  transcribe_audio_file self path language beam_size os
  = (Raise (Exception (py "Error loading Whisper model: " ++ exc_str e)),
     self, os1).
Proof.
  unfold TranscriptionService.model_in_use,
    TranscriptionService.transcribe_audio_file,
    TranscriptionService.load_model.
  destruct (model self); [discriminate|]. intros ->. reflexivity.
Qed.

(** C7. [load_model] on a loaded service returns the cached model and
    changes nothing, neither the service nor the disk, so a second call
    after a successful one is a no-op; and when the model cannot be built
    the call raises an exception whose message carries the text of the
    cause, the service being left unloaded as it was. *)
Theorem load_model_cached_or_unloaded self os :
  (forall m, model self = Some m -> load_model self os = (Return m, self, os))
  /\ (forall m self' os', load_model self os = (Return m, self', os') ->
        model self' = Some m
        /\ forall os'', load_model self' os'' = (Return m, self', os''))
  /\ (forall e os', model self = None ->
        WhisperModel_new (model_size self) (py "cpu") (py "int8") os
        = (Raise e, os') ->
        load_model self os
        = (Raise (Exception (py "Error loading Whisper model: " ++ exc_str e)),
           self, os')
        /\ model (snd (fst (load_model self os))) = None).
Proof.
  unfold TranscriptionService.load_model. split; [|split].
  - intros m ->. reflexivity.
  - intros m self' os'. destruct (model self) as [m0|] eqn:E.
    + intros [= -> <- <-]. rewrite E. auto.
    + destruct (WhisperModel_new _ _ _ _) as [[m1|e] os1];
        intros [= -> <- <-]. simpl. auto.
  - intros e os' Hm Hn. rewrite Hm, Hn. simpl. auto.
Qed.

(** C6. When the model yields a finite sequence of segments, the loop runs
    the generator to its end, and the returned text is the texts of the
    segments in the order of emission, separated by a single space, with the
    white space at both ends trimmed. *)
Theorem transcribe_joins_segments
    self m path language beam_size os os1 os2 segs info :
  model_in_use self os = (Return m, os1) ->
  model_transcribe m path language beam_size os1
  = (Return (yielding segs, info), os2) ->
  fst (fst (transcribe_audio_file self path language beam_size os))
  = Return (strip (spec_join (text <$> segs)), metadata info)
  /\ snd (accumulate (yielding segs) []) = Stop.
Proof.
  intros Hm Ht. rewrite (transcribe_with_model self m _ _ _ _ _ Hm), Ht.
  cbn [fst snd]. rewrite accumulate_yielding. simpl. split; [|reflexivity].
  rewrite <- StringFacts.strip_concat_spaced, <- list_fmap_compose.
  reflexivity.
Qed.


(** *** The temporary file *)

(** The call, once the temporary file is written: [close], then the
    transcription of the file, then the clean-up. *)
Lemma upload_written self uploaded_file language beam_size os f os1 n f' os2 :
  Os.NamedTemporaryFile (file_extension uploaded_file) os = (Return f, os1) ->
  Os.write f (getbuffer uploaded_file) os1 = (Return n, f', os2) ->
  transcribe_uploaded_file self uploaded_file language beam_size os
  = match Os.close f' os2 with
    | (Return _, os3) =>
        match transcribe_audio_file self (Os.name f) language beam_size os3 with
        | (Return r, self', os4) =>
            (Return r, self', after_return (Os.name f) os4)
        | (Raise e, self', os4) =>
            (Raise e, self', after_raise (Os.name f) os4)
        end
    | (Raise e, os3) => (Raise e, self, after_raise (Os.name f) os3)
    end.
Proof.
  intros Hn Hw.
  destruct (NamedTemporaryFile_creates _ _ _ _ Hn) as (Hb & _).
  pose proof (write_spec f (getbuffer uploaded_file) os1 Hb) as Hws.
  rewrite Hw in Hws. destruct Hws as (_ & Hname & _).
  unfold TranscriptionService.transcribe_uploaded_file,
    TranscriptionService.upload_body.
  rewrite Hn, Hw, Hname.
  destruct (Os.close f' os2) as [[[]|e] os3]; [|reflexivity].
  destruct (transcribe_audio_file self (Os.name f) language beam_size os3)
    as [[[r|e] self'] os4]; reflexivity.
Qed.

(** C8, as amended.  In every call in which the temporary file is created
    and written: when [close] returns, the file holds the bytes of the
    upload and the outcome is that of the transcription of this file,
    returned or raised, and when [close] raises, the call raises the same;
    after the call the file is absent unless the system refuses to delete
    it; and when it refuses, the refusal is passed over, the file is still
    there and the warning is the last line printed. *)
Theorem temp_file_removed_unless_pinned
    self uploaded_file language beam_size os f os1 n f' os2 :
  Os.NamedTemporaryFile (file_extension uploaded_file) os = (Return f, os1) ->
  Os.write f (getbuffer uploaded_file) os1 = (Return n, f', os2) ->
  let p := Os.name f in
  let out := transcribe_uploaded_file self uploaded_file language beam_size os in
  (forall os3 r self' os4,
      Os.close f' os2 = (Return (), os3) ->
      transcribe_audio_file self p language beam_size os3 = (r, self', os4) ->
      files os3 !! p = Some (getbuffer uploaded_file)
      /\ fst out = (r, self')
      /\ (p ∉ pinned os4 -> files (snd out) !! p = None)
      /\ (forall data, p ∈ pinned os4 -> files os4 !! p = Some data ->
            files (snd out) !! p = Some data
            /\ last (stdout (snd out))
               = Some (py "Warning: Unable to delete temporary file: "
                       ++ Os.errno_str (py "[Errno 13] Permission denied") p)))
  /\ (forall e os3,
        Os.close f' os2 = (Raise e, os3) ->
        fst out = (Raise e, self)
        /\ (p ∉ pinned os -> files (snd out) !! p = None)
        /\ (p ∈ pinned os ->
            is_Some (files (snd out) !! p)
            /\ last (stdout (snd out))
               = Some (py "Warning: Unable to delete temporary file: "
                       ++ Os.errno_str (py "[Errno 13] Permission denied") p))).
Proof.
  intros Hn Hw p out. subst out.
  rewrite (upload_written self uploaded_file language beam_size os f os1 n f' os2
             Hn Hw).
  pose proof (NamedTemporaryFile_name _ _ _ _ Hn (file_extension_nonempty _))
    as Hp.
  split.
  - intros os3 r self' os4 Hc Ht. fold p. rewrite Hc, Ht.
    destruct (written_and_closed _ _ _ _ _ _ _ _ _ Hn Hw Hc) as (_ & Hhere & _).
    split; [exact Hhere|].
    destruct r as [r|e]; cbn [fst snd].
    + split; [reflexivity|]. split.
      * intros Hpin. apply (cleanup_removes p os4 Hp Hpin).
      * intros data Hpin Hf.
        destruct (cleanup_refused p os4 data Hp Hpin Hf) as (_ & H1 & H2).
        auto.
    + split; [reflexivity|]. split.
      * intros Hpin. apply (cleanup_removes p os4 Hp Hpin).
      * intros data Hpin Hf.
        destruct (cleanup_refused p os4 data Hp Hpin Hf) as (-> & H1 & H2).
        auto.
  - intros e os3 Hc. fold p. rewrite Hc. cbn [fst snd].
    split; [reflexivity|].
    destruct (NamedTemporaryFile_creates _ _ _ _ Hn)
      as (_ & _ & _ & Hpin1 & _).
    destruct (written_and_not_closed _ _ _ _ _ _ _ _ _ _ Hn Hw Hc)
      as (_ & written & rest & _ & _ & Hhere & Ha).
    assert (Hpin3 : pinned os3 = pinned os)
      by (destruct Ha as (_ & _ & -> & _); exact Hpin1).
    split.
    + intros Hpin. apply (cleanup_removes p os3 Hp). rewrite Hpin3. exact Hpin.
    + intros Hpin. rewrite <- Hpin3 in Hpin.
      destruct (cleanup_refused p os3 written Hp Hpin Hhere) as (-> & H1 & H2).
      split; [rewrite H1; eauto|exact H2].
Qed.

End Facts.
End TranscriptionFacts.

(** ** The transcription service on concrete models and disks *)

Module TranscriptionRuns.
Import Whisper TranscriptionService Stub.

Abbreviation loaded answer :=
  ({| model_size := py "base"; model := Some answer |} : Self Model).

Lemma load_model_witness :
  let answer : Model := Return (yielding hello_world, english) in
  let downloaded :=
    snd (WhisperModel_new answer (py "base") (py "cpu") (py "int8") disk) in
  load_model (WhisperModel_new answer) (loaded answer) disk
  = (Return answer, loaded answer, disk)
  /\ load_model (WhisperModel_new answer) (init (py "base")) disk
     = (Return answer, loaded answer, downloaded)
  /\ load_model (WhisperModel_new answer) (loaded answer) downloaded
     = (Return answer, loaded answer, downloaded)
  /\ load_model (WhisperModel_new answer) (init (py "huge")) disk
     = (Raise (Exception (py "Error loading Whisper model: Invalid model size")),
        init (py "huge"), disk).
Proof.
  intros answer downloaded. split; [|split; [|split]].
  - destruct (TranscriptionFacts.load_model_cached_or_unloaded
                (WhisperModel_new answer) (loaded answer) disk) as (Hcached & _).
    apply Hcached. reflexivity.
  - reflexivity.
  - destruct (TranscriptionFacts.load_model_cached_or_unloaded
                (WhisperModel_new answer) (init (py "base")) disk)
      as (_ & Hsecond & _).
    destruct (Hsecond answer (loaded answer) downloaded) as [_ H];
      [reflexivity|].
    apply H.
  - destruct (TranscriptionFacts.load_model_cached_or_unloaded
                (WhisperModel_new answer) (init (py "huge")) disk)
      as (_ & _ & Hfail).
    destruct (Hfail (ValueError (py "Invalid model size")) disk)
      as [H _]; [reflexivity | reflexivity | exact H].
Defined.

Lemma transcribe_joins_segments_witness :
  let answer : Model := Return (yielding hello_world, english) in
  fst (fst (transcribe_audio_file (WhisperModel_new answer) model_transcribe
              (init (py "base")) (py "/srv/meeting.wav") None 5 disk_with_audio))
  = Return (strip (spec_join [py " Hello"; py " world."]), metadata english)
  /\ snd (accumulate (yielding hello_world) []) = Stop.
Proof.
  intros answer.
  apply (TranscriptionFacts.transcribe_joins_segments (WhisperModel_new answer)
           model_transcribe (init (py "base")) answer (py "/srv/meeting.wav")
           None 5%Z disk_with_audio
           (snd (WhisperModel_new answer (py "base") (py "cpu") (py "int8")
                   disk_with_audio))
           (snd (WhisperModel_new answer (py "base") (py "cpu") (py "int8")
                   disk_with_audio))
           hello_world english);
    vm_compute; reflexivity.
Defined.

Example hello_world_text :
  strip (spec_join [py " Hello"; py " world."]) = py "Hello  world.".
Proof. vm_compute. reflexivity. Qed.



(** C8 fails as stated: the decoding fails after some segments, the system
    refuses to delete the temporary file, and the file is on the disk after
    the call; so it is when the transcription succeeds. *)
Lemma locked_temp_file_counterexample :
  let broken : Model := Return (failing hello_world decode_failure, english) in
  let fine : Model := Return (yielding hello_world, english) in
  let run answer :=
    transcribe_uploaded_file (WhisperModel_new answer) model_transcribe
      (init (py "base")) recording None 5 locked_disk in
  fst (fst (run broken))
  = Raise (Exception (py "Error during transcription: " ++ exc_str decode_failure))
  /\ files (snd (run broken)) !! temp_name = Some (getbuffer recording)
  /\ fst (fst (run fine)) = Return (py "Hello  world.", metadata english)
  /\ files (snd (run fine)) !! temp_name = Some (getbuffer recording).
Proof. vm_compute. repeat split. Qed.

(** The decoding fails on a disk that lets the file go, and on one that
    does not; and on a disk with room for two bytes [close] fails. *)
Lemma temp_file_removed_witness :
  let broken : Model := Return (failing hello_world decode_failure, english) in
  let run os :=
    transcribe_uploaded_file (WhisperModel_new broken) model_transcribe
      (init (py "base")) recording None 5 os in
  files (snd (run disk)) !! temp_name = None
  /\ last (stdout (snd (run locked_disk)))
     = Some (py "Warning: Unable to delete temporary file: "
             ++ Os.errno_str (py "[Errno 13] Permission denied") temp_name)
  /\ fst (run (disk_with_room 2)) = (Raise Os.no_space, init (py "base"))
  /\ files (snd (run (disk_with_room 2))) !! temp_name = None.
Proof.
  intros broken run.
  pose (transcription os :=
          transcribe_audio_file (WhisperModel_new broken) model_transcribe
            (init (py "base")) temp_name None 5
            (snd (Os.close written (with_temp os)))).
  assert (Hrun : forall os,
             Os.NamedTemporaryFile (file_extension recording) os
             = (Return created, with_temp os) ->
             Os.write created (getbuffer recording) (with_temp os)
             = (Return 4%N, written, with_temp os) ->
             _)
    by (intros os; exact (TranscriptionFacts.temp_file_removed_unless_pinned
                            (WhisperModel_new broken) model_transcribe
                            (init (py "base")) recording None 5%Z os created
                            (with_temp os) 4%N written (with_temp os))).
  split; [|split].
  - destruct (Hrun disk) as [H _]; [vm_compute; reflexivity ..|].
    destruct (H (snd (Os.close written (with_temp disk)))
                (fst (fst (transcription disk))) (snd (fst (transcription disk)))
                (snd (transcription disk)))
      as (_ & _ & Hgone & _); [vm_compute; reflexivity ..|].
    apply Hgone.
    assert (Hpin : pinned (snd (transcription disk)) = ∅)
      by (vm_compute; reflexivity).
    rewrite Hpin. apply not_elem_of_empty.
  - destruct (Hrun locked_disk) as [H _]; [vm_compute; reflexivity ..|].
    destruct (H (snd (Os.close written (with_temp locked_disk)))
                (fst (fst (transcription locked_disk)))
                (snd (fst (transcription locked_disk)))
                (snd (transcription locked_disk)))
      as (_ & _ & _ & Hkept); [vm_compute; reflexivity ..|].
    apply (Hkept (getbuffer recording)); [|vm_compute; reflexivity].
    assert (Hpin : pinned (snd (transcription locked_disk)) = {[ temp_name ]})
      by (vm_compute; reflexivity).
    rewrite Hpin. apply elem_of_singleton. reflexivity.
  - destruct (Hrun (disk_with_room 2)) as [_ H]; [vm_compute; reflexivity ..|].
    destruct (H Os.no_space (snd (Os.close written (with_temp (disk_with_room 2)))))
      as (Hraised & Hgone & _); [vm_compute; reflexivity|].
    split; [exact Hraised|]. apply Hgone. apply not_elem_of_empty.
Defined.

(** What [write] and [close] make of a disk that is nearly full.  The
    four bytes of the recording wait in the buffer and it is [close] that
    fails, with two of them on the disk.  Of the 10000 bytes of the long
    recording, [write] passes on what does not fit into the buffer: it fails
    where there is room for 1000 bytes, and returns where there is room for
    5000, the rest waiting in the buffer for [close] to fail. *)
Example nearly_full_disk :
  let size (b : bytes) := N.of_nat (length b) in
  let attempt (data : bytes) (room : N)
    : result N * N * option N * result unit * option N :=
    let os := with_temp (disk_with_room room) in
    let '(r, f, os') := Os.write created data os in
    (r, size (Os.buffer f), size <$> files os' !! temp_name,
     fst (Os.close f os'),
     size <$> files (snd (Os.close f os')) !! temp_name) in
  (attempt (getbuffer recording) 2
   = (Return 4, 4, Some 0, Raise Os.no_space, Some 2)
   /\ attempt (getbuffer recording) 4
      = (Return 4, 4, Some 0, Return (), Some 4)
   /\ attempt (getbuffer long_recording) 1000
      = (Raise Os.no_space, 0, Some 1000, Return (), Some 1000)
   /\ attempt (getbuffer long_recording) 5000
      = (Return 10000, 5000, Some 5000, Raise Os.no_space, Some 5000)
   /\ attempt (getbuffer long_recording) 9000
      = (Return 10000, 1000, Some 9000, Raise Os.no_space, Some 9000)
   /\ attempt (getbuffer long_recording) 20000
      = (Return 10000, 0, Some 10000, Return (), Some 10000))%N.
Proof. vm_compute. repeat split. Qed.

(** A temporary name that is taken is passed over. *)
Example taken_name_is_skipped :
  fst (Os.NamedTemporaryFile (py ".wav") crowded_disk)
  = Return {| Os.name := py "/tmp/tmpd4e5f6.wav"; Os.buffer := [] |}
  /\ files (snd (Os.NamedTemporaryFile (py ".wav") crowded_disk))
       !! py "/tmp/tmpa1b2c3.wav"
     = Some [1; 2; 3]%N.
Proof. vm_compute. split; reflexivity. Qed.

End TranscriptionRuns.

(** ** More on the analysis service *)

Module AnalysisMore.
Import Groq AnalysisService.

Section More.
Context {Endpoint : Type}.
Variable create : Request -> Endpoint -> result ChatCompletion * Endpoint.
Variable json_loads : str -> result value.

Local Abbreviation attempt := (attempt create json_loads).
Local Abbreviation for_models := (for_models create json_loads).
Local Abbreviation analyze_meeting := (analyze_meeting create json_loads).
Local Abbreviation failures := (failures create).

Implicit Types (s : Session Endpoint) (l : Locals) (t m c : str).

(** A completion without content sends the loop on, with the [TypeError] of
    [json.loads(None)] as the last error and the completion left in
    [response]. *)
Lemma attempt_no_content t m l s r e1 :
  create (request t m) (endpoint s) = (Return r, e1) ->
  first_content r = Return None ->
  attempt t m l s
  = (Continue {| analysis_data := analysis_data l;
                 last_error :=
                   Some (TypeError
                           (py "the JSON object must be str, bytes or bytearray, not NoneType"));
                 response := Some r |},
     after e1 s [request t m]).
Proof.
  intros Hc Hf. unfold AnalysisService.attempt, client_create.
  rewrite Hc, Hf. reflexivity.
Qed.

(** So does a completion without choices, with the [IndexError]. *)
Lemma attempt_no_choice t m l s r e1 :
  create (request t m) (endpoint s) = (Return r, e1) ->
  choices r = [] ->
  attempt t m l s
  = (Continue {| analysis_data := analysis_data l;
                 last_error := Some (IndexError (py "list index out of range"));
                 response := Some r |},
     after e1 s [request t m]).
Proof.
  intros Hc Hf. unfold AnalysisService.attempt, client_create, first_content.
  rewrite Hc, Hf. reflexivity.
Qed.

(** X1. When the request of every candidate raises, the call raises the
    exception whose message is "All models failed. Last error: " followed by
    the text of what the last candidate raised ("None" for an empty list),
    after one request to each candidate, in the order of the list. *)
Theorem exhaustion_reports_last_failure t models_to_try s e' last :
  failures t (endpoint s) (default default_models models_to_try) e' last ->
  analyze_meeting t models_to_try s
  = (Raise (Exception (py "All models failed. Last error: "
                       ++ opt_exc_str last)),
     after e' s (request t <$> default default_models models_to_try)).
Proof.
  intros Hf. unfold AnalysisService.analyze_meeting.
  destruct (AnalysisFacts.for_models_failures create json_loads t _ s e' last
              Hf initial eq_refl) as (l' & Hrun & Hd & _ & Hl).
  rewrite Hrun. unfold conclude. rewrite Hd, Hl. simpl.
  destruct last; reflexivity.
Qed.

(** X2. What [analyze_meeting] returns is never [None]. *)
Theorem result_is_never_None t models_to_try s v :
  fst (analyze_meeting t models_to_try s) = Return v -> is_None v = false.
Proof.
  unfold AnalysisService.analyze_meeting, conclude.
  destruct (for_models t _ initial s) as [[l|l|e] s']; simpl;
    try (destruct (is_None (analysis_data l)) eqn:E; intros [= <-]; exact E).
  intros [=].
Qed.

(** X3. A completion that carries no content, or no choice at all, counts as
    a failure of its candidate: when this candidate is the last of the list,
    the call raises the exhaustion error with the text of the [TypeError] of
    [json.loads(None)], or of the [IndexError] of [choices[0]], as last
    error. *)
Theorem contentless_reply_is_a_failure t models_to_try pre m s l1 s1 r e2 :
  default default_models models_to_try = pre ++ [m] ->
  for_models t pre initial s = (Continue l1, s1) ->
  create (request t m) (endpoint s1) = (Return r, e2) ->
  (first_content r = Return None ->
   analyze_meeting t models_to_try s
   = (Raise (Exception (py "All models failed. Last error: the JSON object must be str, bytes or bytearray, not NoneType")),
      after e2 s1 [request t m]))
  /\ (choices r = [] ->
      analyze_meeting t models_to_try s
      = (Raise (Exception (py "All models failed. Last error: list index out of range")),
         after e2 s1 [request t m])).
Proof.
  intros Hm Hpre Hc.
  pose proof (AnalysisFacts.for_models_continue_data create json_loads
                _ _ _ _ _ _ Hpre) as Hd.
  unfold AnalysisService.analyze_meeting.
  rewrite Hm, AnalysisFacts.for_models_app, Hpre. simpl. split; intros Hf.
  - rewrite (attempt_no_content t m l1 s1 r e2 Hc Hf).
    unfold conclude. simpl. rewrite Hd. reflexivity.
  - rewrite (attempt_no_choice t m l1 s1 r e2 Hc Hf).
    unfold conclude. simpl. rewrite Hd. reflexivity.
Qed.

(** X25. Content on which [json.loads] raises anything but a
    [JSONDecodeError], an integer with too many digits or arrays nested too
    deep, counts as a failure of its candidate: the loop goes on with the
    candidates that follow, the exception being the last error and the
    completion staying in [response], and when no candidate follows the
    call raises the exhaustion error with the text of the exception. *)
Theorem refused_content_is_a_failure
    t models_to_try pre m post s l1 s1 r e2 c e :
  default default_models models_to_try = pre ++ m :: post ->
  for_models t pre initial s = (Continue l1, s1) ->
  create (request t m) (endpoint s1) = (Return r, e2) ->
  first_content r = Return (Some c) ->
  json_loads c = Raise e ->
  is_JSONDecodeError e = false ->
  for_models t (pre ++ m :: post) initial s
  = for_models t post
      {| analysis_data := PyNone; last_error := Some e; response := Some r |}
      (after e2 s (request t <$> pre ++ [m]))
  /\ (post = [] ->
      analyze_meeting t models_to_try s
      = (Raise (Exception (py "All models failed. Last error: " ++ exc_str e)),
         after e2 s (request t <$> pre ++ [m]))).
Proof.
  intros Hm Hpre Hc Hf Hj He.
  assert (Hgo : for_models t (pre ++ m :: post) initial s
                = for_models t post
                    {| analysis_data := PyNone; last_error := Some e;
                       response := Some r |}
                    (after e2 s (request t <$> pre ++ [m]))).
  { rewrite AnalysisFacts.for_models_app, Hpre. simpl.
    rewrite (AnalysisFacts.attempt_refused create json_loads t m l1 s1 r e2 c e
               Hc Hf Hj He).
    rewrite (AnalysisFacts.for_models_continue_data create json_loads
               t pre initial s l1 s1 Hpre).
    rewrite (AnalysisFacts.reached_after create json_loads t pre _ s l1 s1 m e2
               Hpre).
    reflexivity. }
  split; [exact Hgo|]. intros ->.
  unfold AnalysisService.analyze_meeting. rewrite Hm, Hgo. reflexivity.
Qed.

(** X4. The variable [response] keeps the completion of an earlier
    iteration: when a candidate answers without content and the request of
    the next one raises a [JSONDecodeError], the handler takes the old
    completion for the new one, [len(None)] raises, and this [TypeError]
    leaves the call; no later candidate is requested. *)
Theorem stale_response_escapes_handler
    t models_to_try pre a b post s l1 s1 r e2 msg e3 :
  default default_models models_to_try = pre ++ a :: b :: post ->
  for_models t pre initial s = (Continue l1, s1) ->
  create (request t a) (endpoint s1) = (Return r, e2) ->
  first_content r = Return None ->
  create (request t b) e2 = (Raise (JSONDecodeError msg), e3) ->
  analyze_meeting t models_to_try s
  = (Raise (TypeError (py "object of type 'NoneType' has no len()")),
     after e3 s1 [request t a; request t b]).
Proof.
  intros Hm Hpre Ha Hf Hb. unfold AnalysisService.analyze_meeting.
  rewrite Hm, AnalysisFacts.for_models_app, Hpre. simpl.
  rewrite (attempt_no_content t a l1 s1 r e2 Ha Hf).
  unfold AnalysisService.attempt, client_create. simpl.
  rewrite Hb. unfold handler. simpl. rewrite Hf. simpl.
  unfold after. simpl. rewrite <- app_assoc. reflexivity.
Qed.

(** X5. Every request of a call is the request of one of the candidates:
    the fixed system prompt, the user message made of the introduction and
    the whole transcript, temperature 0.7 and the JSON object format; and
    there are no more requests than candidates. *)
Theorem requests_are_uniform t models_to_try s :
  exists reqs,
    sent (snd (analyze_meeting t models_to_try s)) = sent s ++ reqs
    /\ length reqs <= length (default default_models models_to_try)
    /\ forall req, req ∈ reqs ->
         (exists m, m ∈ default default_models models_to_try /\ model req = m)
         /\ messages req
            = [ {| role := py "system"; text := system_prompt |};
                {| role := py "user";
                   text := py "Analyze this meeting transcription:" ++ nl ++ nl ++ t |} ]
         /\ temperature req = py "0.7"
         /\ response_format req = py "json_object".
Proof.
  unfold AnalysisService.analyze_meeting.
  set (models := default default_models models_to_try).
  destruct (AnalysisFacts.for_models_sent create json_loads t models initial s)
    as (k & Hk & Hs & _ & _).
  exists (request t <$> take k models). split; [|split].
  - destruct (for_models t models initial s) as [[l|l|e] s']; exact Hs.
  - rewrite length_fmap, length_take. lia.
  - intros req (m & -> & Hin)%list_elem_of_fmap. split; [|auto].
    exists m. split; [|reflexivity]. exact (subseteq_take _ _ _ Hin).
Qed.

(** X6. When a call returns a result, the candidates that follow in the list
    play no role: the call with more candidates appended returns the same
    result and leaves the same session. *)
Theorem later_candidates_do_not_matter t front post s :
  returns (fst (analyze_meeting t (Some front) s)) = true ->
  analyze_meeting t (Some (front ++ post)) s
  = analyze_meeting t (Some front) s.
Proof.
  unfold AnalysisService.analyze_meeting. simpl.
  rewrite AnalysisFacts.for_models_app.
  destruct (for_models t front initial s) as [[l|l|e] s'] eqn:E; simpl.
  - pose proof (AnalysisFacts.for_models_continue_data create json_loads
                  _ _ _ _ _ _ E) as Hd.
    unfold conclude. rewrite Hd. simpl. discriminate.
  - reflexivity.
  - reflexivity.
Qed.

(** X7. Candidates whose requests raise are passed over without a trace in
    the result: when they are followed by a candidate that answers with
    conclusive content (it decodes to a value other than [None], or it is
    rejected as not being JSON), the call returns what it returns when the
    list starts at that candidate, the answer being the same, whatever
    candidates follow in either list. *)
Theorem failing_prefix_is_transparent
    t pre b post post' s e1 last r e2 e2' c :
  failures t (endpoint s) pre e1 last ->
  create (request t b) e1 = (Return r, e2) ->
  create (request t b) (endpoint s) = (Return r, e2') ->
  first_content r = Return (Some c) ->
  json_loads c <> Return PyNone ->
  (forall e, json_loads c = Raise e -> is_JSONDecodeError e = true) ->
  fst (analyze_meeting t (Some (pre ++ b :: post)) s)
  = fst (analyze_meeting t (Some (b :: post')) s)
  /\ returns (fst (analyze_meeting t (Some (b :: post')) s)) = true.
Proof.
  intros Hf Hb Hb' Hc Hn He.
  destruct (AnalysisFacts.for_models_failures create json_loads t pre s e1 last
              Hf initial eq_refl) as (l' & Hrun & Hd & _ & _).
  unfold AnalysisService.analyze_meeting. simpl.
  rewrite AnalysisFacts.for_models_app, Hrun. simpl.
  destruct (AnalysisFacts.conclusive_cases _ Hn He) as [(v & E & Hv)|(msg & E)].
  - rewrite (AnalysisFacts.attempt_decoded create json_loads t b l'
               (after e1 s (request t <$> pre)) r e2 c v Hb Hc E).
    rewrite (AnalysisFacts.attempt_decoded create json_loads t b initial s r e2' c v
               Hb' Hc E).
    unfold conclude. simpl. rewrite Hv. split; reflexivity.
  - rewrite (AnalysisFacts.attempt_malformed create json_loads t b l'
               (after e1 s (request t <$> pre)) r e2 c msg Hb Hc E).
    rewrite (AnalysisFacts.attempt_malformed create json_loads t b initial s r e2' c msg
               Hb' Hc E).
    split; reflexivity.
Qed.

End More.
End AnalysisMore.

(** ** More on trimming *)

Module StringMore.

Lemma lstrip_split s : exists a, s = a ++ lstrip s /\ blank a = true.
Proof.
  induction s as [|c s (a & Hs & Ha)]; [exists []; auto|].
  simpl. destruct (isspace c) eqn:E.
  - exists (c :: a). simpl. rewrite <- Hs. unfold blank in *. simpl.
    rewrite E, Ha. auto.
  - exists []. auto.
Qed.

Lemma rstrip_split s : exists b, s = rstrip s ++ b /\ blank b = true.
Proof.
  unfold rstrip. destruct (lstrip_split (reverse s)) as (a & Hs & Ha).
  exists (reverse a). split.
  - rewrite <- reverse_app, <- Hs, reverse_involutive. reflexivity.
  - rewrite StringFacts.blank_reverse. exact Ha.
Qed.

(** [strip] cuts a blank prefix and a blank suffix off. *)
Lemma strip_split s :
  exists a b, s = a ++ strip s ++ b /\ blank a = true /\ blank b = true.
Proof.
  unfold strip. destruct (lstrip_split s) as (a & Hs & Ha).
  destruct (rstrip_split (lstrip s)) as (b & Hr & Hb).
  exists a, b. rewrite <- Hr. auto.
Qed.

Lemma strip_head s c : head (strip s) = Some c -> isspace c = false.
Proof.
  unfold strip. destruct (rstrip_split (lstrip s)) as (b & Hr & _).
  destruct (rstrip (lstrip s)) as [|c' r] eqn:E; [discriminate|].
  intros [= ->]. exact (StringFacts.lstrip_head s c (r ++ b) Hr).
Qed.

Lemma strip_last s c : last (strip s) = Some c -> isspace c = false.
Proof.
  unfold strip, rstrip. rewrite last_reverse.
  destruct (lstrip (reverse (lstrip s))) as [|c' r] eqn:E; [discriminate|].
  intros [= ->]. exact (StringFacts.lstrip_head _ c r E).
Qed.

Lemma lstrip_id s : (forall c, head s = Some c -> isspace c = false) -> lstrip s = s.
Proof.
  destruct s as [|c s]; [reflexivity|]. intros H. simpl.
  rewrite (H c eq_refl). reflexivity.
Qed.

Lemma strip_idempotent s : strip (strip s) = strip s.
Proof.
  unfold strip at 1. rewrite (lstrip_id (strip s)) by apply strip_head.
  unfold rstrip. rewrite lstrip_id, reverse_involutive; [reflexivity|].
  intros c. rewrite head_reverse. apply strip_last.
Qed.

End StringMore.

(** ** More on the transcription service *)

Module TranscriptionMore.
Import Whisper TranscriptionService.

(** *** Paths *)

Lemma until_split stop s :
  s = fst (Os.until stop s) ++ snd (Os.until stop s)
  /\ (snd (Os.until stop s) = [] \/ head (snd (Os.until stop s)) = Some stop).
Proof.
  induction s as [|c s [IH1 IH2]]; simpl; [auto|].
  destruct (c =? stop)%N eqn:E.
  - apply N.eqb_eq in E. subst. simpl. auto.
  - destruct (Os.until stop s) as [a b]. simpl in *. rewrite <- IH1. auto.
Qed.

(** The extension found in a name is the end of the name, from a dot on. *)
Lemma splitext_ext_suffix p :
  Os.splitext_ext p = []
  \/ exists stem rest, Os.splitext_ext p = 46%N :: rest /\ p = stem ++ 46%N :: rest.
Proof.
  unfold Os.splitext_ext.
  destruct (until_split 47%N (reverse p)) as [Hp _].
  destruct (Os.until 47%N (reverse p)) as [base rest1]. simpl in *.
  destruct (until_split 46%N base) as [Hb Hd].
  destruct (Os.until 46%N base) as [ext_rev rest]. simpl in *.
  destruct rest as [|d stem_rev]; [auto|].
  destruct Hd as [Hd|[= ->]]; [discriminate|].
  destruct (existsb _ stem_rev); [|auto].
  right. exists (reverse (stem_rev ++ rest1)), (reverse ext_rev).
  split; [reflexivity|].
  apply (f_equal reverse) in Hp. rewrite reverse_involutive in Hp.
  rewrite Hp, Hb, !reverse_app, reverse_cons, <- !app_assoc. reflexivity.
Qed.

(** *** The clean-up and the other files *)

(** The clean-up blocks touch no file but the one they are given. *)
Lemma cleanup_finally_frame p os q :
  q <> p -> files (cleanup_finally (Some p) os) !! q = files os !! q.
Proof.
  intros Hq. unfold cleanup_finally, must_delete, Os.unlink.
  destruct (negb (bool_decide (p = [])) && Os.path_exists p os); [|auto].
  destruct (files os !! p); [|auto].
  destruct (bool_decide (p ∈ pinned os)); simpl; [auto|].
  apply lookup_delete_ne. congruence.
Qed.

Lemma cleanup_on_error_frame p os q :
  q <> p -> files (cleanup_on_error (Some p) os) !! q = files os !! q.
Proof.
  intros Hq. unfold cleanup_on_error, must_delete, Os.unlink.
  destruct (negb (bool_decide (p = [])) && Os.path_exists p os); [|auto].
  destruct (files os !! p); [|auto].
  destruct (bool_decide (p ∈ pinned os)); simpl; [auto|].
  apply lookup_delete_ne. congruence.
Qed.

(** Deleting a new file to which bytes were appended gives the disk back:
    the files are those from before the file was created, and the room is
    free again. *)
Lemma cleanup_restores p added os os1 os3 :
  files os !! p = None ->
  files os1 = <[p := []]> (files os) ->
  Os.appended p added os1 os3 ->
  p <> [] -> p ∉ pinned os3 ->
  let restored :=
    {| files := files os; pinned := pinned os1; free := free os1;
       buffer_size := buffer_size os1; tmp_names := tmp_names os1;
       stdout := stdout os1 |} in
  cleanup_finally (Some p) os3 = restored
  /\ cleanup_finally (Some p) (cleanup_on_error (Some p) os3) = restored.
Proof.
  intros Hnew Hf1 Ha Hp Hpin restored.
  assert (Hhere : files os3 !! p = Some added).
  { rewrite (TranscriptionFacts.appended_lookup _ _ _ _ Ha), Hf1,
      lookup_insert_eq. reflexivity. }
  assert (Hdel : {| files := delete p (files os3); pinned := pinned os3;
                    free := free os3 + N.of_nat (length added);
                    buffer_size := buffer_size os3;
                    tmp_names := tmp_names os3; stdout := stdout os3 |}
                 = restored).
  { destruct Ha as (Hf3 & Hfree & -> & -> & -> & ->). subst restored.
    f_equal; [|exact Hfree].
    apply map_eq. intros q. destruct (decide (p = q)) as [<-|Hq].
    - rewrite lookup_delete_eq, Hnew. reflexivity.
    - rewrite lookup_delete_ne, Hf3, lookup_alter_ne, Hf1, lookup_insert_ne
        by exact Hq.
      reflexivity. }
  rewrite (TranscriptionFacts.cleanup_on_error_present p os3 added Hp Hhere),
    (TranscriptionFacts.cleanup_finally_present p os3 added Hp Hhere),
    (bool_decide_eq_false_2 _ Hpin), Hdel.
  split; [reflexivity|].
  apply TranscriptionFacts.cleanup_finally_absent. exact Hnew.
Qed.

Section More.
Context {WhisperModel : Type}.
Variable WhisperModel_new : str -> str -> str -> OS -> result WhisperModel * OS.
Variable model_transcribe :
  WhisperModel -> str -> option str -> Z -> OS
  -> result (Segments * TranscriptionInfo) * OS.

Local Abbreviation load_model := (load_model WhisperModel_new).
Local Abbreviation model_in_use := (model_in_use WhisperModel_new).
Local Abbreviation transcribe_audio_file :=
  (transcribe_audio_file WhisperModel_new model_transcribe).
Local Abbreviation transcribe_uploaded_file :=
  (transcribe_uploaded_file WhisperModel_new model_transcribe).

Implicit Types (self : Self WhisperModel) (m : WhisperModel) (os : OS).

Lemma transcribe_returns_stripped self path language beam_size os text md :
  fst (fst (transcribe_audio_file self path language beam_size os))
  = Return (text, md) ->
  exists raw, text = strip raw.
Proof.
  destruct (model_in_use self os) as [[m|e] os1] eqn:Hm.
  - rewrite (TranscriptionFacts.transcribe_with_model WhisperModel_new
               model_transcribe self m path language beam_size os os1 Hm).
    cbn [fst].
    destruct (fst (model_transcribe m path language beam_size os1))
      as [[segs info]|e]; [|discriminate].
    destruct (fst (accumulate segs [])) as [raw|e]; [|discriminate].
    intros [= <- _]. eauto.
  - rewrite (TranscriptionFacts.transcribe_without_model WhisperModel_new
               model_transcribe self path language beam_size os e os1 Hm).
    discriminate.
Qed.

(** X8. The text that [transcribe_audio_file] returns neither starts nor
    ends with white space, and trimming it again changes nothing. *)
Theorem transcript_is_trimmed self path language beam_size os text md :
  fst (fst (transcribe_audio_file self path language beam_size os))
  = Return (text, md) ->
  (forall c, head text = Some c -> isspace c = false)
  /\ (forall c, last text = Some c -> isspace c = false)
  /\ strip text = text.
Proof.
  intros (raw & ->)%transcribe_returns_stripped. split; [|split].
  - intros c. apply StringMore.strip_head.
  - intros c. apply StringMore.strip_last.
  - apply StringMore.strip_idempotent.
Qed.

(** X9. Loading the model first, as the page does, changes nothing for the
    transcription that follows: the call on the loaded service, on the
    disk that the loading left, gives what the call on the service as it
    was gives, result, service and disk. *)
Theorem preloading_is_optional self m self' os os' path language beam_size :
  load_model self os = (Return m, self', os') ->
  transcribe_audio_file self' path language beam_size os'
  = transcribe_audio_file self path language beam_size os.
Proof.
  unfold TranscriptionService.load_model,
    TranscriptionService.transcribe_audio_file,
    TranscriptionService.load_model.
  destruct (model self) as [m0|] eqn:Em.
  - intros [= -> <- <-]. rewrite Em. reflexivity.
  - destruct (WhisperModel_new _ _ _ _) as [[m1|e] os1]; intros [= -> <- <-].
    reflexivity.
Qed.

(** X10. The model is built at most once: after a call that had a model to
    work with, whether the transcription succeeded or not, the service holds
    this model under the same size, and no later call uses the constructor.
    After a call in which the model could not be built the service is as it
    was, so that the next call tries to build it again. *)
Theorem model_is_built_at_most_once self path language beam_size os :
  (forall m os1, model_in_use self os = (Return m, os1) ->
     let self' :=
       snd (fst (transcribe_audio_file self path language beam_size os)) in
     model self' = Some m /\ model_size self' = model_size self
     /\ forall new' path' language' beam_size' os',
          TranscriptionService.transcribe_audio_file new' model_transcribe
            self' path' language' beam_size' os'
          = transcribe_audio_file self' path' language' beam_size' os'
          /\ TranscriptionService.load_model new' self' os'
             = (Return m, self', os'))
  /\ (forall e os1, model_in_use self os = (Raise e, os1) ->
        snd (fst (transcribe_audio_file self path language beam_size os)) = self).
Proof.
  split.
  - intros m os1 Hm.
    rewrite (TranscriptionFacts.transcribe_with_model WhisperModel_new
               model_transcribe self m path language beam_size os os1 Hm).
    simpl. repeat split.
  - intros e os1 Hm.
    rewrite (TranscriptionFacts.transcribe_without_model WhisperModel_new
               model_transcribe self path language beam_size os e os1 Hm).
    reflexivity.
Qed.

(** *** The upload *)

(** X11. When the temporary file cannot be created, the call raises what
    [NamedTemporaryFile] raised; the model is not loaded, and the disk and
    the output are as before. *)
Theorem temp_file_creation_failure self uploaded_file language beam_size os e os1 :
  Os.NamedTemporaryFile (file_extension uploaded_file) os = (Raise e, os1) ->
  transcribe_uploaded_file self uploaded_file language beam_size os
  = (Raise e, self, os).
Proof.
  intros Hn.
  pose proof (TranscriptionFacts.NamedTemporaryFile_fails _ _ _ _ Hn) as ->.
  unfold TranscriptionService.transcribe_uploaded_file, upload_body.
  rewrite Hn. reflexivity.
Qed.

(** X12. When [write] raises on the temporary file, the call raises what
    [write] raised and the model is not loaded, but the file that was
    created stays on the disk, holding the first part of the upload, the
    bytes that the system took before it refused: the path was not yet
    stored in [temp_file_path] when the clean-up blocks run.  The file
    object is dropped with nothing in its buffer. *)
Theorem failed_write_leaves_the_file
    self uploaded_file language beam_size os f os1 e f' os2 :
  Os.NamedTemporaryFile (file_extension uploaded_file) os = (Return f, os1) ->
  Os.write f (getbuffer uploaded_file) os1 = (Raise e, f', os2) ->
  transcribe_uploaded_file self uploaded_file language beam_size os
  = (Raise e, self, os2)
  /\ (exists taken rest,
        getbuffer uploaded_file = taken ++ rest /\ rest <> []
        /\ files os2 !! Os.name f = Some taken)
  /\ Os.buffer f' = []
  /\ stdout os2 = stdout os.
Proof.
  intros Hn Hw.
  destruct (TranscriptionFacts.NamedTemporaryFile_creates _ _ _ _ Hn)
    as (Hb & _ & Hf1 & _ & Hout & _).
  pose proof (TranscriptionFacts.write_spec f (getbuffer uploaded_file) os1 Hb)
    as Hws.
  rewrite Hw in Hws.
  destruct Hws as (_ & _ & Hb' & taken & rest & Hs & Hne & Ha).
  split; [|split; [|split]].
  - unfold TranscriptionService.transcribe_uploaded_file, upload_body.
    rewrite Hn, Hw. reflexivity.
  - exists taken, rest. split; [exact Hs|]. split; [exact Hne|].
    rewrite (TranscriptionFacts.appended_lookup _ _ _ _ Ha), Hf1,
      lookup_insert_eq.
    reflexivity.
  - exact Hb'.
  - destruct Ha as (_ & _ & _ & _ & _ & ->). exact Hout.
Qed.

(** What the transcription of a file does to a file that the constructor
    and the model leave alone: nothing. *)
Lemma transcribe_audio_file_frame self path language beam_size os q :
  (forall size device compute_type os',
      files (snd (WhisperModel_new size device compute_type os')) !! q
      = files os' !! q) ->
  (forall m path' language' beam_size' os',
      files (snd (model_transcribe m path' language' beam_size' os')) !! q
      = files os' !! q) ->
  files (snd (transcribe_audio_file self path language beam_size os)) !! q
  = files os !! q.
Proof.
  intros Hnew Htr.
  assert (Hin : files (snd (model_in_use self os)) !! q = files os !! q).
  { unfold TranscriptionService.model_in_use.
    destruct (model self); [reflexivity|apply Hnew]. }
  destruct (model_in_use self os) as [[m|e] os1] eqn:Hm; cbn [snd] in Hin.
  - rewrite (TranscriptionFacts.transcribe_with_model WhisperModel_new
               model_transcribe self m path language beam_size os os1 Hm).
    cbn [snd]. rewrite Htr. exact Hin.
  - rewrite (TranscriptionFacts.transcribe_without_model WhisperModel_new
               model_transcribe self path language beam_size os e os1 Hm).
    exact Hin.
Qed.

(** X13. Whatever the outcome, the code of the call touches no file but
    its temporary file, which is new and whose name is one of the names of
    the temporary directory followed by the extension: a file that is on
    the disk before the call, or a path that is none of these names, is
    after the call what it was before, if the constructor of the model and
    its [transcribe] leave it alone. *)
Theorem other_files_untouched self uploaded_file language beam_size os q :
  is_Some (files os !! q)
  \/ (forall stem, stem ∈ tmp_names os ->
                   q <> stem ++ file_extension uploaded_file) ->
  (forall size device compute_type os',
      files (snd (WhisperModel_new size device compute_type os')) !! q
      = files os' !! q) ->
  (forall m path language' beam_size' os',
      files (snd (model_transcribe m path language' beam_size' os')) !! q
      = files os' !! q) ->
  files (snd (transcribe_uploaded_file self uploaded_file language beam_size os))
    !! q
  = files os !! q.
Proof.
  intros Hq Hnew Htr.
  destruct (Os.NamedTemporaryFile (file_extension uploaded_file) os)
    as [[f|e] os1] eqn:Hn.
  - destruct (TranscriptionFacts.NamedTemporaryFile_creates _ _ _ _ Hn)
      as (Hb & Hnone & Hf1 & _ & _ & _ & _ & stem & Hin & Hname).
    assert (Hqp : q <> Os.name f).
    { destruct Hq as [[d Hd]|Hq]; [congruence|rewrite Hname; auto]. }
    assert (H1 : files os1 !! q = files os !! q)
      by (rewrite Hf1; apply lookup_insert_ne; congruence).
    pose proof (TranscriptionFacts.write_spec f (getbuffer uploaded_file) os1 Hb)
      as Hws.
    destruct (Os.write f (getbuffer uploaded_file) os1) as [[[n|e] f'] os2] eqn:Hw.
    + destruct Hws as (_ & Hname' & taken & _ & Ha).
      pose proof (TranscriptionFacts.appended_lookup_ne _ _ _ _ q Ha Hqp) as H2.
      rewrite (TranscriptionFacts.upload_written WhisperModel_new model_transcribe
                 self uploaded_file language beam_size os f os1 n f' os2 Hn Hw).
      pose proof (TranscriptionFacts.close_spec f' os2) as Hcs.
      rewrite Hname' in Hcs.
      destruct (Os.close f' os2) as [[[]|e] os3].
      * pose proof (TranscriptionFacts.appended_lookup_ne _ _ _ _ q Hcs Hqp) as H3.
        pose proof (transcribe_audio_file_frame self (Os.name f) language
                      beam_size os3 q Hnew Htr) as H4.
        destruct (transcribe_audio_file self (Os.name f) language beam_size os3)
          as [[[r|e] self'] os4]; cbn [fst snd] in *.
        -- rewrite cleanup_finally_frame by exact Hqp. congruence.
        -- rewrite cleanup_finally_frame, cleanup_on_error_frame by exact Hqp.
           congruence.
      * destruct Hcs as (_ & more & rest & _ & _ & Ha3).
        pose proof (TranscriptionFacts.appended_lookup_ne _ _ _ _ q Ha3 Hqp) as H3.
        cbn [fst snd].
        rewrite cleanup_finally_frame, cleanup_on_error_frame by exact Hqp.
        congruence.
    + destruct Hws as (_ & _ & _ & taken & rest & _ & _ & Ha).
      pose proof (TranscriptionFacts.appended_lookup_ne _ _ _ _ q Ha Hqp) as H2.
      unfold TranscriptionService.transcribe_uploaded_file, upload_body.
      rewrite Hn, Hw. cbn [snd cleanup_finally cleanup_on_error must_delete].
      congruence.
  - pose proof (TranscriptionFacts.NamedTemporaryFile_fails _ _ _ _ Hn) as ->.
    unfold TranscriptionService.transcribe_uploaded_file, upload_body.
    rewrite Hn. reflexivity.
Qed.

(** X14. When the service holds a model whose [transcribe] leaves the disk
    as it finds it, and the system lets the temporary file be deleted, a
    call in which the file is created and written leaves the disk as it
    was, the files, the free room, the pins and the output, whether [close]
    and the transcription succeed or not. *)
Theorem disk_is_restored
    self m uploaded_file language beam_size os f os1 n f' os2 :
  Os.NamedTemporaryFile (file_extension uploaded_file) os = (Return f, os1) ->
  Os.write f (getbuffer uploaded_file) os1 = (Return n, f', os2) ->
  model self = Some m ->
  (forall os', snd (model_transcribe m (Os.name f) language beam_size os') = os') ->
  Os.name f ∉ pinned os ->
  let out := transcribe_uploaded_file self uploaded_file language beam_size os in
  files (snd out) = files os /\ free (snd out) = free os
  /\ pinned (snd out) = pinned os /\ stdout (snd out) = stdout os.
Proof.
  intros Hn Hw Hm Hpure Hpin out. subst out.
  destruct (TranscriptionFacts.NamedTemporaryFile_creates _ _ _ _ Hn)
    as (_ & Hnew & Hf1 & Hpin1 & Hout1 & Hfree1 & _).
  pose proof (TranscriptionFacts.NamedTemporaryFile_name _ _ _ _ Hn
                (TranscriptionFacts.file_extension_nonempty _)) as Hp.
  rewrite (TranscriptionFacts.upload_written WhisperModel_new model_transcribe
             self uploaded_file language beam_size os f os1 n f' os2 Hn Hw).
  assert (Hfin : forall added os3,
             Os.appended (Os.name f) added os1 os3 ->
             forall os', (os' = cleanup_finally (Some (Os.name f)) os3
                          \/ os' = cleanup_finally (Some (Os.name f))
                                     (cleanup_on_error (Some (Os.name f)) os3)) ->
             files os' = files os /\ free os' = free os
             /\ pinned os' = pinned os /\ stdout os' = stdout os).
  { intros added os3 Ha os' Hos'.
    assert (Hpin3 : Os.name f ∉ pinned os3)
      by (destruct Ha as (_ & _ & -> & _); rewrite Hpin1; exact Hpin).
    destruct (cleanup_restores (Os.name f) added os os1 os3 Hnew Hf1 Ha Hp Hpin3)
      as [H1 H2].
    destruct Hos' as [-> | ->]; [rewrite H1|rewrite H2]; simpl; auto. }
  destruct (Os.close f' os2) as [[[]|e] os3] eqn:Hc.
  - destruct (TranscriptionFacts.written_and_closed _ _ _ _ _ _ _ _ _ Hn Hw Hc)
      as (_ & _ & Ha).
    rewrite (TranscriptionFacts.transcribe_with_model WhisperModel_new
               model_transcribe self m (Os.name f) language beam_size os3 os3)
      by (unfold TranscriptionService.model_in_use; rewrite Hm; reflexivity).
    rewrite Hpure.
    destruct (fst (model_transcribe m (Os.name f) language beam_size os3))
      as [[segments info]|e].
    + destruct (fst (accumulate segments [])); cbn [snd];
        apply (Hfin _ os3 Ha); auto.
    + cbn [snd]. apply (Hfin _ os3 Ha); auto.
  - destruct (TranscriptionFacts.written_and_not_closed _ _ _ _ _ _ _ _ _ _
                Hn Hw Hc)
      as (_ & taken & rest & _ & _ & _ & Ha).
    cbn [snd]. apply (Hfin _ os3 Ha); auto.
Qed.

(** X15. The file handed to the model holds exactly the bytes of the upload,
    and its name ends with the extension of the upload's name (the end of
    that name from its last dot on), or with ".mp3" when the name has
    none; when [close] raises, no file is handed to the model and the call
    raises the same. *)
Theorem model_reads_the_upload
    self uploaded_file language beam_size os f os1 n f' os2 :
  Os.NamedTemporaryFile (file_extension uploaded_file) os = (Return f, os1) ->
  Os.write f (getbuffer uploaded_file) os1 = (Return n, f', os2) ->
  match Os.close f' os2 with
  | (Return _, os3) =>
      fst (fst (transcribe_uploaded_file self uploaded_file language beam_size os))
      = fst (fst (transcribe_audio_file self (Os.name f) language beam_size os3))
      /\ files os3 !! Os.name f = Some (getbuffer uploaded_file)
  | (Raise e, _) =>
      fst (fst (transcribe_uploaded_file self uploaded_file language beam_size os))
      = Raise e
  end
  /\ (exists stem, Os.name f = stem ++ file_extension uploaded_file)
  /\ (file_extension uploaded_file = py ".mp3"
      \/ exists stem rest,
           file_extension uploaded_file = 46%N :: rest
           /\ name uploaded_file = stem ++ 46%N :: rest).
Proof.
  intros Hn Hw. split; [|split].
  - rewrite (TranscriptionFacts.upload_written WhisperModel_new model_transcribe
               self uploaded_file language beam_size os f os1 n f' os2 Hn Hw).
    destruct (Os.close f' os2) as [[[]|e] os3] eqn:Hc; [|reflexivity].
    destruct (TranscriptionFacts.written_and_closed _ _ _ _ _ _ _ _ _ Hn Hw Hc)
      as (_ & Hhere & _).
    split; [|exact Hhere].
    destruct (transcribe_audio_file self (Os.name f) language beam_size os3)
      as [[[r|e] self'] os4]; reflexivity.
  - destruct (TranscriptionFacts.NamedTemporaryFile_creates _ _ _ _ Hn)
      as (_ & _ & _ & _ & _ & _ & _ & stem & _ & Hname).
    eauto.
  - unfold file_extension.
    destruct (splitext_ext_suffix (name uploaded_file)) as [->|(stem & rest & He & Hname)];
      [auto|].
    rewrite He. right. eauto.
Qed.

End More.
End TranscriptionMore.

(** ** More on the action-item tab *)

Module FrontendMore.
Import Frontend.

(** the two elements written for an item that is a dict, under number [n] *)
Local Abbreviation row n item :=
  [ Item n
      (from_option id (PyStr (py "Task not specified")) (dict_lookup item (py "tache")))
      (from_option id (PyStr (py "Not assigned")) (dict_lookup item (py "responsable")));
    Rule ].

Lemma show_items_dicts (ds : list (list (str * value))) :
  forall idx,
    show_items idx (PyDict <$> ds)
    = (concat (imap (fun i item => row (idx + i) item) ds), Return ()).
Proof.
  induction ds as [|d ds IH]; intros idx; [reflexivity|].
  cbn [fmap list_fmap show_items get]. change (list_fmap _ _ ?f ?l) with (f <$> l).
  rewrite (IH (S idx)), imap_cons. cbn [concat app]. rewrite Nat.add_0_r.
  rewrite (imap_ext (fun i item => row (S idx + i) item)
             ((fun i item => row (idx + i) item) ∘ S) ds); [reflexivity|].
  intros i x _. simpl. replace (S (idx + i)) with (idx + S i) by lia.
  reflexivity.
Qed.

Lemma show_items_app (ds : list (list (str * value))) rest :
  forall idx,
    show_items idx ((PyDict <$> ds) ++ rest)
    = (concat (imap (fun i item => row (idx + i) item) ds)
       ++ fst (show_items (idx + length ds) rest),
       snd (show_items (idx + length ds) rest)).
Proof.
  induction ds as [|d ds IH]; intros idx.
  - simpl. rewrite Nat.add_0_r. destruct (show_items idx rest). reflexivity.
  - cbn [fmap list_fmap app show_items get]. change (list_fmap _ _ ?f ?l) with (f <$> l).
    rewrite (IH (S idx)), imap_cons. cbn [concat app length]. rewrite Nat.add_0_r.
    replace (S idx + length ds) with (idx + S (length ds)) by lia.
    rewrite (imap_ext (fun i item => row (S idx + i) item)
               ((fun i item => row (idx + i) item) ∘ S) ds); [reflexivity|].
    intros i x _. simpl. replace (S (idx + i)) with (idx + S i) by lia.
    reflexivity.
Qed.

(** X16. For a result whose action items are all dicts, the tab shows them in
    their order, numbered from 1, each followed by a rule, a missing task
    shown as "Task not specified" and a missing owner as "Not assigned"; and
    for a result without the key, or with an empty list under it, it shows
    the message that there is none. *)
Theorem action_items_are_numbered d (ds : list (list (str * value))) :
  (dict_lookup d (py "action_items") = Some (PyList (PyDict <$> ds)) ->
   ds <> [] ->
   show_action_items (PyDict d)
   = (concat (imap (fun i item => row (S i) item) ds), Return ()))
  /\ (dict_lookup d (py "action_items") = None
      \/ dict_lookup d (py "action_items") = Some (PyList []) ->
      show_action_items (PyDict d) = ([NoActionItems], Return ())).
Proof.
  split.
  - intros Hd Hne. unfold show_action_items, get. rewrite Hd.
    cbn [from_option id truthy iterate].
    destruct ds as [|d0 ds]; [congruence|].
    cbn [fmap list_fmap length Nat.eqb negb].
    exact (show_items_dicts (d0 :: ds) 1).
  - intros [Hd|Hd]; unfold show_action_items, get; rewrite Hd; reflexivity.
Qed.

(** X17. An action item that is not a dict ends the tab with the
    [AttributeError] of its missing [get] method, after the items before it
    have been shown. *)
Theorem item_that_is_no_dict_stops_the_tab
    d (ds : list (list (str * value))) bad rest :
  dict_lookup d (py "action_items") = Some (PyList ((PyDict <$> ds) ++ bad :: rest)) ->
  (forall item, bad <> PyDict item) ->
  show_action_items (PyDict d)
  = (concat (imap (fun i item => row (S i) item) ds),
     Raise (AttributeError
              (py "'" ++ type_name bad ++ py "' object has no attribute 'get'"))).
Proof.
  intros Hd Hbad. unfold show_action_items, get. rewrite Hd.
  cbn [from_option id truthy iterate].
  rewrite length_app. cbn [length].
  replace (length (PyDict <$> ds) + S (length rest) =? 0) with false
    by (symmetry; apply Nat.eqb_neq; lia).
  cbn [negb]. rewrite (show_items_app ds (bad :: rest) 1).
  cbn [show_items get].
  destruct bad; try (simpl; rewrite app_nil_r; reflexivity).
  exfalso. eapply Hbad. reflexivity.
Qed.

End FrontendMore.

(** ** The page *)

Module PageFacts.
Import Whisper TranscriptionService Groq AnalysisService Page.

(** membership in a list that is written out *)
Ltac listed :=
  repeat (rewrite ?elem_of_app, ?elem_of_cons); auto 20.

Lemma inside {A} (a b c t r : list A) :
  exists before rest, a ++ b ++ (c ++ t ++ r) = before ++ t ++ rest.
Proof. exists (a ++ b ++ c), r. rewrite <- !app_assoc. reflexivity. Qed.

(** The result part always starts with the heading and the first tab. *)
Lemma results_shows_transcript f text d :
  exists rest,
    fst (results f text d)
    = in_place InPage
        [ Markdown (py "---");
          Header (pic 128202 " Analysis Results");
          Tabs [ pic 128221 " Transcription"; pic 128203 " Executive Summary";
                 pic 9989 " Action Items" ] ]
      ++ transcription_tab f text ++ rest.
Proof.
  unfold results.
  destruct (Frontend.get d _ _) as [resume|e].
  - destruct (Frontend.show_action_items d) as [shown [[]|e]]; simpl;
      eexists; rewrite <- ?app_assoc; reflexivity.
  - simpl. eexists. reflexivity.
Qed.

Lemma results_never_stops f text d : snd (results f text d) <> Stopped.
Proof.
  unfold results.
  destruct (Frontend.get d _ _) as [resume|e]; [|discriminate].
  destruct (Frontend.show_action_items d) as [shown [[]|e]]; discriminate.
Qed.

(** A service that holds a model is not changed by a transcription, and the
    constructor plays no role in it. *)
Lemma upload_with_loaded_model {WhisperModel : Type}
    (new new' : str -> str -> str -> OS -> result WhisperModel * OS) mt
    (self : Self WhisperModel) m f language beam_size disk :
  TranscriptionService.model self = Some m ->
  snd (fst (transcribe_uploaded_file new mt self f language beam_size disk)) = self
  /\ transcribe_uploaded_file new' mt self f language beam_size disk
     = transcribe_uploaded_file new mt self f language beam_size disk.
Proof.
  intros Hm.
  assert (Haudio : forall n p os,
             transcribe_audio_file n mt self p language beam_size os
             = (match fst (transcribe_body mt self p language beam_size os) with
                | Return r => Return r
                | Raise e =>
                    Raise (Exception (py "Error during transcription: " ++ exc_str e))
                end, self,
                snd (transcribe_body mt self p language beam_size os))).
  { intros n p os. unfold transcribe_audio_file. rewrite Hm.
    destruct (transcribe_body mt self p language beam_size os) as [[r|e] os'];
      reflexivity. }
  unfold transcribe_uploaded_file, upload_body.
  destruct (Os.NamedTemporaryFile (file_extension f) disk) as [[p|e] os1];
    [|auto].
  destruct (Os.write p (getbuffer f) os1) as [[[n|e] p'] os2]; [|auto].
  destruct (Os.close p' os2) as [[[]|e] os3]; [|auto].
  rewrite !Haudio.
  destruct (fst (transcribe_body mt self (Os.name p') language beam_size os3));
    auto.
Qed.

Lemma load_model_loads {WhisperModel : Type}
    (new : str -> str -> str -> OS -> result WhisperModel * OS)
    self os m self1 os1 :
  load_model new self os = (Return m, self1, os1) ->
  TranscriptionService.model self1 = Some m.
Proof.
  unfold load_model. destruct (TranscriptionService.model self) as [m0|] eqn:E.
  - intros [= -> <- _]. exact E.
  - destruct (new _ _ _ _) as [[m1|e] os']; intros [= -> <- _]. reflexivity.
Qed.

Section Facts.
Context {WhisperModel Endpoint : Type}.
Variable WhisperModel_new : str -> str -> str -> OS -> result WhisperModel * OS.
Variable model_transcribe :
  WhisperModel -> str -> option str -> Z -> OS
  -> result (Segments * TranscriptionInfo) * OS.
Variable create : Request -> Endpoint -> result ChatCompletion * Endpoint.
Variable json_loads : str -> result value.
Variable lower : str -> str.
Variable format : value -> str -> result str.

Local Abbreviation analyze_click :=
  (analyze_click WhisperModel_new model_transcribe create json_loads lower format).
Local Abbreviation load_model := (load_model WhisperModel_new).
Local Abbreviation transcribe_uploaded_file :=
  (transcribe_uploaded_file WhisperModel_new model_transcribe).
Local Abbreviation analyze_meeting := (analyze_meeting create json_loads).

Implicit Types (w : World WhisperModel Endpoint) (f : UploadedFile).

(** the elements of the status box up to the transcription step *)
Local Abbreviation transcribing :=
  ((InPage, Status (pic 128260 " Processing..."))
   :: in_place InStatus
        [ StatusUpdate (pic 128230 " Loading Whisper model...") (py "running");
          StatusUpdate (pic 127908 " Transcribing audio (local faster-whisper)...")
            (py "running") ]).

(** X18. Once the transcription has succeeded, the page shows the transcript
    whatever the analysis does: the first tab has the text area with the text
    and the download button for it, under the name "transcription_", the name
    of the upload and ".txt"; the run is not stopped, and the disk and the
    cached service are those the transcription left. *)
Theorem transcript_is_always_shown
    size f w m self1 os1 text md self2 os2 msg :
  load_model (get_transcription_service size w) (os w) = (Return m, self1, os1) ->
  transcribe_uploaded_file self1 f None 5 os1 = (Return (text, md), self2, os2) ->
  transcription_success format md = Return msg ->
  let out := analyze_click size f w in
  (exists before rest,
      fst (fst out)
      = before
        ++ in_place (InTab 1)
             [ Subheader (pic 127908 " Complete Transcription");
               Markdown (py "**Raw meeting text:**");
               TextArea (py "Transcription") text 400 (py "collapsed");
               DownloadButton (pic 128190 " Download Transcription") text
                 (py "transcription_" ++ name f ++ py ".txt") (py "text/plain") ]
        ++ rest)
  /\ snd (fst out) <> Stopped
  /\ os (snd out) = os2
  /\ services (snd out) = <[size := self2]> (services w).
Proof.
  intros Hload Htr Hmsg. unfold Page.analyze_click.
  rewrite Hload, Htr. cbn [bind]. rewrite Hmsg. cbn [bind].
  destruct (analysis_step create json_loads text _) as [[shown d] g].
  destruct (results_shows_transcript f text d) as (rest & Hr).
  pose proof (results_never_stops f text d) as Hs.
  destruct (results f text d) as [tabs ending]. cbn [fst snd] in Hr, Hs.
  subst tabs. cbn [fst snd os services]. split; [|auto].
  exact (inside _ _ _ (transcription_tab f text) rest).
Qed.

(** X19. When the analysis raises, the page goes on with a stand-in: it
    shows the error with the text of the exception, the summary "Error during
    analysis. Please check your Groq API key.", the message that there are no
    action items, and the closing message of a completed analysis; the run
    is completed. *)
Theorem analysis_failure_shows_placeholder
    size f w m self1 os1 text md self2 os2 msg e g :
  load_model (get_transcription_service size w) (os w) = (Return m, self1, os1) ->
  transcribe_uploaded_file self1 f None 5 os1 = (Return (text, md), self2, os2) ->
  transcription_success format md = Return msg ->
  analyze_meeting text None (groq w) = (Raise e, g) ->
  let out := analyze_click size f w in
  snd (fst out) = Completed
  /\ (InStatus, Error (pic 10060 " Error during Groq analysis: " ++ exc_str e))
     ∈ fst (fst out)
  /\ (InTab 2, Info (PyStr (py "Error during analysis. Please check your Groq API key.")))
     ∈ fst (fst out)
  /\ (InTab 3, Info (PyStr (py "No action items detected in this meeting.")))
     ∈ fst (fst out)
  /\ (InPage, Success (pic 127881 " Analysis completed successfully!"))
     ∈ fst (fst out)
  /\ groq (snd out) = g.
Proof.
  intros Hload Htr Hmsg Hana. unfold Page.analyze_click.
  rewrite Hload, Htr. cbn [bind]. rewrite Hmsg. cbn [bind].
  unfold analysis_step. cbn [groq]. rewrite Hana.
  change (results f text placeholder)
    with (fst (results f text placeholder), Completed).
  cbn [fst snd groq]. split; [reflexivity|].
  assert (Hres : fst (results f text placeholder)
                 = in_place InPage
                     [ Markdown (py "---");
                       Header (pic 128202 " Analysis Results");
                       Tabs [ pic 128221 " Transcription";
                              pic 128203 " Executive Summary";
                              pic 9989 " Action Items" ] ]
                   ++ transcription_tab f text
                   ++ in_place (InTab 2)
                        [ Subheader (pic 128203 " Executive Summary");
                          Markdown (py "**Meeting summary:**");
                          Info (PyStr (py "Error during analysis. Please check your Groq API key.")) ]
                   ++ in_place (InTab 3)
                        [ Subheader (pic 9989 " Action Items");
                          Markdown (py "**Identified tasks and responsible persons:**");
                          Info (PyStr (py "No action items detected in this meeting.")) ]
                   ++ in_place InPage
                        [ Markdown (py "---");
                          Success (pic 127881 " Analysis completed successfully!") ])
    by reflexivity.
  rewrite Hres. unfold in_place. cbn [fmap list_fmap].
  repeat split; listed.
Qed.

(** X20. When the Whisper model cannot be built, the run is stopped after
    three error messages, the first of which carries the text of the cause
    behind the words of the page and those of the service; nothing is
    transcribed and nothing is asked of Groq, the service is kept, unloaded,
    under its size, and the disk is as the constructor left it. *)
Theorem load_failure_stops_the_run size f w e os1 :
  TranscriptionService.model (get_transcription_service size w) = None ->
  WhisperModel_new (model_size (get_transcription_service size w))
    (py "cpu") (py "int8") (os w) = (Raise e, os1) ->
  analyze_click size f w
  = ((InPage, Status (pic 128260 " Processing..."))
     :: in_place InStatus
          [ StatusUpdate (pic 128230 " Loading Whisper model...") (py "running");
            Error (pic 10060 " Unable to load Whisper model: Error loading Whisper model: "
                   ++ exc_str e);
            Error (pic 128161 " **Help:** Make sure faster-whisper is correctly installed.");
            Error (py "Try: `pip install faster-whisper`") ],
     Stopped,
     {| services := <[size := get_transcription_service size w]> (services w);
        os := os1; groq := groq w |}).
Proof.
  intros Hm He. unfold Page.analyze_click, TranscriptionService.load_model.
  rewrite Hm, He. reflexivity.
Qed.

(** X21. When the model fails on the temporary file, the run is stopped
    before the analysis: no request goes to Groq, and the error shown has
    the words "Error during transcription: " twice, those of the page and
    those of the service, before the text of the cause. *)
Theorem transcription_failure_stops_the_run
    size f w m self1 os1 p os2 n p' os3 os4 e os5 :
  load_model (get_transcription_service size w) (os w) = (Return m, self1, os1) ->
  Os.NamedTemporaryFile (file_extension f) os1 = (Return p, os2) ->
  Os.write p (getbuffer f) os2 = (Return n, p', os3) ->
  Os.close p' os3 = (Return (), os4) ->
  model_transcribe m (Os.name p) None 5 os4 = (Raise e, os5) ->
  let out := analyze_click size f w in
  snd (fst out) = Stopped
  /\ groq (snd out) = groq w
  /\ fst (fst out)
     = transcribing
       ++ in_place InStatus
            (transcription_errors lower
               (Exception (py "Error during transcription: " ++ exc_str e)))
  /\ head (transcription_errors lower
             (Exception (py "Error during transcription: " ++ exc_str e)))
     = Some (Error (pic 10060 " Error during transcription: Error during transcription: "
                    ++ exc_str e)).
Proof.
  intros Hload Hn Hw Hc He.
  pose proof (load_model_loads _ _ _ _ _ _ Hload) as Hm.
  unfold Page.analyze_click. rewrite Hload.
  rewrite (TranscriptionFacts.upload_written WhisperModel_new model_transcribe
             self1 f None 5%Z os1 p os2 n p' os3 Hn Hw), Hc.
  rewrite (TranscriptionFacts.transcribe_with_model WhisperModel_new
             model_transcribe self1 m (Os.name p) None 5%Z os4 os4)
    by (unfold TranscriptionService.model_in_use; rewrite Hm; reflexivity).
  rewrite He. cbn [bind fst snd groq].
  repeat split; reflexivity.
Qed.

(** X22. A result of the analysis that is not a dict breaks the page: the
    run ends with the [AttributeError] of the missing [get] method, right
    after the heading of the summary tab; the transcript tab has been
    written. *)
Theorem result_that_is_no_dict_breaks_the_page
    size f w m self1 os1 text md self2 os2 msg v g :
  load_model (get_transcription_service size w) (os w) = (Return m, self1, os1) ->
  transcribe_uploaded_file self1 f None 5 os1 = (Return (text, md), self2, os2) ->
  transcription_success format md = Return msg ->
  analyze_meeting text None (groq w) = (Return v, g) ->
  (forall d, v <> PyDict d) ->
  let out := analyze_click size f w in
  snd (fst out)
  = Uncaught (AttributeError
                (py "'" ++ Frontend.type_name v ++ py "' object has no attribute 'get'"))
  /\ exists before,
       fst (fst out)
       = before ++ transcription_tab f text
         ++ in_place (InTab 2)
              [ Subheader (pic 128203 " Executive Summary");
                Markdown (py "**Meeting summary:**") ].
Proof.
  intros Hload Htr Hmsg Hana Hv. unfold Page.analyze_click.
  rewrite Hload, Htr. cbn [bind]. rewrite Hmsg. cbn [bind].
  unfold analysis_step. cbn [groq]. rewrite Hana.
  unfold results.
  assert (Hget : Frontend.get v (py "resume_executif") (PyStr (py "No summary available"))
                 = Raise (AttributeError
                            (py "'" ++ Frontend.type_name v
                             ++ py "' object has no attribute 'get'"))).
  { destruct v; try reflexivity. exfalso. eapply Hv. reflexivity. }
  rewrite Hget. cbn [fst snd]. split; [reflexivity|].
  eexists. rewrite !app_assoc. reflexivity.
Qed.

(** X23. For a result that is a dict and whose action items can be shown,
    the run is completed: the status box says that the analysis is
    complete, the summary tab shows the value under "resume_executif", or "No
    summary available" when the key is missing, and the third tab shows what
    the action-item loop wrote. *)
Theorem dict_result_is_shown
    size f w m self1 os1 text md self2 os2 msg d g shown :
  load_model (get_transcription_service size w) (os w) = (Return m, self1, os1) ->
  transcribe_uploaded_file self1 f None 5 os1 = (Return (text, md), self2, os2) ->
  transcription_success format md = Return msg ->
  analyze_meeting text None (groq w) = (Return (PyDict d), g) ->
  Frontend.show_action_items (PyDict d) = (shown, Return ()) ->
  let out := analyze_click size f w in
  snd (fst out) = Completed
  /\ (InStatus, StatusUpdate (pic 9989 " Analysis complete!") (py "complete"))
     ∈ fst (fst out)
  /\ (InTab 2,
      Info (from_option id (PyStr (py "No summary available"))
              (dict_lookup d (py "resume_executif"))))
     ∈ fst (fst out)
  /\ (forall s, s ∈ shown -> (InTab 3, element_of_shown s) ∈ fst (fst out)).
Proof.
  intros Hload Htr Hmsg Hana Hshow. unfold Page.analyze_click.
  rewrite Hload, Htr. cbn [bind]. rewrite Hmsg. cbn [bind].
  unfold analysis_step. cbn [groq]. rewrite Hana.
  unfold results. cbn [Frontend.get]. rewrite Hshow. cbn [fst snd].
  split; [reflexivity|].
  split; [unfold in_place; cbn [fmap list_fmap]; listed|].
  split; [unfold in_place; cbn [fmap list_fmap]; listed|].
  intros s Hs.
  assert (H : (InTab 3, element_of_shown s)
              ∈ in_place (InTab 3)
                  ([ Subheader (pic 9989 " Action Items");
                     Markdown (py "**Identified tasks and responsible persons:**") ]
                   ++ (element_of_shown <$> shown))).
  { unfold in_place. apply list_elem_of_fmap_2, elem_of_app. right.
    apply list_elem_of_fmap_2, Hs. }
  rewrite !elem_of_app. auto 20.
Qed.

(** X24. After a run whose loading step succeeded, the service kept under
    the chosen size holds the model, whatever happened afterwards, and the
    services kept under other sizes are as they were; and a run that finds a
    loaded service under its size never calls the constructor. *)
Theorem loaded_service_is_kept size f w m self1 os1 :
  load_model (get_transcription_service size w) (os w) = (Return m, self1, os1) ->
  let out := analyze_click size f w in
  services (snd out) !! size = Some self1
  /\ TranscriptionService.model self1 = Some m
  /\ (forall q, q <> size -> services (snd out) !! q = services w !! q)
  /\ (forall new' f',
        Page.analyze_click new' model_transcribe create json_loads lower format
          size f' (snd out)
        = analyze_click size f' (snd out)).
Proof.
  intros Hload. pose proof (load_model_loads _ _ _ _ _ _ Hload) as Hm.
  destruct (upload_with_loaded_model WhisperModel_new WhisperModel_new
              model_transcribe self1 m f None 5%Z os1 Hm) as [Hsame _].
  assert (Hout : services (snd (analyze_click size f w))
                 = <[size := self1]> (services w)).
  { unfold Page.analyze_click. rewrite Hload.
    destruct (transcribe_uploaded_file self1 f None 5 os1)
      as [[r self2] disk] eqn:E. simpl in Hsame. subst self2.
    destruct (bind r _) as [[text msg]|e]; [|reflexivity].
    destruct (analysis_step create json_loads text _) as [[shown d] g].
    destruct (results f text d). reflexivity. }
  intros out. subst out. rewrite Hout.
  split; [apply lookup_insert_eq|]. split; [exact Hm|].
  split; [intros q Hq; apply lookup_insert_ne; congruence|].
  intros new' f'. revert Hout.
  generalize (snd (analyze_click size f w)). intros w' Hout.
  unfold Page.analyze_click, get_transcription_service.
  rewrite Hout, lookup_insert_eq. cbn [default from_option id].
  unfold TranscriptionService.load_model. rewrite Hm.
  destruct (upload_with_loaded_model WhisperModel_new new'
              model_transcribe self1 m f' None 5%Z (os w') Hm) as [_ ->].
  reflexivity.
Qed.

End Facts.
End PageFacts.

(** ** More runs on concrete endpoints, models and disks *)

Module MoreRuns.
Import Groq AnalysisService Whisper TranscriptionService Stub PageStub.

Abbreviation analyze := (analyze_meeting Stub.create json_decode).
Abbreviation transcribe answer :=
  (transcribe_audio_file (Stub.WhisperModel_new answer) Stub.model_transcribe).
Abbreviation upload_file answer :=
  (transcribe_uploaded_file (Stub.WhisperModel_new answer) Stub.model_transcribe).

Lemma exhaustion_reports_last_failure_witness :
  let table := [(fast, rate_limited); (large, unreachable)] in
  analyze transcript (Some [fast; large]) (session table)
  = (Raise (Exception (py "All models failed. Last error: Connection error.")),
     after table (session table) (request transcript <$> [fast; large])).
Proof.
  intros table.
  apply (AnalysisMore.exhaustion_reports_last_failure Stub.create json_decode
           transcript (Some [fast; large]) (session table) table
           (Some (LibraryError (py "APIConnectionError") (py "Connection error.")))).
  apply (failures_snoc Stub.create transcript table [fast] large table table
           (Some (LibraryError (py "RateLimitError") (py "Rate limit reached")))
           (LibraryError (py "APIConnectionError") (py "Connection error."))).
  - apply (failures_snoc Stub.create transcript table [] fast table table None
             (LibraryError (py "RateLimitError") (py "Rate limit reached")));
      [apply failures_nil | vm_compute; reflexivity].
  - vm_compute; reflexivity.
Defined.

Lemma result_is_never_None_witness :
  is_None (PyList [PyInt 1; PyInt 2]) = false.
Proof.
  apply (AnalysisMore.result_is_never_None Stub.create json_decode transcript
           None (session [(fast, says (py "[1, 2]"))])).
  vm_compute; reflexivity.
Defined.

Lemma contentless_reply_is_a_failure_witness :
  fst (analyze transcript (Some [fast])
         (session [(fast, Return (completion None))]))
  = Raise (Exception (py "All models failed. Last error: the JSON object must be str, bytes or bytearray, not NoneType"))
  /\ fst (analyze transcript (Some [fast])
            (session [(fast, Return {| choices := [] |})]))
     = Raise (Exception (py "All models failed. Last error: list index out of range")).
Proof.
  split.
  - destruct (AnalysisMore.contentless_reply_is_a_failure Stub.create json_decode
                transcript (Some [fast]) [] fast
                (session [(fast, Return (completion None))]) initial
                (session [(fast, Return (completion None))])
                (completion None) [(fast, Return (completion None))])
      as [H _]; [reflexivity | reflexivity | vm_compute; reflexivity |].
    rewrite H; reflexivity.
  - destruct (AnalysisMore.contentless_reply_is_a_failure Stub.create json_decode
                transcript (Some [fast]) [] fast
                (session [(fast, Return {| choices := [] |})]) initial
                (session [(fast, Return {| choices := [] |})])
                {| choices := [] |} [(fast, Return {| choices := [] |})])
      as [_ H]; [reflexivity | reflexivity | vm_compute; reflexivity |].
    rewrite H; reflexivity.
Defined.

(** A single candidate answers with an integer of 4301 digits; and a first
    one does, before one that answers as asked. *)
Lemma refused_content_is_a_failure_witness :
  let alone := session [(fast, says long_integer)] in
  let table := [(fast, says long_integer); (large, says report_with_owner)] in
  analyze transcript (Some [fast]) alone
  = (Raise (Exception (py "All models failed. Last error: Exceeds the limit (4300 digits) for integer string conversion: value has 4301 digits; use sys.set_int_max_str_digits() to increase the limit")),
     after (endpoint alone) alone (request transcript <$> [] ++ [fast]))
  /\ fst (analyze transcript (Some ([] ++ fast :: [large])) (session table))
     = Return (PyDict decoded_report_with_owner).
Proof.
  intros alone table.
  pose (refused :=
          ValueError (py "Exceeds the limit (4300 digits) for integer string conversion: value has 4301 digits; use sys.set_int_max_str_digits() to increase the limit")).
  split.
  - destruct (AnalysisMore.refused_content_is_a_failure Stub.create json_decode
                transcript (Some [fast]) [] fast [] alone initial alone
                (completion (Some long_integer)) (endpoint alone)
                long_integer refused)
      as [_ H]; [vm_compute; reflexivity ..|].
    exact (H eq_refl).
  - destruct (AnalysisMore.refused_content_is_a_failure Stub.create json_decode
                transcript (Some [fast; large]) [] fast [large] (session table)
                initial (session table) (completion (Some long_integer)) table
                long_integer refused)
      as [H _]; [vm_compute; reflexivity ..|].
    unfold analyze_meeting. cbn [default from_option id]. rewrite H.
    vm_compute; reflexivity.
Defined.

Lemma stale_response_escapes_handler_witness :
  let table := [ (fast, Return (completion None));
                 (large, Raise (JSONDecodeError (py "Expecting value")));
                 (other, says report_with_owner) ] in
  analyze transcript None (session table)
  = (Raise (TypeError (py "object of type 'NoneType' has no len()")),
     after table (session table) [request transcript fast; request transcript large]).
Proof.
  intros table.
  apply (AnalysisMore.stale_response_escapes_handler Stub.create json_decode
           transcript None [] fast large [other] (session table) initial
           (session table) (completion None) table (py "Expecting value") table);
    vm_compute; reflexivity.
Defined.

Lemma later_candidates_do_not_matter_witness :
  let table := [(fast, says report_with_owner); (large, unreachable)] in
  analyze transcript (Some ([fast] ++ [large; other])) (session table)
  = analyze transcript (Some [fast]) (session table).
Proof.
  intros table.
  apply (AnalysisMore.later_candidates_do_not_matter Stub.create json_decode
           transcript [fast] [large; other] (session table)).
  vm_compute; reflexivity.
Defined.

Lemma failing_prefix_is_transparent_witness :
  let table := [(fast, unreachable); (large, says long_prose)] in
  fst (analyze transcript (Some ([fast] ++ large :: [other])) (session table))
  = fst (analyze transcript (Some [large]) (session table))
  /\ returns (fst (analyze transcript (Some [large]) (session table))) = true.
Proof.
  intros table.
  apply (AnalysisMore.failing_prefix_is_transparent Stub.create json_decode
           transcript [fast] large [other] [] (session table) table
           (Some (LibraryError (py "APIConnectionError") (py "Connection error.")))
           (completion (Some long_prose)) table table long_prose).
  - apply (failures_snoc Stub.create transcript table [] fast table table None
             (LibraryError (py "APIConnectionError") (py "Connection error.")));
      [apply failures_nil | vm_compute; reflexivity].
  - vm_compute; reflexivity.
  - vm_compute; reflexivity.
  - vm_compute; reflexivity.
  - vm_compute. discriminate.
  - vm_compute. intros e [= <-]. reflexivity.
Defined.

Lemma transcript_is_trimmed_witness :
  (forall c, head (py "Hello  world.") = Some c -> isspace c = false)
  /\ (forall c, last (py "Hello  world.") = Some c -> isspace c = false)
  /\ strip (py "Hello  world.") = py "Hello  world.".
Proof.
  apply (TranscriptionMore.transcript_is_trimmed (Stub.WhisperModel_new hears)
           Stub.model_transcribe (init (py "base")) (py "/srv/meeting.wav")
           None 5%Z disk_with_audio (py "Hello  world.") (metadata english)).
  vm_compute; reflexivity.
Defined.

Lemma preloading_is_optional_witness :
  transcribe hears (loaded hears) (py "/srv/meeting.wav") None 5
    (primed disk_with_audio)
  = transcribe hears (init (py "base")) (py "/srv/meeting.wav") None 5
      disk_with_audio.
Proof.
  apply (TranscriptionMore.preloading_is_optional (Stub.WhisperModel_new hears)
           Stub.model_transcribe (init (py "base")) hears (loaded hears)
           disk_with_audio (primed disk_with_audio)
           (py "/srv/meeting.wav") None 5%Z).
  reflexivity.
Defined.

Lemma model_is_built_at_most_once_witness :
  model (snd (fst (transcribe breaks (init (py "base")) (py "/srv/meeting.wav")
                     None 5 disk_with_audio)))
  = Some breaks
  /\ snd (fst (transcribe hears (init (py "huge")) (py "/srv/meeting.wav") None 5
                 disk_with_audio))
     = init (py "huge").
Proof.
  split.
  - destruct (TranscriptionMore.model_is_built_at_most_once
                (Stub.WhisperModel_new breaks) Stub.model_transcribe
                (init (py "base")) (py "/srv/meeting.wav") None 5%Z disk_with_audio)
      as [H _].
    destruct (H breaks (primed disk_with_audio)) as [Hm _];
      [vm_compute; reflexivity | exact Hm].
  - destruct (TranscriptionMore.model_is_built_at_most_once
                (Stub.WhisperModel_new hears) Stub.model_transcribe
                (init (py "huge")) (py "/srv/meeting.wav") None 5%Z disk_with_audio)
      as [_ H].
    apply (H (ValueError (py "Invalid model size")) disk_with_audio).
    reflexivity.
Defined.

Lemma temp_file_creation_failure_witness :
  upload_file hears (init (py "base")) recording None 5 disk_with_audio
  = (Raise (OSError (py "[Errno 17] No usable temporary file name found")),
     init (py "base"), disk_with_audio).
Proof.
  apply (TranscriptionMore.temp_file_creation_failure (Stub.WhisperModel_new hears)
           Stub.model_transcribe (init (py "base")) recording None 5%Z
           disk_with_audio
           (OSError (py "[Errno 17] No usable temporary file name found"))
           disk_with_audio).
  reflexivity.
Defined.

(** The long recording on a disk with room for 1000 bytes. *)
Lemma failed_write_leaves_the_file_witness :
  let full := disk_with_room 1000 in
  let os1 := snd (Os.NamedTemporaryFile (py ".m4a") full) in
  let os2 := snd (Os.write long_created (getbuffer long_recording) os1) in
  upload_file hears (init (py "base")) long_recording None 5 full
  = (Raise Os.no_space, init (py "base"), os2)
  /\ (exists taken rest,
        getbuffer long_recording = taken ++ rest /\ rest <> []
        /\ files os2 !! long_temp_name = Some taken)
  /\ files os2 !! long_temp_name = Some (replicate 1000 7%N).
Proof.
  intros full os1 os2.
  destruct (TranscriptionMore.failed_write_leaves_the_file
              (Stub.WhisperModel_new hears) Stub.model_transcribe
              (init (py "base")) long_recording None 5%Z full
              long_created os1 Os.no_space long_created os2)
    as (H1 & H2 & _); [vm_compute; reflexivity ..|].
  split; [exact H1|]. split; [exact H2|]. vm_compute; reflexivity.
Defined.

(** The weights are downloaded in this run, and the first temporary name is
    taken; the file under that name is not touched. *)
Lemma other_files_untouched_witness :
  let out := upload_file breaks (init (py "base")) recording None 5 crowded_disk in
  files (snd out) !! temp_name = files crowded_disk !! temp_name
  /\ files crowded_disk !! temp_name = Some [1; 2; 3]%N
  /\ is_Some (files (snd out) !! weights_path (py "base"))
  /\ files crowded_disk !! weights_path (py "base") = None.
Proof.
  intros out.
  split; [|split; [reflexivity|split; [vm_compute; eauto | reflexivity]]].
  apply (TranscriptionMore.other_files_untouched (Stub.WhisperModel_new breaks)
           Stub.model_transcribe (init (py "base")) recording None 5%Z
           crowded_disk temp_name).
  - left. vm_compute. eauto.
  - intros size device compute_type os'. unfold Stub.WhisperModel_new.
    destruct (existsb _ _); [|reflexivity].
    destruct (files os' !! weights_path size); [reflexivity|].
    destruct (free os' <? _)%N; [reflexivity|].
    apply lookup_insert_ne. vm_compute. discriminate.
  - reflexivity.
Defined.

Lemma disk_is_restored_witness :
  let out os := upload_file hears (loaded hears) recording None 5 os in
  (files (snd (out Stub.disk)) = files Stub.disk
   /\ free (snd (out Stub.disk)) = free Stub.disk
   /\ pinned (snd (out Stub.disk)) = pinned Stub.disk
   /\ stdout (snd (out Stub.disk)) = stdout Stub.disk)
  /\ fst (fst (out (disk_with_room 2))) = Raise Os.no_space
  /\ free (snd (out (disk_with_room 2))) = 2%N.
Proof.
  intros out. split.
  - apply (TranscriptionMore.disk_is_restored (Stub.WhisperModel_new hears)
             Stub.model_transcribe (loaded hears) hears recording None 5%Z
             Stub.disk created (with_temp Stub.disk) 4%N written
             (with_temp Stub.disk));
      [vm_compute; reflexivity | vm_compute; reflexivity | reflexivity
      | reflexivity | apply not_elem_of_empty].
  - split; [vm_compute; reflexivity|].
    apply (TranscriptionMore.disk_is_restored (Stub.WhisperModel_new hears)
             Stub.model_transcribe (loaded hears) hears recording None 5%Z
             (disk_with_room 2) created (with_temp (disk_with_room 2)) 4%N written
             (with_temp (disk_with_room 2)));
      [vm_compute; reflexivity | vm_compute; reflexivity | reflexivity
      | reflexivity | apply not_elem_of_empty].
Defined.

Lemma model_reads_the_upload_witness :
  let os3 := snd (Os.close written (with_temp Stub.disk)) in
  fst (fst (upload_file hears (init (py "base")) recording None 5 Stub.disk))
  = fst (fst (transcribe hears (init (py "base")) temp_name None 5 os3))
  /\ files os3 !! temp_name = Some [82; 73; 70; 70]%N
  /\ fst (fst (upload_file hears (init (py "base")) recording None 5
                 (disk_with_room 2)))
     = Raise Os.no_space.
Proof.
  intros os3.
  destruct (TranscriptionMore.model_reads_the_upload (Stub.WhisperModel_new hears)
              Stub.model_transcribe (init (py "base")) recording None 5%Z Stub.disk
              created (with_temp Stub.disk) 4%N written (with_temp Stub.disk))
    as (H & _); [vm_compute; reflexivity ..|].
  assert (Hc : Os.close written (with_temp Stub.disk) = (Return (), os3))
    by (vm_compute; reflexivity).
  rewrite Hc in H. destruct H as [H1 H2].
  destruct (TranscriptionMore.model_reads_the_upload (Stub.WhisperModel_new hears)
              Stub.model_transcribe (init (py "base")) recording None 5%Z
              (disk_with_room 2) created (with_temp (disk_with_room 2)) 4%N
              written (with_temp (disk_with_room 2)))
    as (H & _); [vm_compute; reflexivity ..|].
  assert (Hc' : Os.close written (with_temp (disk_with_room 2))
                = (Raise Os.no_space,
                   snd (Os.close written (with_temp (disk_with_room 2)))))
    by (vm_compute; reflexivity).
  rewrite Hc' in H. auto.
Defined.

Lemma action_items_are_numbered_witness :
  Frontend.show_action_items (PyDict decoded_report_without_owner)
  = ([ Frontend.Item 1 (PyStr (py "Finish report")) (PyStr (py "Not assigned"));
       Frontend.Rule ], Return ())
  /\ Frontend.show_action_items (PyDict []) = ([Frontend.NoActionItems], Return ()).
Proof.
  split.
  - apply (FrontendMore.action_items_are_numbered decoded_report_without_owner
             [[(py "tache", PyStr (py "Finish report"))]]);
      [vm_compute; reflexivity | discriminate].
  - apply (FrontendMore.action_items_are_numbered [] []). left. reflexivity.
Defined.

Lemma item_that_is_no_dict_stops_the_tab_witness :
  Frontend.show_action_items
    (PyDict [(py "action_items",
              PyList [PyDict [(py "tache", PyStr (py "Finish report"))];
                      PyStr (py "call Bob"); PyDict []])])
  = ([ Frontend.Item 1 (PyStr (py "Finish report")) (PyStr (py "Not assigned"));
       Frontend.Rule ],
     Raise (AttributeError (py "'str' object has no attribute 'get'"))).
Proof.
  apply (FrontendMore.item_that_is_no_dict_stops_the_tab
           [(py "action_items",
             PyList [PyDict [(py "tache", PyStr (py "Finish report"))];
                     PyStr (py "call Bob"); PyDict []])]
           [[(py "tache", PyStr (py "Finish report"))]]
           (PyStr (py "call Bob")) [PyDict []]);
    [vm_compute; reflexivity | discriminate].
Defined.

(** the page runs: the message of the transcription step *)
Abbreviation heard := (py "Hello  world.").
Abbreviation success_message :=
  (Page.pic 9989 " Transcription complete! (Detected language: en, Probability: 98.00%)").

Lemma transcript_is_always_shown_witness :
  let w := world [(fast, unreachable)] Stub.disk in
  snd (fst (click hears w)) <> Page.Stopped
  /\ Page.os (snd (click hears w)) = snd (upload hears Stub.disk).
Proof.
  intros w.
  destruct (PageFacts.transcript_is_always_shown (Stub.WhisperModel_new hears)
              Stub.model_transcribe Stub.create json_decode lower format
              (py "base") recording w hears (loaded hears) (primed Stub.disk)
              heard (metadata english) (loaded hears)
              (snd (upload hears Stub.disk)) success_message)
    as (_ & H1 & H2 & _); [vm_compute; reflexivity ..|].
  split; [exact H1 | exact H2].
Defined.

Lemma analysis_failure_shows_placeholder_witness :
  let w := world [(fast, rate_limited)] Stub.disk in
  snd (fst (click hears w)) = Page.Completed
  /\ (Page.InStatus,
      Page.Error (Page.pic 10060 " Error during Groq analysis: All models failed. Last error: Connection error."))
     ∈ fst (fst (click hears w)).
Proof.
  intros w.
  destruct (PageFacts.analysis_failure_shows_placeholder
              (Stub.WhisperModel_new hears) Stub.model_transcribe Stub.create
              json_decode lower format (py "base") recording w hears
              (loaded hears) (primed Stub.disk) heard (metadata english)
              (loaded hears) (snd (upload hears Stub.disk)) success_message
              (Exception (py "All models failed. Last error: Connection error."))
              (snd (analyze heard None (Page.groq w))))
    as (H1 & H2 & _); [vm_compute; reflexivity ..|].
  split; [exact H1 | exact H2].
Defined.

Lemma load_failure_stops_the_run_witness :
  let w := world [(fast, unreachable)] Stub.disk in
  snd (fst (Page.analyze_click (Stub.WhisperModel_new hears) Stub.model_transcribe
              Stub.create json_decode lower format (py "huge") recording w))
  = Page.Stopped.
Proof.
  intros w.
  rewrite (PageFacts.load_failure_stops_the_run (Stub.WhisperModel_new hears)
             Stub.model_transcribe Stub.create json_decode lower format
             (py "huge") recording w (ValueError (py "Invalid model size"))
             Stub.disk);
    reflexivity.
Defined.

Lemma transcription_failure_stops_the_run_witness :
  let w := world [(fast, says report_with_owner)] Stub.disk in
  snd (fst (click breaks w)) = Page.Stopped
  /\ Page.groq (snd (click breaks w)) = Page.groq w.
Proof.
  intros w.
  destruct (PageFacts.transcription_failure_stops_the_run
              (Stub.WhisperModel_new breaks) Stub.model_transcribe Stub.create
              json_decode lower format (py "base") recording w breaks
              (loaded breaks) (primed Stub.disk) created
              (with_temp (primed Stub.disk)) 4%N written
              (with_temp (primed Stub.disk))
              (snd (Os.close written (with_temp (primed Stub.disk))))
              decode_failure
              (snd (Os.close written (with_temp (primed Stub.disk)))))
    as (H1 & H2 & _); [vm_compute; reflexivity ..|].
  split; [exact H1 | exact H2].
Defined.

Lemma result_that_is_no_dict_breaks_the_page_witness :
  let w := world [(fast, says (py "[1, 2]"))] Stub.disk in
  snd (fst (click hears w))
  = Page.Uncaught (AttributeError (py "'list' object has no attribute 'get'")).
Proof.
  intros w.
  destruct (PageFacts.result_that_is_no_dict_breaks_the_page
              (Stub.WhisperModel_new hears) Stub.model_transcribe Stub.create
              json_decode lower format (py "base") recording w hears
              (loaded hears) (primed Stub.disk) heard (metadata english)
              (loaded hears) (snd (upload hears Stub.disk)) success_message
              (PyList [PyInt 1; PyInt 2])
              (snd (analyze heard None (Page.groq w))))
    as (H & _); [vm_compute; reflexivity .. | discriminate |].
  exact H.
Defined.

Lemma dict_result_is_shown_witness :
  let w := world [(fast, says report_without_owner)] Stub.disk in
  snd (fst (click hears w)) = Page.Completed
  /\ (Page.InTab 2, Page.Info (PyStr (py "Team discussed report deadline.")))
     ∈ fst (fst (click hears w))
  /\ (Page.InTab 3,
      Page.ActionItem 1 (PyStr (py "Finish report")) (PyStr (py "Not assigned")))
     ∈ fst (fst (click hears w)).
Proof.
  intros w.
  destruct (PageFacts.dict_result_is_shown
              (Stub.WhisperModel_new hears) Stub.model_transcribe Stub.create
              json_decode lower format (py "base") recording w hears
              (loaded hears) (primed Stub.disk) heard (metadata english)
              (loaded hears) (snd (upload hears Stub.disk)) success_message
              decoded_report_without_owner
              (snd (analyze heard None (Page.groq w)))
              [ Frontend.Item 1 (PyStr (py "Finish report"))
                  (PyStr (py "Not assigned"));
                Frontend.Rule ])
    as (H1 & _ & H2 & H3); [vm_compute; reflexivity ..|].
  split; [exact H1|]. split; [exact H2|].
  apply (H3 (Frontend.Item 1 (PyStr (py "Finish report"))
               (PyStr (py "Not assigned")))).
  apply list_elem_of_here.
Defined.

Lemma loaded_service_is_kept_witness :
  let w := world [(fast, unreachable)] Stub.disk in
  Page.services (snd (click breaks w)) !! py "base" = Some (loaded breaks)
  /\ Page.services (snd (click breaks w)) !! py "small" = None.
Proof.
  intros w.
  destruct (PageFacts.loaded_service_is_kept
              (Stub.WhisperModel_new breaks) Stub.model_transcribe Stub.create
              json_decode lower format (py "base") recording w breaks
              (loaded breaks) (primed Stub.disk))
    as (H1 & _ & H2 & _); [vm_compute; reflexivity|].
  split; [exact H1|]. rewrite H2; [reflexivity | discriminate].
Defined.

End MoreRuns.
